(** * RevenuePred: the synthetic renewable-energy data generator

    A shallow embedding of [src/data_generation/generate_synthetic_data.py]
    (class [RenewableEnergyDataGenerator]) together with the properties of
    its output table.

    Conventions of the embedding.
    - A Python/NumPy float is a rational number ([Q]); rounding, infinities
      and overflow are not modelled.  The only NaN of the program is the
      missing-value marker that the degradation stage writes into a table
      cell: a float cell of a table is an [option Q] and [None] is NaN.
    - A NumPy array is a [list]; whole-array arithmetic is written with
      [map] and [map2].  NumPy raises on two arrays of different lengths
      where [map2] stops at the shorter one; the arrays of the program
      all have the length of the date range (a list of samples has the
      requested length by construction), and the one place that receives
      arrays from a caller, the table constructor, checks the lengths as
      pandas does.
    - The global NumPy random state is threaded explicitly by a state and
      exception monad.  NumPy itself (its generator, [sin], [pi]) is an
      interface, class [NumPy]; the built-in string [hash] of the Python
      interpreter is an interface too, class [Interpreter].
    - A calendar date is the number of days since 1970-01-01. *)

From Stdlib Require Import String Ascii ZArith QArith Qabs Qminmax Qround Bool List.
From Stdlib Require Import Lia Lqa Permutation Sorted.
Import ListNotations.

Local Open Scope Z_scope.

(** ** Calendar: what the program uses of pandas' timestamps *)

Module Calendar.

(** Days since 1970-01-01 of the civil date [y]-[m]-[d] (proleptic
    Gregorian calendar). *)
Definition days_from_civil (y m d : Z) : Z :=
  let y' := if m <=? 2 then y - 1 else y in
  let era := y' / 400 in
  let yoe := y' - era * 400 in
  let doy := (153 * (if 2 <? m then m - 3 else m + 9) + 2) / 5 + d - 1 in
  let doe := yoe * 365 + yoe / 4 - yoe / 100 + doy in
  era * 146097 + doe - 719468.

(** The civil year of a day number. *)
Definition year_of (z : Z) : Z :=
  let z' := z + 719468 in
  let era := z' / 146097 in
  let doe := z' - era * 146097 in
  let yoe := (doe - doe / 1460 + doe / 36524 - doe / 146096) / 365 in
  let doy := doe - (365 * yoe + yoe / 4 - yoe / 100) in
  let mp := (5 * doy + 2) / 153 in
  let m := if mp <? 10 then mp + 3 else mp - 9 in
  yoe + era * 400 + (if m <=? 2 then 1 else 0).

(** [DatetimeIndex.dayofyear]: 1 for the first of January. *)
Definition dayofyear (z : Z) : Z :=
  z - days_from_civil (year_of z) 1 1 + 1.

(** [DatetimeIndex.dayofweek]: Monday is 0, Sunday is 6. *)
Definition dayofweek (z : Z) : Z := (z + 3) mod 7.

Definition is_leap (y : Z) : bool :=
  ((y mod 4 =? 0) && negb (y mod 100 =? 0)) || (y mod 400 =? 0).

Definition days_in_month (y m : Z) : Z :=
  if m =? 2 then (if is_leap y then 29 else 28)
  else if (m =? 4) || (m =? 6) || (m =? 9) || (m =? 11) then 30
  else 31.

Definition digit (c : ascii) : option Z :=
  let n := Z.of_nat (nat_of_ascii c) in
  if (48 <=? n) && (n <=? 57) then Some (n - 48) else None.

Fixpoint number (acc : Z) (cs : list ascii) : option Z :=
  match cs with
  | [] => Some acc
  | c :: cs' =>
      match digit c with
      | Some k => number (10 * acc + k) cs'
      | None => None
      end
  end.

(** [pd.to_datetime] on the format the constructor documents,
    YYYY-MM-DD.  [None] stands for the exception pandas raises on a
    string that is not a date; the other formats pandas accepts are
    outside the model.  The bounds are those of a nanosecond timestamp
    (1677-09-22 to 2262-04-11). *)
Definition to_datetime (s : string) : option Z :=
  match list_ascii_of_string s with
  | [y1; y2; y3; y4; "-"%char; m1; m2; "-"%char; d1; d2] =>
      match number 0 [y1; y2; y3; y4], number 0 [m1; m2], number 0 [d1; d2] with
      | Some y, Some m, Some d =>
          if (1 <=? m) && (m <=? 12) && (1 <=? d) && (d <=? days_in_month y m)
          then
            let z := days_from_civil y m d in
            if (-106751 <=? z) && (z <=? 106751) then Some z else None
          else None
      | _, _, _ => None
      end
  | _ => None
  end.

(** [pd.date_range(start, end, freq='D')]: every day from [start] to
    [stop], both included; empty when [stop] is before [start]. *)
Definition date_range (start stop : Z) : list Z :=
  map (fun k => start + Z.of_nat k) (seq 0 (Z.to_nat (stop - start + 1))).

End Calendar.

Example days_2023_01_01 : Calendar.to_datetime "2023-01-01" = Some 19358.
Proof. reflexivity. Qed.

Example sunday_2023_01_01 :
  Calendar.dayofweek 19358 = 6 /\ Calendar.dayofyear 19358 = 1.
Proof. split; reflexivity. Qed.

Example leap_day_2024 :
  option_map Calendar.dayofyear (Calendar.to_datetime "2024-12-31") = Some 366
  /\ Calendar.to_datetime "2023-02-29" = None.
Proof. split; reflexivity. Qed.

Example week_2023 :
  Calendar.date_range 19358 19364 =
    [19358; 19359; 19360; 19361; 19362; 19363; 19364].
Proof. reflexivity. Qed.

(** ** The libraries the program stands on *)

Local Open Scope Q_scope.

(** NumPy as the program sees it: [np.pi], [np.sin] and the legacy global
    generator behind [np.random].  The generator is deterministic: a state,
    a seeding function and one primitive per distribution, each taking a
    state to a sample and the next state.  The laws are the documented
    ranges of the samples. *)
Class NumPy : Type := {
  np_pi : Q;
  np_sin : Q -> Q;
  RandomState : Type;
  rk_seed : Z -> RandomState;
  rk_double : RandomState -> Q * RandomState;
  rk_gauss : RandomState -> Q * RandomState;
  rk_standard_exponential : RandomState -> Q * RandomState;
  rk_standard_gamma : Q -> RandomState -> Q * RandomState;
  rk_interval : nat -> RandomState -> nat * RandomState;
  rk_double_range :
    forall s, 0 <= fst (rk_double s) /\ fst (rk_double s) < 1;
  rk_standard_exponential_nonneg :
    forall s, 0 <= fst (rk_standard_exponential s);
  rk_standard_gamma_nonneg :
    forall shape s, 0 <= fst (rk_standard_gamma shape s);
  rk_interval_le :
    forall top s, (fst (rk_interval top s) <= top)%nat
}.

(** The Python process: the built-in [hash] on strings.  CPython salts it
    with a secret chosen when the interpreter starts (PYTHONHASHSEED), so
    it is a parameter of the run, not a constant of the program. *)
Class Interpreter : Type := {
  py_hash : string -> Z
}.

Inductive exn : Type :=
| ValueError (msg : string)
| KeyError (key : string)
| IndexError.

Definition map2 {A B C : Type} (f : A -> B -> C) : list A -> list B -> list C :=
  fix go (xs : list A) (ys : list B) : list C :=
    match xs, ys with
    | x :: xs', y :: ys' => f x y :: go xs' ys'
    | _, _ => []
    end.

Definition Qltb (x y : Q) : bool := negb (Qle_bool y x).

(** A Python [bool] used as a number. *)
Definition as_float (b : bool) : Q := if b then 1 else 0.

Section Program.

Context {numpy : NumPy} {python : Interpreter}.

(** *** Random state and exceptions *)

Definition M (A : Type) : Type := RandomState -> exn + A * RandomState.

Definition ret {A : Type} (a : A) : M A := fun g => inr (a, g).

Definition bind {A B : Type} (m : M A) (k : A -> M B) : M B :=
  fun g => match m g with
           | inl e => inl e
           | inr (a, g') => k a g'
           end.

Definition raise {A : Type} (e : exn) : M A := fun _ => inl e.

Definition lift {A : Type} (f : RandomState -> A * RandomState) : M A :=
  fun g => inr (f g).

Notation "x <- m ;; k" := (bind m (fun x => k))
  (at level 61, m at next level, right associativity).
Notation "m ;; k" := (bind m (fun _ => k))
  (at level 61, right associativity).

Fixpoint mapM {A B : Type} (f : A -> M B) (xs : list A) : M (list B) :=
  match xs with
  | [] => ret []
  | x :: xs' => y <- f x ;; ys <- mapM f xs' ;; ret (y :: ys)
  end.

Fixpoint foldM {A B : Type} (f : A -> B -> M A) (a : A) (xs : list B) : M A :=
  match xs with
  | [] => ret a
  | x :: xs' => a' <- f a x ;; foldM f a' xs'
  end.

(** [size] samples from one primitive, in order. *)
Fixpoint draws {A : Type} (f : RandomState -> A * RandomState)
  (size : nat) (g : RandomState) : list A * RandomState :=
  match size with
  | O => ([], g)
  | S n => let (x, g1) := f g in
           let (xs, g2) := draws f n g1 in
           (x :: xs, g2)
  end.

(** *** [np.random] *)

Definition np_random_seed (s : Z) : M unit := fun _ => inr (tt, rk_seed s).

Definition np_random_random (size : nat) : M (list Q) :=
  lift (draws rk_double size).

Definition np_random_uniform (low high : Q) (size : nat) : M (list Q) :=
  us <- lift (draws rk_double size) ;;
  ret (map (fun u => low + (high - low) * u) us).

Definition np_random_normal (loc scale : Q) (size : nat) : M (list Q) :=
  zs <- lift (draws rk_gauss size) ;;
  ret (map (fun z => loc + scale * z) zs).

Definition np_random_gamma (shape scale : Q) (size : nat) : M (list Q) :=
  xs <- lift (draws (rk_standard_gamma shape) size) ;;
  ret (map (fun x => scale * x) xs).

Definition np_random_exponential (scale : Q) (size : nat) : M (list Q) :=
  xs <- lift (draws rk_standard_exponential size) ;;
  ret (map (fun x => scale * x) xs).

Definition np_sum (xs : list Q) : Q := fold_left Qplus xs 0.

Fixpoint cumsum_from (acc : Q) (xs : list Q) : list Q :=
  match xs with
  | [] => []
  | x :: xs' => (acc + x) :: cumsum_from (acc + x) xs'
  end.

(** [cdf.searchsorted(u, side='right')] on a non-decreasing array: the
    number of leading entries that are at most [u]. *)
Fixpoint searchsorted_right (cdf : list Q) (u : Q) : nat :=
  match cdf with
  | [] => O
  | c :: cdf' => if Qle_bool c u then S (searchsorted_right cdf' u) else O
  end.

(** The tolerance of [choice] on the sum of [p]: the square root of the
    machine epsilon of a double, 2^-26. *)
Definition atol : Q := 1 # 67108864.

(** [np.random.choice(a, p=p)], one sample. *)
Definition np_random_choice_p {A : Type} (a : list A) (p : list Q) : M A :=
  if (length a =? 0)%nat then raise (ValueError "'a' cannot be empty unless no samples are taken")
  else if negb (length p =? length a)%nat then raise (ValueError "'a' and 'p' must have same size")
  else if existsb (fun x => Qltb x 0) p then raise (ValueError "probabilities are not non-negative")
  else if Qltb atol (Qabs (np_sum p - 1)) then raise (ValueError "probabilities do not sum to 1")
  else
    let cdf := cumsum_from 0 p in
    let cdf := map (fun c => c / last cdf 0) cdf in
    u <- lift rk_double ;;
    match nth_error a (searchsorted_right cdf u) with
    | Some x => ret x
    | None => raise IndexError
    end.

(** [np.random.choice(a, size=size)] with uniform weights: [size]
    indices from [randint(0, len(a))]. *)
Definition np_random_choice {A : Type} (a : list A) (size : nat) : M (list A) :=
  if (length a =? 0)%nat && negb (size =? 0)%nat
  then raise (ValueError "'a' cannot be empty unless no samples are taken")
  else
    idx <- lift (draws (rk_interval (length a - 1)) size) ;;
    mapM (fun i => match nth_error a i with
                   | Some x => ret x
                   | None => raise IndexError
                   end) idx.

(** ** The generator *)

(** One entry of the site catalog: the dictionary under a site id.  A
    site carries its capacity under ['capacity_mw'] or, for storage,
    under ['capacity_mwh']. *)
Record SiteInfo : Type := {
  name : string;
  type : string;
  capacity_mw : option Q;
  capacity_mwh : option Q
}.

(** The attributes of a [RenewableEnergyDataGenerator].  [sites] is a
    Python dictionary: an association list in insertion order. *)
Record RenewableEnergyDataGenerator : Type := {
  start_date : Z;
  end_date : Z;
  date_range : list Z;
  sites : list (string * SiteInfo);
  weather_conditions : list string
}.

(** One row of a table with the eleven columns of the output.  The float
    columns hold [None] for NaN. *)
Record Row : Type := {
  Date : Z;
  SiteID : string;
  SiteName : string;
  SiteType : string;
  EnergyProduced_kWh : option Q;
  SpotMarketPrice : option Q;
  Revenue : option Q;
  WeatherCondition : string;
  DowntimeHours : option Q;
  Temperature_C : option Q;
  WindSpeed_mps : option Q
}.

Definition DataFrame : Type := list Row.

Definition columns : list string :=
  ["Date"; "SiteID"; "SiteName"; "SiteType"; "EnergyProduced_kWh";
   "SpotMarketPrice"; "Revenue"; "WeatherCondition"; "DowntimeHours";
   "Temperature_C"; "WindSpeed_mps"]%string.

Definition default_sites : list (string * SiteInfo) :=
  [("SOLAR001", {| name := "Desert Sun Solar Farm"; type := "solar";
                   capacity_mw := Some 50; capacity_mwh := None |});
   ("SOLAR002", {| name := "Coastal Solar Array"; type := "solar";
                   capacity_mw := Some 35; capacity_mwh := None |});
   ("SOLAR003", {| name := "Mountain Ridge Solar"; type := "solar";
                   capacity_mw := Some 60; capacity_mwh := None |});
   ("WIND001", {| name := "Prairie Wind Farm"; type := "wind";
                  capacity_mw := Some 100; capacity_mwh := None |});
   ("WIND002", {| name := "Offshore Wind Array"; type := "wind";
                  capacity_mw := Some 150; capacity_mwh := None |});
   ("BATT001", {| name := "Grid Scale Battery"; type := "battery";
                  capacity_mw := None; capacity_mwh := Some 200 |})]%string.

(** [RenewableEnergyDataGenerator.__init__].  The only statements that
    can raise are the two [pd.to_datetime]. *)
Definition __init__ (start_date end_date : string)
  : exn + RenewableEnergyDataGenerator :=
  match Calendar.to_datetime start_date with
  | None => inl (ValueError start_date)
  | Some s =>
      match Calendar.to_datetime end_date with
      | None => inl (ValueError end_date)
      | Some e =>
          inr {| start_date := s;
                 end_date := e;
                 date_range := Calendar.date_range s e;
                 sites := default_sites;
                 weather_conditions :=
                   ["Sunny"; "Partly Cloudy"; "Cloudy"; "Rainy"; "Stormy";
                    "Foggy"]%string |}
      end
  end.

Definition dayofyear (d : Z) : Q := inject_Z (Calendar.dayofyear d).

Definition _generate_spot_market_price
  (self : RenewableEnergyDataGenerator) (dates : list Z) : M (list Q) :=
  np_random_seed 42 ;;
  let base_price := 45 in
  let seasonal :=
    map (fun d => 10 * np_sin (2 * np_pi * dayofyear d / 365.25)
                  + 8 * np_sin (4 * np_pi * dayofyear d / 365.25)) dates in
  let weekly :=
    map (fun d => 5 * as_float (Calendar.dayofweek d <? 5)%Z) dates in
  let years_since_start :=
    map (fun d => inject_Z (d - start_date self) / 365.25) dates in
  let trend := map (fun y => 2 * y) years_since_start in
  volatility <- np_random_normal 0 8 (length dates) ;;
  let spike_prob := 0.05 in
  u <- np_random_random (length dates) ;;
  let spikes := map (fun x => Qltb x spike_prob) u in
  v <- np_random_uniform 20 80 (length dates) ;;
  let spike_values := map2 (fun x b => x * as_float b) v spikes in
  let prices :=
    map2 Qplus
      (map2 Qplus
         (map2 Qplus
            (map2 Qplus (map (fun s => base_price + s) seasonal) weekly)
            trend)
         volatility)
      spike_values in
  let prices := map (fun p => Qmax p 5) prices in
  ret prices.

Definition _generate_weather_data
  (self : RenewableEnergyDataGenerator) (dates : list Z)
  : M (list string * list Q * list Q) :=
  np_random_seed 123 ;;
  let avg_temp := 15 in
  let seasonal_temp :=
    map (fun d => 12 * np_sin (2 * np_pi * (dayofyear d - 80) / 365.25))
      dates in
  daily_variation <- np_random_normal 0 5 (length dates) ;;
  let temperature :=
    map2 Qplus (map (fun s => avg_temp + s) seasonal_temp) daily_variation in
  let base_wind := 8 in
  let seasonal_wind :=
    map (fun d => 3 * np_sin (2 * np_pi * (dayofyear d - 120) / 365.25))
      dates in
  wind_variation <- np_random_gamma 2 2 (length dates) ;;
  let wind_speed :=
    map (fun w => Qmax w 0)
      (map2 Qplus (map (fun s => base_wind + s) seasonal_wind)
         wind_variation) in
  let weather_probs :=
    map2 (fun t w =>
            [0.4 + 0.2 * as_float (Qltb 20 t);
             0.25 * 1;
             0.2 * 1;
             0.1 + 0.1 * as_float (Qltb t 10);
             0.03 + 0.02 * as_float (Qltb 15 w);
             0.02 + 0.03 * as_float (Qltb t 5)])
      temperature wind_speed in
  let weather_probs :=
    map (fun probs => map (fun p => p / np_sum probs) probs)
      weather_probs in
  weather_conditions <-
    mapM (fun probs => np_random_choice_p (weather_conditions self) probs)
      weather_probs ;;
  ret (weather_conditions, temperature, wind_speed).

Definition _generate_solar_production
  (dates : list Z) (weather : list string) (temperature : list Q)
  (capacity : Q) : M (list Q) :=
  let seasonal_factor :=
    map (fun d => 0.7 + 0.3 * np_sin (2 * np_pi * (dayofyear d - 80) / 365.25))
      dates in
  let weather_factor :=
    map (fun w =>
           if (w =? "Sunny")%string then 0.95 else
           if (w =? "Partly Cloudy")%string then 0.75 else
           if (w =? "Cloudy")%string then 0.45 else
           if (w =? "Rainy")%string then 0.2 else
           if (w =? "Stormy")%string then 0.1 else
           if (w =? "Foggy")%string then 0.3 else 0.5) weather in
  let temp_factor :=
    map (fun t => Qmax 0.5 (1 - 0.01 * Qmax 0 (t - 25))) temperature in
  daily_variation <- np_random_uniform 0.8 1.2 (length dates) ;;
  let base_hours := map (fun s => 8 + 4 * s) seasonal_factor in
  let production :=
    map2 Qmult
      (map2 Qmult
         (map2 Qmult
            (map2 Qmult (map (fun h => capacity * h) base_hours)
               seasonal_factor)
            weather_factor)
         temp_factor)
      daily_variation in
  ret (map (fun p => Qmax p 0) production).

(** The local [capacity_factor] of [_generate_wind_production]: the
    nested [np.where] over the wind speeds. *)
Definition capacity_factor (wind_speed : list Q) : list Q :=
  let cut_in := 3.5 in
  let rated_speed := 12 in
  let cut_out := 25 in
  map (fun w =>
         if Qltb w cut_in then 0
         else if Qltb w rated_speed then (w / rated_speed) ^ 3
         else if Qltb w cut_out then 1 else 0) wind_speed.

Definition _generate_wind_production
  (dates : list Z) (weather : list string) (wind_speed : list Q)
  (capacity : Q) : M (list Q) :=
  let capacity_factor := capacity_factor wind_speed in
  let weather_factor :=
    map (fun w =>
           if (w =? "Sunny")%string then 0.8 else
           if (w =? "Partly Cloudy")%string then 0.9 else
           if (w =? "Cloudy")%string then 1.0 else
           if (w =? "Rainy")%string then 1.1 else
           if (w =? "Stormy")%string then 1.3 else
           if (w =? "Foggy")%string then 0.7 else 1.0) weather in
  daily_variation <- np_random_uniform 0.85 1.15 (length dates) ;;
  let production :=
    map2 Qmult
      (map2 Qmult (map (fun c => capacity * 24 * c) capacity_factor)
         weather_factor)
      daily_variation in
  ret (map (fun p => Qmax p 0) production).

Definition _generate_battery_production
  (dates : list Z) (weather : list string) (capacity : Q) : M (list Q) :=
  let seasonal_factor :=
    map (fun d => 0.4 + 0.3 * Qabs (np_sin (2 * np_pi * dayofyear d / 365.25)))
      dates in
  let weekly_factor :=
    map (fun d => 0.8 + 0.4 * as_float (Calendar.dayofweek d <? 5)%Z) dates in
  let weather_factor :=
    map (fun w =>
           if (w =? "Sunny")%string then 0.3 else
           if (w =? "Partly Cloudy")%string then 0.5 else
           if (w =? "Cloudy")%string then 0.8 else
           if (w =? "Rainy")%string then 1.0 else
           if (w =? "Stormy")%string then 1.2 else
           if (w =? "Foggy")%string then 0.9 else 0.6) weather in
  operational_factor <- np_random_uniform 0.3 1.0 (length dates) ;;
  let discharge_hours := 4 in
  let production :=
    map2 Qmult
      (map2 Qmult
         (map2 Qmult
            (map (fun s => capacity * discharge_hours * s) seasonal_factor)
            weekly_factor)
         weather_factor)
      operational_factor in
  ret (map (fun p => Qmax p 0) production).

Definition _generate_energy_production
  (site_id : string) (site_info : SiteInfo) (dates : list Z)
  (weather : list string) (temperature wind_speed : list Q) : M (list Q) :=
  np_random_seed (py_hash site_id mod 2 ^ 32)%Z ;;
  let site_type := type site_info in
  let capacity :=
    match capacity_mw site_info with
    | Some c => c
    | None => match capacity_mwh site_info with
              | Some c => c
              | None => 50
              end
    end in
  if (site_type =? "solar")%string then
    _generate_solar_production dates weather temperature capacity
  else if (site_type =? "wind")%string then
    _generate_wind_production dates weather wind_speed capacity
  else if (site_type =? "battery")%string then
    _generate_battery_production dates weather capacity
  else raise (ValueError ("Unknown site type: " ++ site_type)).

(** The dictionary [maintenance_prob] of [_generate_downtime]. *)
Definition maintenance_prob (site_type : string) : option Q :=
  if (site_type =? "solar")%string then Some 0.02
  else if (site_type =? "wind")%string then Some 0.03
  else if (site_type =? "battery")%string then Some 0.01
  else None.

Definition _generate_downtime (dates : list Z) (site_type : string)
  : M (list Q) :=
  np_random_seed 456 ;;
  u <- np_random_random (length dates) ;;
  match maintenance_prob site_type with
  | None => raise (KeyError site_type)
  | Some prob =>
      let maintenance_days := map (fun x => Qltb x prob) u in
      durations <- np_random_uniform 2 12 (length dates) ;;
      let maintenance_hours :=
        map2 (fun (b : bool) h => if b then h else 0)
          maintenance_days durations in
      weather_outage_hours <- np_random_exponential 0.5 (length dates) ;;
      let weather_outage_hours :=
        map (fun h => if Qltb 3 h then 0 else h) weather_outage_hours in
      let total_downtime :=
        map2 Qplus maintenance_hours weather_outage_hours in
      ret (map (fun t => Qmin t 24) total_downtime)
  end.

(** *** Tables *)

Definition set_EnergyProduced_kWh (v : option Q) (r : Row) : Row :=
  {| Date := Date r; SiteID := SiteID r; SiteName := SiteName r;
     SiteType := SiteType r; EnergyProduced_kWh := v;
     SpotMarketPrice := SpotMarketPrice r; Revenue := Revenue r;
     WeatherCondition := WeatherCondition r;
     DowntimeHours := DowntimeHours r; Temperature_C := Temperature_C r;
     WindSpeed_mps := WindSpeed_mps r |}.

Definition set_Revenue (v : option Q) (r : Row) : Row :=
  {| Date := Date r; SiteID := SiteID r; SiteName := SiteName r;
     SiteType := SiteType r; EnergyProduced_kWh := EnergyProduced_kWh r;
     SpotMarketPrice := SpotMarketPrice r; Revenue := v;
     WeatherCondition := WeatherCondition r;
     DowntimeHours := DowntimeHours r; Temperature_C := Temperature_C r;
     WindSpeed_mps := WindSpeed_mps r |}.

Definition set_Temperature_C (v : option Q) (r : Row) : Row :=
  {| Date := Date r; SiteID := SiteID r; SiteName := SiteName r;
     SiteType := SiteType r; EnergyProduced_kWh := EnergyProduced_kWh r;
     SpotMarketPrice := SpotMarketPrice r; Revenue := Revenue r;
     WeatherCondition := WeatherCondition r;
     DowntimeHours := DowntimeHours r; Temperature_C := v;
     WindSpeed_mps := WindSpeed_mps r |}.

Definition set_WindSpeed_mps (v : option Q) (r : Row) : Row :=
  {| Date := Date r; SiteID := SiteID r; SiteName := SiteName r;
     SiteType := SiteType r; EnergyProduced_kWh := EnergyProduced_kWh r;
     SpotMarketPrice := SpotMarketPrice r; Revenue := Revenue r;
     WeatherCondition := WeatherCondition r;
     DowntimeHours := DowntimeHours r; Temperature_C := Temperature_C r;
     WindSpeed_mps := v |}.

(** Arithmetic on float cells: NaN is absorbing. *)
Definition cell_mul (a b : option Q) : option Q :=
  match a, b with
  | Some x, Some y => Some (x * y)
  | _, _ => None
  end.

Definition cell_div (a : option Q) (d : Q) : option Q :=
  option_map (fun x => x / d) a.

(** [pd.DataFrame({...})] on the eleven columns of a site: three scalars
    and eight arrays, which must all have one length. *)
Definition pd_DataFrame
  (date : list Z) (site_id site_name site_type : string)
  (energy price revenue : list Q) (weather : list string)
  (downtime temperature wind : list Q) : M DataFrame :=
  let n := length date in
  if forallb (Nat.eqb n)
       [length energy; length price; length revenue; length weather;
        length downtime; length temperature; length wind]
  then
    ret (map (fun i =>
                {| Date := nth i date 0%Z;
                   SiteID := site_id;
                   SiteName := site_name;
                   SiteType := site_type;
                   EnergyProduced_kWh := Some (nth i energy 0);
                   SpotMarketPrice := Some (nth i price 0);
                   Revenue := Some (nth i revenue 0);
                   WeatherCondition := nth i weather ""%string;
                   DowntimeHours := Some (nth i downtime 0);
                   Temperature_C := Some (nth i temperature 0);
                   WindSpeed_mps := Some (nth i wind 0) |})
           (seq 0 n))
  else raise (ValueError "All arrays must be of the same length").

(** [pd.concat(frames, ignore_index=True)]. *)
Definition pd_concat (frames : list DataFrame) : M DataFrame :=
  match frames with
  | [] => raise (ValueError "No objects to concatenate")
  | _ => ret (concat frames)
  end.

(** [df.loc[mask, col] = np.nan] for the columns the program nulls. *)
Definition loc_set_nan (mask : list bool) (col : string) (df : DataFrame)
  : DataFrame :=
  map2 (fun (b : bool) r =>
          if b then
            if (col =? "EnergyProduced_kWh")%string
            then set_EnergyProduced_kWh None r
            else if (col =? "Temperature_C")%string
            then set_Temperature_C None r
            else if (col =? "WindSpeed_mps")%string
            then set_WindSpeed_mps None r
            else r
          else r) mask df.

Definition _introduce_missing_values (df : DataFrame) (missing_rate : Q)
  : M DataFrame :=
  np_random_seed 789 ;;
  let nullable_columns :=
    ["EnergyProduced_kWh"; "Temperature_C"; "WindSpeed_mps"]%string in
  foldM (fun df col =>
           if existsb (String.eqb col) columns then
             u <- np_random_random (length df) ;;
             let missing_mask := map (fun x => Qltb x missing_rate) u in
             ret (loc_set_nan missing_mask col df)
           else ret df)
    df nullable_columns.

(** [df.loc[mask, 'EnergyProduced_kWh'] *= multiplier]: the selected
    rows take the multipliers in order. *)
Fixpoint loc_imul_energy (mask : list bool) (multiplier : list Q)
  (df : DataFrame) : DataFrame :=
  match mask, df with
  | b :: mask', r :: df' =>
      if b then
        match multiplier with
        | k :: multiplier' =>
            set_EnergyProduced_kWh
              (cell_mul (EnergyProduced_kWh r) (Some k)) r
            :: loc_imul_energy mask' multiplier' df'
        | [] => r :: loc_imul_energy mask' [] df'
        end
      else r :: loc_imul_energy mask' multiplier df'
  | _, _ => df
  end.

Definition _introduce_outliers (df : DataFrame) (outlier_rate : Q)
  : M DataFrame :=
  np_random_seed 101112 ;;
  u <- np_random_random (length df) ;;
  let energy_outliers := map (fun x => Qltb x outlier_rate) u in
  outlier_multiplier <-
    np_random_choice [0.1; 0.2; 2.0; 3.0]
      (length (filter (fun b : bool => b) energy_outliers)) ;;
  if existsb (fun b : bool => b) energy_outliers
  then ret (loc_imul_energy energy_outliers outlier_multiplier df)
  else ret df.

(** The order of [sort_values(['Date', 'SiteID'])]. *)
Definition row_leb (r1 r2 : Row) : bool :=
  (Date r1 <? Date r2)%Z
  || ((Date r1 =? Date r2)%Z && String.leb (SiteID r1) (SiteID r2)).

Fixpoint insert_row (r : Row) (df : DataFrame) : DataFrame :=
  match df with
  | [] => [r]
  | r' :: df' => if row_leb r r' then r :: df else r' :: insert_row r df'
  end.

(** [df.sort_values(['Date', 'SiteID']).reset_index(drop=True)]: a stable
    sort, here by insertion from the right. *)
Definition sort_values (df : DataFrame) : DataFrame :=
  fold_right insert_row [] df.

Fixpoint dict_get {V : Type} (key : string) (d : list (string * V))
  : option V :=
  match d with
  | [] => None
  | (k, v) :: d' => if (k =? key)%string then Some v else dict_get key d'
  end.

(** *** The orchestration *)

Definition generate_site_data
  (self : RenewableEnergyDataGenerator) (site_id : string)
  (weather_conditions : option (list string))
  (temperature wind_speed spot_prices : option (list Q)) : M DataFrame :=
  match dict_get site_id (sites self) with
  | None => raise (KeyError site_id)
  | Some site_info =>
      w <- match weather_conditions, temperature, wind_speed with
           | Some w, Some t, Some s => ret (w, t, s)
           | _, _, _ => _generate_weather_data self (date_range self)
           end ;;
      let '(weather_conditions, temperature, wind_speed) := w in
      spot_prices <- match spot_prices with
                     | Some p => ret p
                     | None =>
                         _generate_spot_market_price self (date_range self)
                     end ;;
      energy_production <-
        _generate_energy_production site_id site_info (date_range self)
          weather_conditions temperature wind_speed ;;
      downtime_hours <-
        _generate_downtime (date_range self) (type site_info) ;;
      let availability := map (fun h => 1 - h / 24) downtime_hours in
      let energy_production := map2 Qmult energy_production availability in
      let revenue :=
        map2 (fun e p => e * p / 1000) energy_production spot_prices in
      pd_DataFrame (date_range self) site_id (name site_info)
        (type site_info) energy_production spot_prices revenue
        weather_conditions downtime_hours temperature wind_speed
  end.

Definition generate_all_data (self : RenewableEnergyDataGenerator)
  : M DataFrame :=
  w <- _generate_weather_data self (date_range self) ;;
  let '(weather_conditions, temperature, wind_speed) := w in
  spot_prices <- _generate_spot_market_price self (date_range self) ;;
  all_data <-
    mapM (fun site_id =>
            generate_site_data self site_id (Some weather_conditions)
              (Some temperature) (Some wind_speed) (Some spot_prices))
      (map fst (sites self)) ;;
  combined_data <- pd_concat all_data ;;
  combined_data <- _introduce_missing_values combined_data 0.02 ;;
  combined_data <- _introduce_outliers combined_data 0.01 ;;
  let combined_data :=
    map (fun r =>
           set_Revenue
             (cell_div (cell_mul (EnergyProduced_kWh r) (SpotMarketPrice r))
                1000) r)
      combined_data in
  let combined_data := sort_values combined_data in
  ret combined_data.

End Program.

Arguments M {numpy} A.

(** ** An executable instance of the libraries

    The theorems below hold for every [NumPy] and every [Interpreter].  To
    run the program inside Rocq, this section gives one small instance of
    each: a linear congruential generator with simple transforms in place
    of the Mersenne Twister, a rational approximation of the sine, and the
    string hash of CPython 3.3 (multiply by 1000003 and xor, with the
    random prefix and suffix of the process). *)

Module Reference.

Local Open Scope Z_scope.

Definition lcg_next (g : Z) : Z := (1103515245 * g + 12345) mod 2 ^ 31.

Definition lcg_double (g : Z) : Q * Z :=
  let g' := lcg_next g in (g' # 2147483648, g').

Definition lcg_gauss (g : Z) : Q * Z :=
  let (u, g') := lcg_double g in (Qred (4 * u - 2)%Q, g').

Definition lcg_exponential (g : Z) : Q * Z :=
  let (u, g') := lcg_double g in (Qred (u / (1 - u))%Q, g').

Definition lcg_gamma (shape : Q) (g : Z) : Q * Z :=
  let (a, g1) := lcg_exponential g in
  let (b, g2) := lcg_exponential g1 in
  (Qred (a + b)%Q, g2).

Definition lcg_interval (top : nat) (g : Z) : nat * Z :=
  let g' := lcg_next g in (Z.to_nat (g' mod (Z.of_nat top + 1)), g').

Definition pi_approx : Q := 355 # 113.

(** Bhaskara's approximation of the sine on [0, pi], extended by
    periodicity and symmetry. *)
Definition sin_approx (x : Q) : Q :=
  let turn := (2 * pi_approx)%Q in
  let y := (x - inject_Z (Qfloor (x / turn)) * turn)%Q in
  let half (t : Q) : Q :=
    (16 * t * (pi_approx - t)
     / (5 * pi_approx * pi_approx - 4 * t * (pi_approx - t)))%Q in
  Qred (if Qle_bool y pi_approx then half y
        else - half (y - pi_approx))%Q.

Definition ord (c : ascii) : Z := Z.of_nat (nat_of_ascii c).

Definition string_hash (prefix suffix : Z) (s : string) : Z :=
  match list_ascii_of_string s with
  | [] => 0
  | c0 :: _ as cs =>
      let x := Z.lxor prefix (Z.shiftl (ord c0) 7) in
      let x :=
        fold_left (fun x c => Z.lxor ((1000003 * x) mod 2 ^ 64) (ord c))
          cs x in
      let x := Z.lxor (Z.lxor x (Z.of_nat (List.length cs))) suffix in
      let x := if x <? 2 ^ 63 then x else x - 2 ^ 64 in
      if x =? -1 then -2 else x
  end.

Lemma lcg_double_range (g : Z) :
  (0 <= fst (lcg_double g) /\ fst (lcg_double g) < 1)%Q.
Proof.
  unfold lcg_double, lcg_next; cbn [fst].
  pose proof (Z.mod_pos_bound (1103515245 * g + 12345) (2 ^ 31) eq_refl) as Hb.
  change (2 ^ 31) with 2147483648 in *.
  unfold Qle, Qlt; cbn [Qnum Qden]; split; lia.
Qed.

Lemma lcg_exponential_nonneg (g : Z) : (0 <= fst (lcg_exponential g))%Q.
Proof.
  unfold lcg_exponential.
  pose proof (lcg_double_range g) as [H0 H1].
  destruct (lcg_double g) as [u g']; cbn [fst] in *.
  rewrite Qred_correct.
  apply Qmult_le_0_compat; [exact H0|].
  apply Qinv_le_0_compat. lra.
Qed.

Lemma lcg_gamma_nonneg (shape : Q) (g : Z) : (0 <= fst (lcg_gamma shape g))%Q.
Proof.
  unfold lcg_gamma.
  pose proof (lcg_exponential_nonneg g) as Ha.
  destruct (lcg_exponential g) as [a g1]; cbn [fst] in Ha.
  pose proof (lcg_exponential_nonneg g1) as Hb.
  destruct (lcg_exponential g1) as [b g2]; cbn [fst] in *.
  rewrite Qred_correct. lra.
Qed.

Lemma lcg_interval_le (top : nat) (g : Z) : (fst (lcg_interval top g) <= top)%nat.
Proof.
  unfold lcg_interval; cbn [fst].
  pose proof (Z.mod_pos_bound (lcg_next g) (Z.of_nat top + 1)). lia.
Qed.

Definition numpy : NumPy := {|
  np_pi := pi_approx;
  np_sin := sin_approx;
  RandomState := Z;
  rk_seed := fun s => s mod 2 ^ 31;
  rk_double := lcg_double;
  rk_gauss := lcg_gauss;
  rk_standard_exponential := lcg_exponential;
  rk_standard_gamma := lcg_gamma;
  rk_interval := lcg_interval;
  rk_double_range := lcg_double_range;
  rk_standard_exponential_nonneg := lcg_exponential_nonneg;
  rk_standard_gamma_nonneg := lcg_gamma_nonneg;
  rk_interval_le := lcg_interval_le
|}.

(** The interpreter of a process whose hash secret is [prefix], [suffix]. *)
Definition python (prefix suffix : Z) : Interpreter :=
  {| py_hash := string_hash prefix suffix |}.

(** The generator of the one-day range 2023-01-01 and of the inverted
    range that ends six days before it starts. *)
Definition one_day : RenewableEnergyDataGenerator :=
  {| start_date := 19358;
     end_date := 19358;
     date_range := [19358];
     sites := default_sites;
     weather_conditions :=
       ["Sunny"; "Partly Cloudy"; "Cloudy"; "Rainy"; "Stormy"; "Foggy"]%string
  |}.

Definition inverted : RenewableEnergyDataGenerator :=
  {| start_date := 19364;
     end_date := 19358;
     date_range := [];
     sites := default_sites;
     weather_conditions :=
       ["Sunny"; "Partly Cloudy"; "Cloudy"; "Rainy"; "Stormy"; "Foggy"]%string
  |}.

Example one_day_init : __init__ "2023-01-01" "2023-01-01" = inr one_day.
Proof. reflexivity. Qed.

Example inverted_init : __init__ "2023-01-07" "2023-01-01" = inr inverted.
Proof. reflexivity. Qed.

End Reference.

(** ** Lists and arrays *)

Lemma map2_length {A B C : Type} (f : A -> B -> C) (xs : list A) (ys : list B) :
  length (map2 f xs ys) = Nat.min (length xs) (length ys).
Proof.
  revert ys; induction xs as [|x xs IH]; intros [|y ys]; simpl; auto.
Qed.

Lemma map2_length_same {A B C : Type} (f : A -> B -> C) xs ys n :
  length xs = n -> length ys = n -> length (map2 f xs ys) = n.
Proof. intros <- H; rewrite map2_length, H; apply Nat.min_id. Qed.

Lemma map2_nth {A B C : Type} (f : A -> B -> C) xs ys i da db dc :
  (i < length xs)%nat -> (i < length ys)%nat ->
  nth i (map2 f xs ys) dc = f (nth i xs da) (nth i ys db).
Proof.
  revert ys i; induction xs as [|x xs IH]; intros [|y ys] [|i]; simpl;
    intros; try lia; auto.
  apply IH; lia.
Qed.

Lemma map2_Forall {A B C : Type} (f : A -> B -> C) (P : C -> Prop) xs ys :
  (forall x y, In x xs -> In y ys -> P (f x y)) -> Forall P (map2 f xs ys).
Proof.
  revert ys; induction xs as [|x xs IH]; intros [|y ys] H; simpl; auto.
  constructor; [apply H; simpl; auto|].
  apply IH; intros; apply H; simpl; auto.
Qed.

Lemma map2_Forall2 {A B : Type} (f : A -> B -> B) (R : B -> B -> Prop) xs ys :
  length xs = length ys ->
  (forall x y, R y (f x y)) -> Forall2 R ys (map2 f xs ys).
Proof.
  revert ys; induction xs as [|x xs IH]; intros [|y ys] Hl H; simpl in *;
    try discriminate; constructor; auto.
Qed.

Lemma map_nth_in {A B : Type} (f : A -> B) xs i da db :
  (i < length xs)%nat -> nth i (map f xs) db = f (nth i xs da).
Proof.
  revert i; induction xs as [|x xs IH]; intros [|i]; simpl; intros; try lia; auto.
  apply IH; lia.
Qed.

Lemma Forall2_In_r {A B : Type} (R : A -> B -> Prop) xs ys y :
  Forall2 R xs ys -> In y ys -> exists x, In x xs /\ R x y.
Proof.
  induction 1 as [|x y' xs ys Hxy _ IH]; simpl; [tauto|].
  intros [<-|Hin]; [exists x; auto|].
  destruct (IH Hin) as (x' & ? & ?); exists x'; auto.
Qed.

Lemma Forall2_trans {A : Type} (R1 R2 R3 : A -> A -> Prop) xs ys zs :
  (forall x y z, R1 x y -> R2 y z -> R3 x z) ->
  Forall2 R1 xs ys -> Forall2 R2 ys zs -> Forall2 R3 xs zs.
Proof.
  intros Ht H; revert zs; induction H; intros zs Hz; inversion Hz; subst;
    constructor; eauto.
Qed.

Lemma Forall2_same_length {A B : Type} (R : A -> B -> Prop) xs ys :
  Forall2 R xs ys -> length xs = length ys.
Proof. induction 1; simpl; congruence. Qed.

Lemma Qltb_lt (x y : Q) : Qltb x y = true <-> x < y.
Proof.
  unfold Qltb. rewrite negb_true_iff, <- not_true_iff_false, Qle_bool_iff.
  split; [apply Qnot_le_lt | apply Qlt_not_le].
Qed.

Lemma Qltb_ge (x y : Q) : Qltb x y = false <-> y <= x.
Proof.
  unfold Qltb. rewrite negb_false_iff. apply Qle_bool_iff.
Qed.

(** ** The monad and the random draws *)

Section Monad.

Context {numpy : NumPy}.

(** [m] started in [g] returns a value that satisfies [P]. *)
Definition returns {A : Type} (m : M A) (g : RandomState) (P : A -> Prop)
  : Prop :=
  exists a g', m g = inr (a, g') /\ P a.

Lemma returns_ret {A : Type} (a : A) g (P : A -> Prop) :
  P a -> returns (ret a) g P.
Proof. intros; exists a, g; auto. Qed.

Lemma returns_bind {A B : Type} (m : M A) (k : A -> M B) g
  (Q : A -> Prop) (P : B -> Prop) :
  returns m g Q ->
  (forall a g', Q a -> returns (k a) g' P) ->
  returns (bind m k) g P.
Proof.
  intros (a & g1 & Hm & Ha) Hk.
  destruct (Hk a g1 Ha) as (b & g2 & Hb & HP).
  exists b, g2; unfold bind; rewrite Hm; auto.
Qed.

Lemma returns_weaken {A : Type} (m : M A) g (P Q : A -> Prop) :
  returns m g P -> (forall a, P a -> Q a) -> returns m g Q.
Proof. intros (a & g' & Hm & HP) HPQ; exists a, g'; auto. Qed.

Lemma bind_inr {A B : Type} (m : M A) (k : A -> M B) g b g2 :
  bind m k g = inr (b, g2) ->
  exists a g1, m g = inr (a, g1) /\ k a g1 = inr (b, g2).
Proof.
  unfold bind; destruct (m g) as [e|[a g1]]; [discriminate|].
  intros; exists a, g1; auto.
Qed.

Lemma ret_inr {A : Type} (a b : A) g g' : ret a g = inr (b, g') -> b = a.
Proof. unfold ret; congruence. Qed.

Lemma mapM_inr {A B : Type} (f : A -> M B) (R : A -> B -> Prop) xs :
  (forall x y g g', In x xs -> f x g = inr (y, g') -> R x y) ->
  forall ys g g', mapM f xs g = inr (ys, g') -> Forall2 R xs ys.
Proof.
  induction xs as [|x xs IH]; simpl; intros Hf ys g g' H.
  - apply ret_inr in H; subst; constructor.
  - apply bind_inr in H; destruct H as (y & g1 & Hy & H).
    apply bind_inr in H; destruct H as (ys' & g2 & Hys & H).
    apply ret_inr in H; subst; constructor; eauto.
Qed.

Lemma mapM_returns {A B : Type} (f : A -> M B) (R : A -> B -> Prop) xs :
  (forall x g, In x xs -> returns (f x) g (R x)) ->
  forall g, returns (mapM f xs) g (Forall2 R xs).
Proof.
  induction xs as [|x xs IH]; simpl; intros Hf g.
  - apply returns_ret; constructor.
  - eapply returns_bind; [apply Hf; auto|]; intros y g1 Hy.
    eapply returns_bind; [apply IH; auto|]; intros ys g2 Hys.
    apply returns_ret; constructor; auto.
Qed.

Lemma draws_length {A : Type} (f : RandomState -> A * RandomState) n g :
  length (fst (draws f n g)) = n.
Proof.
  revert g; induction n as [|n IH]; intros g; simpl; auto.
  destruct (f g) as [x g1]; specialize (IH g1).
  destruct (draws f n g1); simpl in *; congruence.
Qed.

Lemma draws_Forall {A : Type} (f : RandomState -> A * RandomState)
  (P : A -> Prop) n g :
  (forall s, P (fst (f s))) -> Forall P (fst (draws f n g)).
Proof.
  intros HP; revert g; induction n as [|n IH]; intros g; simpl; auto.
  specialize (HP g); destruct (f g) as [x g1]; specialize (IH g1).
  destruct (draws f n g1); simpl in *; auto.
Qed.

(** Every array sampler returns, with [size] samples in range. *)
Lemma np_random_random_spec size g :
  exists us g', np_random_random size g = inr (us, g')
    /\ length us = size /\ Forall (fun u => 0 <= u /\ u < 1) us.
Proof.
  unfold np_random_random, lift.
  destruct (draws rk_double size g) as [us g'] eqn:E.
  exists us, g'; repeat split.
  - rewrite <- (draws_length rk_double size g), E; reflexivity.
  - replace us with (fst (draws rk_double size g)) by (rewrite E; auto).
    apply draws_Forall, rk_double_range.
Qed.

Lemma np_random_uniform_spec low high size g :
  low <= high ->
  exists xs g', np_random_uniform low high size g = inr (xs, g')
    /\ length xs = size /\ Forall (fun x => low <= x /\ x <= high) xs.
Proof.
  intros Hlh; unfold np_random_uniform, bind, lift, ret.
  pose proof (draws_length rk_double size g) as Hl.
  pose proof (draws_Forall rk_double (fun u => 0 <= u /\ u < 1) size g
                rk_double_range) as Hf.
  destruct (draws rk_double size g) as [us g']; simpl in *.
  eexists _, g'; split; [reflexivity|]; split.
  - rewrite length_map; exact Hl.
  - apply Forall_map. eapply Forall_impl; [|exact Hf].
    cbv beta; intros u [H0 H1]; split; nra.
Qed.

Lemma np_random_normal_spec loc scale size g :
  exists xs g', np_random_normal loc scale size g = inr (xs, g')
    /\ length xs = size.
Proof.
  unfold np_random_normal, bind, lift, ret.
  pose proof (draws_length rk_gauss size g) as Hl.
  destruct (draws rk_gauss size g) as [zs g']; simpl in *.
  eexists _, g'; split; [reflexivity|].
  rewrite length_map; exact Hl.
Qed.

Lemma np_random_gamma_spec shape scale size g :
  0 <= scale ->
  exists xs g', np_random_gamma shape scale size g = inr (xs, g')
    /\ length xs = size /\ Forall (fun x => 0 <= x) xs.
Proof.
  intros Hs; unfold np_random_gamma, bind, lift, ret.
  pose proof (draws_length (rk_standard_gamma shape) size g) as Hl.
  pose proof (draws_Forall (rk_standard_gamma shape) (fun x => 0 <= x) size g
                (rk_standard_gamma_nonneg shape)) as Hf.
  destruct (draws (rk_standard_gamma shape) size g) as [zs g']; simpl in *.
  eexists _, g'; split; [reflexivity|]; split.
  - rewrite length_map; exact Hl.
  - apply Forall_map. eapply Forall_impl; [|exact Hf].
    cbv beta; intros; nra.
Qed.

Lemma np_random_exponential_spec scale size g :
  0 <= scale ->
  exists xs g', np_random_exponential scale size g = inr (xs, g')
    /\ length xs = size /\ Forall (fun x => 0 <= x) xs.
Proof.
  intros Hs; unfold np_random_exponential, bind, lift, ret.
  pose proof (draws_length rk_standard_exponential size g) as Hl.
  pose proof (draws_Forall rk_standard_exponential (fun x => 0 <= x) size g
                rk_standard_exponential_nonneg) as Hf.
  destruct (draws rk_standard_exponential size g) as [zs g']; simpl in *.
  eexists _, g'; split; [reflexivity|]; split.
  - rewrite length_map; exact Hl.
  - apply Forall_map. eapply Forall_impl; [|exact Hf].
    cbv beta; intros; nra.
Qed.

End Monad.

(** ** The price model and the downtime model *)

Section Models.

Context {numpy : NumPy} {python : Interpreter}.

Ltac run_with E := unfold bind at 1; rewrite E; cbv beta iota.

Lemma _generate_spot_market_price_spec self dates g :
  exists prices g',
    _generate_spot_market_price self dates g = inr (prices, g')
    /\ length prices = length dates
    /\ Forall (fun p => 5 <= p) prices.
Proof.
  unfold _generate_spot_market_price.
  unfold bind at 1, np_random_seed at 1; cbv beta iota.
  destruct (np_random_normal_spec 0 8 (length dates) (rk_seed 42))
    as (vol & g1 & E1 & L1).
  run_with E1.
  destruct (np_random_random_spec (length dates) g1) as (u & g2 & E2 & L2 & _).
  run_with E2.
  destruct (np_random_uniform_spec 20 80 (length dates) g2 ltac:(lra))
    as (v & g3 & E3 & L3 & _).
  run_with E3.
  eexists _, g3; split; [reflexivity|]; split.
  - rewrite length_map.
    repeat (apply map2_length_same); rewrite ?length_map; auto.
  - apply Forall_map, Forall_forall; intros p _. apply Q.le_max_r.
Qed.

Lemma _generate_downtime_state dates site_type g g0 :
  _generate_downtime dates site_type g = _generate_downtime dates site_type g0.
Proof. reflexivity. Qed.

Lemma _generate_downtime_spec dates site_type prob g :
  maintenance_prob site_type = Some prob ->
  exists hours g',
    _generate_downtime dates site_type g = inr (hours, g')
    /\ length hours = length dates
    /\ Forall (fun h => 0 <= h /\ h <= 24) hours.
Proof.
  intros Hp; unfold _generate_downtime.
  unfold bind at 1, np_random_seed at 1; cbv beta iota.
  destruct (np_random_random_spec (length dates) (rk_seed 456))
    as (u & g1 & E1 & L1 & _).
  run_with E1. rewrite Hp.
  destruct (np_random_uniform_spec 2 12 (length dates) g1 ltac:(lra))
    as (dur & g2 & E2 & L2 & F2).
  run_with E2.
  destruct (np_random_exponential_spec 0.5 (length dates) g2 ltac:(lra))
    as (out & g3 & E3 & L3 & F3).
  run_with E3.
  eexists _, g3; split; [reflexivity|]; split.
  - rewrite length_map.
    repeat (apply map2_length_same); rewrite ?length_map; auto.
  - apply Forall_map.
    assert (Hsum : Forall (fun t => 0 <= t)
              (map2 Qplus
                 (map2 (fun (b : bool) h => if b then h else 0)
                    (map (fun x => Qltb x prob) u) dur)
                 (map (fun h => if Qltb 3 h then 0 else h) out))).
    { apply map2_Forall; intros x y Hx Hy.
      assert (0 <= x).
      { revert x Hx; apply Forall_forall, map2_Forall.
        intros b h _ Hh. rewrite Forall_forall in F2.
        destruct (F2 h Hh); destruct b; lra. }
      assert (0 <= y).
      { apply in_map_iff in Hy; destruct Hy as (h & <- & Hh).
        rewrite Forall_forall in F3. specialize (F3 h Hh).
        destruct (Qltb 3 h); lra. }
      lra. }
    eapply Forall_impl; [|exact Hsum]; cbv beta; intros t Ht; split.
    + apply Q.min_glb; lra.
    + apply Q.le_min_r.
Qed.

Lemma _generate_downtime_unknown dates site_type g :
  maintenance_prob site_type = None ->
  _generate_downtime dates site_type g = inl (KeyError site_type).
Proof.
  intros Hp; unfold _generate_downtime.
  unfold bind at 1, np_random_seed at 1; cbv beta iota.
  destruct (np_random_random_spec (length dates) (rk_seed 456))
    as (u & g1 & E1 & _).
  run_with E1. rewrite Hp. reflexivity.
Qed.

Lemma _generate_downtime_inr dates site_type g hours g' :
  _generate_downtime dates site_type g = inr (hours, g') ->
  length hours = length dates /\ Forall (fun h => 0 <= h /\ h <= 24) hours.
Proof.
  intros H. destruct (maintenance_prob site_type) as [prob|] eqn:Hp.
  - destruct (_generate_downtime_spec dates site_type prob g Hp)
      as (hours' & g1 & E & L & F).
    rewrite E in H; injection H as <- <-; auto.
  - rewrite (_generate_downtime_unknown dates site_type g Hp) in H.
    discriminate.
Qed.

End Models.

(** ** The production models and their dispatch *)

Definition recognized (site_type : string) : Prop :=
  site_type = "solar"%string \/ site_type = "wind"%string
  \/ site_type = "battery"%string.

Section Production.

Context {numpy : NumPy} {python : Interpreter}.

Ltac run_with E := unfold bind at 1; rewrite E; cbv beta iota.

Lemma _generate_solar_production_spec dates weather temperature capacity g :
  exists production g',
    _generate_solar_production dates weather temperature capacity g
      = inr (production, g')
    /\ (length weather = length dates ->
        length temperature = length dates ->
        length production = length dates).
Proof.
  unfold _generate_solar_production.
  destruct (np_random_uniform_spec 0.8 1.2 (length dates) g ltac:(lra))
    as (dv & g1 & E & L & _).
  run_with E.
  eexists _, g1; split; [reflexivity|]; intros Hw Ht.
  rewrite length_map.
  repeat (apply map2_length_same); rewrite ?length_map; auto.
Qed.

Lemma _generate_wind_production_spec dates weather wind_speed capacity g :
  exists production g',
    _generate_wind_production dates weather wind_speed capacity g
      = inr (production, g')
    /\ (length weather = length dates ->
        length wind_speed = length dates ->
        length production = length dates
        /\ forall i,
            (i < length dates)%nat ->
            nth i (capacity_factor wind_speed) 0 == 0 ->
            nth i production 0 == 0).
Proof.
  unfold _generate_wind_production.
  destruct (np_random_uniform_spec 0.85 1.15 (length dates) g ltac:(lra))
    as (dv & g1 & E & L & _).
  run_with E.
  eexists _, g1; split; [reflexivity|]; intros Hw Hs.
  assert (Hc : length (capacity_factor wind_speed) = length dates)
    by (unfold capacity_factor; rewrite length_map; exact Hs).
  split.
  - rewrite length_map.
    repeat (apply map2_length_same); rewrite ?length_map; auto.
  - intros i Hi Hz.
    rewrite (map_nth_in _ _ i 0 0).
    2:{ erewrite map2_length_same; eauto.
        apply map2_length_same; rewrite ?length_map; auto. }
    rewrite (map2_nth _ _ _ i 0 0 0).
    2:{ erewrite map2_length_same; rewrite ?length_map; eauto. }
    2:{ rewrite L; exact Hi. }
    rewrite (map2_nth _ _ _ i 0 0 0).
    2:{ rewrite length_map, Hc; exact Hi. }
    2:{ rewrite length_map, Hw; exact Hi. }
    rewrite (map_nth_in _ _ i 0 0) by (rewrite Hc; exact Hi).
    rewrite Hz. apply Q.max_r.
    apply Qle_lteq; right. ring.
Qed.

Lemma _generate_battery_production_spec dates weather capacity g :
  exists production g',
    _generate_battery_production dates weather capacity g
      = inr (production, g')
    /\ (length weather = length dates ->
        length production = length dates).
Proof.
  unfold _generate_battery_production.
  destruct (np_random_uniform_spec 0.3 1.0 (length dates) g ltac:(lra))
    as (dv & g1 & E & L & _).
  run_with E.
  eexists _, g1; split; [reflexivity|]; intros Hw.
  rewrite length_map.
  repeat (apply map2_length_same); rewrite ?length_map; auto.
Qed.

Lemma _generate_energy_production_state
  site_id site_info dates weather temperature wind_speed g g0 :
  _generate_energy_production site_id site_info dates weather temperature
    wind_speed g
  = _generate_energy_production site_id site_info dates weather temperature
      wind_speed g0.
Proof. reflexivity. Qed.

Lemma _generate_energy_production_spec
  site_id site_info dates weather temperature wind_speed g :
  recognized (type site_info) ->
  exists production g',
    _generate_energy_production site_id site_info dates weather temperature
      wind_speed g = inr (production, g')
    /\ (length weather = length dates ->
        length temperature = length dates ->
        length wind_speed = length dates ->
        length production = length dates).
Proof.
  intros Hr; unfold _generate_energy_production.
  unfold bind at 1, np_random_seed at 1; cbv beta iota zeta.
  destruct Hr as [Hr|[Hr|Hr]]; rewrite Hr; cbn [String.eqb Ascii.eqb Bool.eqb].
  - edestruct _generate_solar_production_spec as (p & g1 & E & L).
    exists p, g1; split; [exact E|]; auto.
  - edestruct _generate_wind_production_spec as (p & g1 & E & L).
    exists p, g1; split; [exact E|]; intros; apply L; auto.
  - edestruct _generate_battery_production_spec as (p & g1 & E & L).
    exists p, g1; split; [exact E|]; auto.
Qed.

Lemma _generate_energy_production_unknown
  site_id site_info dates weather temperature wind_speed g :
  ~ recognized (type site_info) ->
  _generate_energy_production site_id site_info dates weather temperature
    wind_speed g
  = inl (ValueError ("Unknown site type: " ++ type site_info)).
Proof.
  intros Hr; unfold _generate_energy_production, recognized in *.
  unfold bind at 1, np_random_seed at 1; cbv beta iota zeta.
  destruct (String.eqb_spec (type site_info) "solar"); [tauto|].
  destruct (String.eqb_spec (type site_info) "wind"); [tauto|].
  destruct (String.eqb_spec (type site_info) "battery"); [tauto|].
  reflexivity.
Qed.

Lemma recognized_dec site_type : recognized site_type \/ ~ recognized site_type.
Proof.
  unfold recognized.
  destruct (String.eqb_spec site_type "solar"); [tauto|].
  destruct (String.eqb_spec site_type "wind"); [tauto|].
  destruct (String.eqb_spec site_type "battery"); tauto.
Qed.

Lemma recognized_maintenance_prob site_type :
  recognized site_type -> exists prob, maintenance_prob site_type = Some prob.
Proof.
  intros [ -> | [ -> | -> ] ]; eexists; reflexivity.
Qed.

End Production.

(** ** The weather model *)

Lemma in_map2 {A B C : Type} (f : A -> B -> C) xs ys z :
  In z (map2 f xs ys) -> exists x y, In x xs /\ In y ys /\ z = f x y.
Proof.
  revert ys; induction xs as [|x xs IH]; intros [|y ys]; simpl; try tauto.
  intros [<-|Hin]; [exists x, y; auto|].
  destruct (IH ys Hin) as (x' & y' & ? & ? & ?); exists x', y'; auto.
Qed.

Section Weather.

Context {numpy : NumPy}.

Ltac run_with E := unfold bind at 1; rewrite E; cbv beta iota.

Lemma last_In {A : Type} (l : list A) (d : A) : l <> [] -> In (last l d) l.
Proof.
  induction l as [|x l IH]; [congruence|]; intros _.
  destruct l as [|y l]; [left; reflexivity|].
  right; apply IH; discriminate.
Qed.

Lemma cumsum_from_length acc xs : length (cumsum_from acc xs) = length xs.
Proof. revert acc; induction xs; simpl; auto. Qed.

Lemma cumsum_from_last acc xs d :
  xs <> [] -> last (cumsum_from acc xs) d = fold_left Qplus xs acc.
Proof.
  revert acc; induction xs as [|x xs IH]; intros acc Hne; [congruence|].
  destruct xs as [|y xs]; [reflexivity|].
  change (last (cumsum_from (acc + x) (y :: xs)) d
          = fold_left Qplus (y :: xs) (acc + x)).
  apply IH; discriminate.
Qed.

Lemma searchsorted_right_lt cdf u c :
  In c cdf -> u < c -> (searchsorted_right cdf u < length cdf)%nat.
Proof.
  induction cdf as [|c' cdf IH]; simpl; [tauto|]; intros Hin Hu.
  destruct (Qle_bool c' u) eqn:E; [|lia].
  apply Qle_bool_iff in E.
  destruct Hin as [->|Hin]; [lra|].
  specialize (IH Hin Hu); lia.
Qed.

Lemma np_random_choice_p_spec {A : Type} (a : list A) (p : list Q) g :
  a <> [] -> length p = length a ->
  Forall (fun x => 0 <= x) p -> np_sum p == 1 ->
  exists x g', np_random_choice_p a p g = inr (x, g') /\ In x a.
Proof.
  intros Ha Hl Hp Hs; unfold np_random_choice_p.
  destruct a as [|a0 a']; [congruence|].
  cbn [length Nat.eqb]. rewrite Hl; cbn [length]. rewrite Nat.eqb_refl.
  cbn [negb].
  destruct (existsb (fun x => Qltb x 0) p) eqn:Eneg.
  { apply existsb_exists in Eneg; destruct Eneg as (x & Hx & Hlt).
    apply Qltb_lt in Hlt. rewrite Forall_forall in Hp.
    specialize (Hp x Hx); lra. }
  assert (Htol : Qltb atol (Qabs (np_sum p - 1)) = false).
  { apply Qltb_ge, Qabs_Qle_condition; unfold atol; split; lra. }
  rewrite Htol.
  unfold bind, lift.
  pose proof (rk_double_range g) as [_ Hu].
  destruct (rk_double g) as [u g1]; cbn [fst] in Hu.
  set (cdf0 := cumsum_from 0 p).
  assert (Hne : p <> []) by (destruct p; [discriminate|congruence]).
  assert (Hlast : last cdf0 0 = np_sum p)
    by (apply cumsum_from_last; exact Hne).
  assert (Hin : In (last cdf0 0 / last cdf0 0)
                  (map (fun c => c / last cdf0 0) cdf0)).
  { apply (in_map (fun c => c / last cdf0 0)), last_In.
    intros E0; apply (f_equal (@length Q)) in E0.
    unfold cdf0 in E0; rewrite cumsum_from_length in E0.
    destruct p; [congruence|discriminate]. }
  set (cdf := map (fun c => c / last cdf0 0) cdf0) in *.
  assert (Hidx : (searchsorted_right cdf u < length (a0 :: a'))%nat).
  { replace (length (a0 :: a')) with (length cdf).
    - eapply searchsorted_right_lt; [exact Hin|].
      rewrite Hlast.
      assert (np_sum p / np_sum p == 1) by (field; lra).
      lra.
    - unfold cdf; rewrite length_map; unfold cdf0.
      rewrite cumsum_from_length; exact Hl. }
  destruct (nth_error (a0 :: a') _) as [x|] eqn:En.
  - exists x, g1; split; [reflexivity|]. eapply nth_error_In; eauto.
  - apply nth_error_None in En. lia.
Qed.

(** The six weights of a day, normalised: a probability vector. *)
Lemma weather_probs_ok (t w : Q) :
  let row := [0.4 + 0.2 * as_float (Qltb 20 t);
              0.25 * 1;
              0.2 * 1;
              0.1 + 0.1 * as_float (Qltb t 10);
              0.03 + 0.02 * as_float (Qltb 15 w);
              0.02 + 0.03 * as_float (Qltb t 5)] in
  let probs := map (fun p => p / np_sum row) row in
  length probs = 6%nat /\ Forall (fun x => 0 <= x) probs /\ np_sum probs == 1.
Proof.
  destruct (Qltb 20 t), (Qltb t 10), (Qltb 15 w), (Qltb t 5);
    (split; [reflexivity|]; split;
     [repeat constructor; discriminate | reflexivity]).
Qed.

Lemma _generate_weather_data_inr self dates g w t s g' :
  _generate_weather_data self dates g = inr (w, t, s, g') ->
  length w = length dates /\ length t = length dates
  /\ length s = length dates.
Proof.
  unfold _generate_weather_data.
  unfold bind at 1, np_random_seed at 1; cbv beta iota.
  destruct (np_random_normal_spec 0 5 (length dates) (rk_seed 123))
    as (dv & g1 & E1 & L1).
  run_with E1.
  destruct (np_random_gamma_spec 2 2 (length dates) g1 ltac:(lra))
    as (wv & g2 & E2 & L2 & _).
  run_with E2.
  intros H; apply bind_inr in H; destruct H as (wc & g3 & Hm & H).
  apply (mapM_inr _ (fun _ _ => True)) in Hm; [|auto].
  apply Forall2_same_length in Hm.
  unfold ret in H; injection H as <- <- <- <-.
  assert (Ht : length (map2 Qplus
                         (map (fun s => 15 + s)
                            (map (fun d => 12 * np_sin (2 * np_pi * (dayofyear d - 80) / 365.25)) dates))
                         dv) = length dates)
    by (apply map2_length_same; rewrite ?length_map; auto).
  assert (Hs : length (map (fun w => Qmax w 0)
                         (map2 Qplus
                            (map (fun s => 8 + s)
                               (map (fun d => 3 * np_sin (2 * np_pi * (dayofyear d - 120) / 365.25)) dates))
                            wv)) = length dates).
  { rewrite length_map. apply map2_length_same; rewrite ?length_map; auto. }
  repeat split; auto.
  rewrite <- Hm, length_map. apply map2_length_same; auto.
Qed.

Lemma _generate_weather_data_spec self dates g :
  length (weather_conditions self) = 6%nat ->
  exists w t s g',
    _generate_weather_data self dates g = inr (w, t, s, g').
Proof.
  intros H6. unfold _generate_weather_data.
  unfold bind at 1, np_random_seed at 1; cbv beta iota.
  destruct (np_random_normal_spec 0 5 (length dates) (rk_seed 123))
    as (dv & g1 & E1 & L1).
  run_with E1.
  destruct (np_random_gamma_spec 2 2 (length dates) g1 ltac:(lra))
    as (wv & g2 & E2 & L2 & _).
  run_with E2.
  match goal with
  | |- context [mapM ?f ?probs] =>
      destruct (mapM_returns f (fun _ _ => True) probs) with (g := g2)
        as (wc & g3 & Em & _)
  end.
  { intros probs g0 Hin.
    apply in_map_iff in Hin; destruct Hin as (row & <- & Hin).
    apply in_map2 in Hin; destruct Hin as (t & w & _ & _ & ->).
    destruct (weather_probs_ok t w) as (Hl & Hp & Hs).
    edestruct (@np_random_choice_p_spec string (weather_conditions self))
      as (x & g' & Ex & _); [| | exact Hp | exact Hs | ].
    - destruct (weather_conditions self); [discriminate|congruence].
    - rewrite Hl, H6; reflexivity.
    - exists x, g'; split; [exact Ex | exact I]. }
  run_with Em.
  do 3 eexists; exists g3; reflexivity.
Qed.

End Weather.

(** ** Tables: degradation and sorting *)

Section Tables.

Context {numpy : NumPy}.

Ltac run_with E := unfold bind at 1; rewrite E; cbv beta iota.

(** The columns no stage after the site frames writes to. *)
Definition same_keys (r r' : Row) : Prop :=
  Date r' = Date r /\ SiteID r' = SiteID r /\ SiteName r' = SiteName r
  /\ SiteType r' = SiteType r /\ SpotMarketPrice r' = SpotMarketPrice r
  /\ WeatherCondition r' = WeatherCondition r
  /\ DowntimeHours r' = DowntimeHours r.

(** [r'] is [r] after missing-value injection. *)
Definition nulled (r r' : Row) : Prop :=
  same_keys r r' /\ Revenue r' = Revenue r
  /\ (EnergyProduced_kWh r' = EnergyProduced_kWh r
      \/ EnergyProduced_kWh r' = None)
  /\ (Temperature_C r' = Temperature_C r \/ Temperature_C r' = None)
  /\ (WindSpeed_mps r' = WindSpeed_mps r \/ WindSpeed_mps r' = None).

(** [r'] is [r] after outlier injection. *)
Definition perturbed (r r' : Row) : Prop :=
  same_keys r r' /\ Revenue r' = Revenue r
  /\ Temperature_C r' = Temperature_C r
  /\ WindSpeed_mps r' = WindSpeed_mps r
  /\ (EnergyProduced_kWh r' = EnergyProduced_kWh r
      \/ exists k, In k [0.1; 0.2; 2.0; 3.0]
                   /\ EnergyProduced_kWh r'
                      = cell_mul (EnergyProduced_kWh r) (Some k)).

Lemma same_keys_refl r : same_keys r r.
Proof. unfold same_keys; tauto. Qed.

Lemma nulled_refl r : nulled r r.
Proof. unfold nulled; pose proof (same_keys_refl r); tauto. Qed.

Lemma perturbed_refl r : perturbed r r.
Proof. unfold perturbed; pose proof (same_keys_refl r); tauto. Qed.

Lemma nulled_trans r1 r2 r3 : nulled r1 r2 -> nulled r2 r3 -> nulled r1 r3.
Proof.
  unfold nulled, same_keys.
  intros ((?&?&?&?&?&?&?)&?&He&Ht&Hw) ((?&?&?&?&?&?&?)&?&He'&Ht'&Hw').
  repeat split; try congruence.
  - destruct He', He; [left|right|right|right]; congruence.
  - destruct Ht', Ht; [left|right|right|right]; congruence.
  - destruct Hw', Hw; [left|right|right|right]; congruence.
Qed.

Lemma Forall2_refl {A : Type} (R : A -> A -> Prop) xs :
  (forall x, R x x) -> Forall2 R xs xs.
Proof. intros H; induction xs; constructor; auto. Qed.

Lemma Forall2_Forall_r {A B : Type} (R : A -> B -> Prop) (P : B -> Prop) xs ys :
  Forall2 R xs ys -> (forall x y, R x y -> P y) -> Forall P ys.
Proof. induction 1; intros; constructor; eauto. Qed.

Lemma loc_set_nan_nulled mask col df :
  length mask = length df -> Forall2 nulled df (loc_set_nan mask col df).
Proof.
  intros Hl; unfold loc_set_nan; apply map2_Forall2; [exact Hl|].
  intros b r; destruct b; [|apply nulled_refl].
  destruct (col =? "EnergyProduced_kWh")%string;
    [|destruct (col =? "Temperature_C")%string;
      [|destruct (col =? "WindSpeed_mps")%string; [|apply nulled_refl]]];
    unfold nulled, same_keys; cbn; tauto.
Qed.

Lemma foldM_returns {A B : Type} (f : A -> B -> M A) (P : A -> Prop) xs :
  (forall a x g, P a -> returns (f a x) g P) ->
  forall a g, P a -> returns (foldM f a xs) g P.
Proof.
  intros Hf; induction xs as [|x xs IH]; simpl; intros a g Ha.
  - apply returns_ret; exact Ha.
  - eapply returns_bind; [apply Hf; exact Ha|]; intros; apply IH; auto.
Qed.

Lemma _introduce_missing_values_spec df missing_rate g :
  returns (_introduce_missing_values df missing_rate) g (Forall2 nulled df).
Proof.
  unfold _introduce_missing_values.
  unfold returns, bind at 1, np_random_seed at 1; cbv beta iota.
  apply foldM_returns; [|apply Forall2_refl, nulled_refl].
  intros df1 col g1 H1.
  destruct (existsb (String.eqb col) columns);
    [|apply returns_ret; exact H1].
  destruct (np_random_random_spec (length df1) g1) as (u & g2 & E & L & _).
  unfold returns. run_with E.
  eexists _, g2; split; [reflexivity|].
  eapply Forall2_trans; [apply nulled_trans | exact H1 |].
  apply loc_set_nan_nulled. rewrite length_map; exact L.
Qed.

Lemma np_random_choice_spec {A : Type} (a : list A) size g :
  a <> [] ->
  returns (np_random_choice a size) g
    (fun xs => length xs = size /\ Forall (fun x => In x a) xs).
Proof.
  intros Ha; unfold np_random_choice.
  destruct a as [|a0 a']; [congruence|]. cbn [length Nat.eqb andb].
  pose proof (draws_length (rk_interval (S (length a') - 1)) size g) as Hl.
  pose proof (draws_Forall (rk_interval (S (length a') - 1))
                (fun i => (i <= S (length a') - 1)%nat) size g
                (rk_interval_le _)) as Hf.
  eapply returns_bind.
  { unfold returns, lift.
    destruct (draws (rk_interval (S (length a') - 1)) size g) as [idx g1].
    exists idx, g1; split; [reflexivity|].
    instantiate (1 := fun idx => length idx = size
                       /\ Forall (fun i => (i <= S (length a') - 1)%nat) idx).
    cbn [fst] in *; auto. }
  intros idx g1 [Hl' Hf'].
  eapply returns_weaken.
  - apply (mapM_returns _ (fun _ x => In x (a0 :: a'))).
    intros i g2 Hi. rewrite Forall_forall in Hf'. specialize (Hf' i Hi).
    destruct (nth_error (a0 :: a') i) as [x|] eqn:En.
    + apply returns_ret. eapply nth_error_In; eauto.
    + apply nth_error_None in En; cbn [length] in En; lia.
  - intros xs H2; split.
    + rewrite <- (Forall2_same_length _ _ _ H2); exact Hl'.
    + eapply Forall2_Forall_r; [exact H2|]; auto.
Qed.

Lemma loc_imul_energy_perturbed mask multiplier df :
  Forall (fun k => In k [0.1; 0.2; 2.0; 3.0]) multiplier ->
  Forall2 perturbed df (loc_imul_energy mask multiplier df).
Proof.
  revert multiplier df; induction mask as [|b mask IH];
    intros multiplier df Hm.
  - destruct df; apply Forall2_refl, perturbed_refl.
  - destruct df as [|r df]; [constructor|]. cbn [loc_imul_energy].
    destruct b; [|constructor; [apply perturbed_refl | apply IH; exact Hm]].
    destruct multiplier as [|k ks].
    + constructor; [apply perturbed_refl | apply IH; exact Hm].
    + inversion Hm; subst. constructor; [|apply IH; assumption].
      unfold perturbed, same_keys; cbn. repeat split; auto.
      right; exists k; auto.
Qed.

Lemma _introduce_outliers_spec df outlier_rate g :
  returns (_introduce_outliers df outlier_rate) g (Forall2 perturbed df).
Proof.
  unfold _introduce_outliers.
  unfold returns, bind at 1, np_random_seed at 1; cbv beta iota.
  destruct (np_random_random_spec (length df) (rk_seed 101112))
    as (u & g1 & E & L & _).
  run_with E.
  eapply returns_bind; [apply np_random_choice_spec; discriminate|].
  cbv beta; intros ks g2 [_ Hks].
  destruct (existsb _ _); apply returns_ret.
  - apply loc_imul_energy_perturbed; exact Hks.
  - apply Forall2_refl, perturbed_refl.
Qed.

Lemma insert_row_perm r df : Permutation (r :: df) (insert_row r df).
Proof.
  induction df as [|r' df IH]; simpl; [reflexivity|].
  destruct (row_leb r r'); [reflexivity|].
  rewrite perm_swap; constructor; exact IH.
Qed.

Lemma sort_values_perm df : Permutation df (sort_values df).
Proof.
  induction df as [|r df IH]; simpl; [constructor|].
  rewrite <- insert_row_perm; constructor; exact IH.
Qed.

End Tables.

(** ** The site frames and the merged table *)

Section Orchestration.

Context {numpy : NumPy} {python : Interpreter}.

Ltac run_with E := unfold bind at 1; rewrite E; cbv beta iota.

(** [r] is the row of day number [i] in the frame of the site [site_id],
    built from the shared series [w], [t], [s] (weather) and [p] (price),
    before any degradation. *)
Definition site_row (self : RenewableEnergyDataGenerator)
  (w : list string) (t s p : list Q)
  (site_id : string) (site_info : SiteInfo) (production hours : list Q)
  (i : nat) (r : Row) : Prop :=
  let dates := date_range self in
  (i < length dates)%nat
  /\ dict_get site_id (sites self) = Some site_info
  /\ (forall g, exists g',
         _generate_energy_production site_id site_info dates w t s g
         = inr (production, g'))
  /\ (forall g, exists g',
         _generate_downtime dates (type site_info) g = inr (hours, g'))
  /\ length production = length dates
  /\ length hours = length dates
  /\ Date r = nth i dates 0%Z
  /\ SiteID r = site_id
  /\ SiteName r = name site_info
  /\ SiteType r = type site_info
  /\ EnergyProduced_kWh r
     = Some (nth i production 0 * (1 - nth i hours 0 / 24))
  /\ SpotMarketPrice r = Some (nth i p 0)
  /\ Revenue r
     = Some (nth i production 0 * (1 - nth i hours 0 / 24) * nth i p 0 / 1000)
  /\ WeatherCondition r = nth i w ""%string
  /\ DowntimeHours r = Some (nth i hours 0)
  /\ Temperature_C r = Some (nth i t 0)
  /\ WindSpeed_mps r = Some (nth i s 0).

Definition clean_row (self : RenewableEnergyDataGenerator)
  (w : list string) (t s p : list Q) (r : Row) : Prop :=
  exists site_id site_info production hours i,
    In site_id (map fst (sites self))
    /\ site_row self w t s p site_id site_info production hours i r.

Lemma generate_site_data_inr self site_id w t s p g df g' :
  length w = length (date_range self) ->
  length t = length (date_range self) ->
  length s = length (date_range self) ->
  length p = length (date_range self) ->
  generate_site_data self site_id (Some w) (Some t) (Some s) (Some p) g
    = inr (df, g') ->
  length df = length (date_range self)
  /\ forall r, In r df ->
       exists site_info production hours i,
         site_row self w t s p site_id site_info production hours i r.
Proof.
  intros Hw Ht Hs Hp; unfold generate_site_data.
  destruct (dict_get site_id (sites self)) as [info|] eqn:Hget;
    [|discriminate].
  unfold bind at 1, ret at 1; cbv beta iota.
  unfold bind at 1, ret at 1; cbv beta iota.
  destruct (recognized_dec (type info)) as [Hr|Hr].
  2:{ unfold bind at 1.
      rewrite (_generate_energy_production_unknown _ _ _ _ _ _ _ Hr).
      discriminate. }
  destruct (_generate_energy_production_spec site_id info (date_range self)
              w t s g Hr) as (prod & g1 & E1 & L1).
  specialize (L1 Hw Ht Hs). run_with E1.
  destruct (recognized_maintenance_prob _ Hr) as (prob & Hprob).
  destruct (_generate_downtime_spec (date_range self) (type info) prob g1
              Hprob) as (dt & g2 & E2 & L2 & _).
  run_with E2.
  unfold pd_DataFrame. destruct (forallb _ _); [|discriminate].
  unfold ret; intros H; injection H as <- <-.
  split; [rewrite length_map, length_seq; reflexivity|].
  intros r Hin. apply in_map_iff in Hin; destruct Hin as (i & <- & Hi).
  apply in_seq in Hi; destruct Hi as [_ Hi]; cbn in Hi.
  exists info, prod, dt, i; unfold site_row.
  cbn [Date SiteID SiteName SiteType EnergyProduced_kWh SpotMarketPrice
         Revenue WeatherCondition DowntimeHours Temperature_C WindSpeed_mps].
  assert (Hav : length (map (fun h => 1 - h / 24) dt)
                = length (date_range self))
    by (rewrite length_map; exact L2).
  assert (He : nth i (map2 Qmult prod (map (fun h => 1 - h / 24) dt)) 0
               = nth i prod 0 * (1 - nth i dt 0 / 24)).
  { rewrite (map2_nth _ _ _ i 0 0 0) by lia.
    rewrite (map_nth_in _ _ i 0 0) by lia. reflexivity. }
  repeat split; auto.
  - intros g0; exists g1.
    rewrite (_generate_energy_production_state _ _ _ _ _ _ g0 g); exact E1.
  - intros g0; exists g2.
    rewrite (_generate_downtime_state _ _ g0 g1); exact E2.
  - rewrite He; reflexivity.
  - rewrite (map2_nth _ _ _ i 0 0 0).
    + rewrite He; reflexivity.
    + erewrite map2_length_same; eauto.
    + lia.
Qed.

Lemma concat_length_uniform {A : Type} (blocks : list (list A)) n :
  Forall (fun b => length b = n) blocks ->
  length (concat blocks) = (n * length blocks)%nat.
Proof.
  induction 1 as [|b blocks Hb _ IH]; simpl; [lia|].
  rewrite length_app, IH, Hb; lia.
Qed.

(** What a returned table is made of: every row is a clean site row that
    went through missing-value injection, outlier injection and the
    recomputation of the revenue column. *)
Lemma generate_all_data_inr self g df g' :
  generate_all_data self g = inr (df, g') ->
  exists w t s p,
    (forall g0, exists g1,
        _generate_weather_data self (date_range self) g0 = inr (w, t, s, g1))
    /\ (forall g0, exists g1,
           _generate_spot_market_price self (date_range self) g0
           = inr (p, g1))
    /\ (length w = length (date_range self)
        /\ length t = length (date_range self)
        /\ length s = length (date_range self)
        /\ length p = length (date_range self))
    /\ Forall (fun x => 5 <= x) p
    /\ length df = (length (date_range self) * length (sites self))%nat
    /\ forall r, In r df ->
         exists r0 r1 r2,
           clean_row self w t s p r0 /\ nulled r0 r1 /\ perturbed r1 r2
           /\ r = set_Revenue
                    (cell_div
                       (cell_mul (EnergyProduced_kWh r2) (SpotMarketPrice r2))
                       1000) r2.
Proof.
  unfold generate_all_data; intros H.
  apply bind_inr in H; destruct H as ([[w t] s] & g1 & Ew & H).
  destruct (_generate_weather_data_inr _ _ _ _ _ _ _ Ew) as (Lw & Lt & Ls).
  destruct (_generate_spot_market_price_spec self (date_range self) g1)
    as (p & g2 & Ep & Lp & Fp).
  revert H; run_with Ep; intros H.
  apply bind_inr in H; destruct H as (blocks & g3 & Eb & H).
  apply (mapM_inr _
           (fun site_id block =>
              length block = length (date_range self)
              /\ forall r, In r block ->
                   exists site_info production hours i,
                     In site_id (map fst (sites self))
                     /\ site_row self w t s p site_id site_info production
                          hours i r)) in Eb.
  2:{ intros sid block ga gb Hin Hsite.
      destruct (generate_site_data_inr _ _ _ _ _ _ _ _ _ Lw Lt Ls Lp Hsite)
        as (Hl & Hrows).
      split; [exact Hl|]; intros r Hr.
      destruct (Hrows r Hr) as (info & prod & dt & i & Hrow).
      exists info, prod, dt, i; auto. }
  apply bind_inr in H; destruct H as (combined & g4 & Ec & H).
  assert (combined = concat blocks) as ->.
  { unfold pd_concat in Ec; destruct blocks; [discriminate|].
    unfold ret in Ec; congruence. }
  destruct (_introduce_missing_values_spec (concat blocks) 0.02 g4)
    as (df1 & g5 & E1 & N1).
  revert H; run_with E1; intros H.
  destruct (_introduce_outliers_spec df1 0.01 g5) as (df2 & g6 & E2 & N2).
  revert H; run_with E2; intros H.
  unfold ret in H; injection H as <- <-.
  exists w, t, s, p.
  split; [|split; [|split; [|split; [|split]]]].
  - intros g0; exists g1. rewrite <- Ew. reflexivity.
  - intros g0; exists g2. rewrite <- Ep. reflexivity.
  - auto.
  - exact Fp.
  - rewrite <- (Permutation_length (sort_values_perm _)), length_map.
    rewrite <- (Forall2_same_length _ _ _ N2).
    rewrite <- (Forall2_same_length _ _ _ N1).
    rewrite (concat_length_uniform blocks (length (date_range self))).
    + rewrite <- (Forall2_same_length _ _ _ Eb), length_map; reflexivity.
    + eapply Forall2_Forall_r; [exact Eb|]; cbv beta; tauto.
  - intros r Hr.
    apply (Permutation_in _ (Permutation_sym (sort_values_perm _))) in Hr.
    apply in_map_iff in Hr; destruct Hr as (r2 & <- & Hr2).
    destruct (Forall2_In_r _ _ _ _ N2 Hr2) as (r1 & Hr1 & P12).
    destruct (Forall2_In_r _ _ _ _ N1 Hr1) as (r0 & Hr0 & P01).
    apply in_concat in Hr0; destruct Hr0 as (block & Hblock & Hr0).
    destruct (Forall2_In_r _ _ _ _ Eb Hblock) as (sid & _ & _ & Hrows).
    destruct (Hrows r0 Hr0) as (info & prod & dt & i & Hsid & Hrow).
    exists r0, r1, r2.
    split; [|split; [exact P01 | split; [exact P12 | reflexivity]]].
    exists sid, info, prod, dt, i; auto.
Qed.

End Orchestration.

(** ** Generation returns a table *)

Section Totality.

Context {numpy : NumPy} {python : Interpreter}.

Ltac run_with E := unfold bind at 1; rewrite E; cbv beta iota.

Lemma dict_get_in {V : Type} key (d : list (string * V)) :
  In key (map fst d) -> exists v, dict_get key d = Some v /\ In (key, v) d.
Proof.
  induction d as [|[k v] d IH]; simpl; [tauto|]; intros Hin.
  destruct (String.eqb_spec k key) as [->|Hne].
  - exists v; auto.
  - destruct Hin as [Heq|Hin]; [contradiction|].
    destruct (IH Hin) as (v' & ? & ?); exists v'; auto.
Qed.

(** A catalog whose sites all have one of the three types. *)
Definition catalog_ok (catalog : list (string * SiteInfo)) : Prop :=
  Forall (fun entry => recognized (type (snd entry))) catalog.

Lemma generate_site_data_spec self site_id w t s p g :
  length w = length (date_range self) ->
  length t = length (date_range self) ->
  length s = length (date_range self) ->
  length p = length (date_range self) ->
  catalog_ok (sites self) ->
  In site_id (map fst (sites self)) ->
  exists df g',
    generate_site_data self site_id (Some w) (Some t) (Some s) (Some p) g
    = inr (df, g').
Proof.
  intros Hw Ht Hs Hp Hok Hin; unfold generate_site_data.
  destruct (dict_get_in _ _ Hin) as (info & Hget & Hentry).
  rewrite Hget.
  assert (Hr : recognized (type info)).
  { unfold catalog_ok in Hok; rewrite Forall_forall in Hok.
    exact (Hok _ Hentry). }
  unfold bind at 1, ret at 1; cbv beta iota.
  unfold bind at 1, ret at 1; cbv beta iota.
  destruct (_generate_energy_production_spec site_id info (date_range self)
              w t s g Hr) as (prod & g1 & E1 & L1).
  specialize (L1 Hw Ht Hs). run_with E1.
  destruct (recognized_maintenance_prob _ Hr) as (prob & Hprob).
  destruct (_generate_downtime_spec (date_range self) (type info) prob g1
              Hprob) as (dt & g2 & E2 & L2 & _).
  run_with E2.
  unfold pd_DataFrame.
  assert (He : length (map2 Qmult prod (map (fun h => 1 - h / 24) dt))
               = length (date_range self))
    by (apply map2_length_same; rewrite ?length_map; auto).
  assert (Hrev : length (map2 (fun e p => e * p / 1000)
                           (map2 Qmult prod (map (fun h => 1 - h / 24) dt)) p)
                 = length (date_range self))
    by (apply map2_length_same; auto).
  cbn [forallb]. rewrite He, Hrev, Hp, Hw, L2, Ht, Hs, Nat.eqb_refl.
  cbn [andb]. eexists _, g2; reflexivity.
Qed.

Lemma generate_all_data_returns self g :
  length (weather_conditions self) = 6%nat ->
  sites self <> [] ->
  catalog_ok (sites self) ->
  exists df g', generate_all_data self g = inr (df, g').
Proof.
  intros H6 Hne Hok; unfold generate_all_data.
  destruct (_generate_weather_data_spec self (date_range self) g H6)
    as (w & t & s & g1 & Ew).
  destruct (_generate_weather_data_inr _ _ _ _ _ _ _ Ew) as (Lw & Lt & Ls).
  run_with Ew.
  destruct (_generate_spot_market_price_spec self (date_range self) g1)
    as (p & g2 & Ep & Lp & _).
  run_with Ep.
  match goal with
  | |- context [mapM ?f ?keys] =>
      destruct (mapM_returns f (fun _ _ => True) keys) with (g := g2)
        as (blocks & g3 & Eb & Fb)
  end.
  { intros sid g0 Hin.
    destruct (generate_site_data_spec self sid w t s p g0 Lw Lt Ls Lp Hok Hin)
      as (df & g' & E).
    exists df, g'; auto. }
  run_with Eb.
  apply Forall2_same_length in Fb. rewrite length_map in Fb.
  destruct blocks as [|b blocks].
  { destruct (sites self); [congruence|discriminate]. }
  unfold bind at 1, pd_concat at 1, ret at 1; cbv beta iota.
  destruct (_introduce_missing_values_spec (concat (b :: blocks)) 0.02 g3)
    as (df1 & g5 & E1 & _).
  run_with E1.
  destruct (_introduce_outliers_spec df1 0.01 g5) as (df2 & g6 & E2 & _).
  run_with E2.
  eexists _, g6; reflexivity.
Qed.

(** With an empty catalog there is no frame to concatenate: [pd.concat]
    raises and no table is returned. *)
Lemma generate_all_data_empty_catalog self g :
  length (weather_conditions self) = 6%nat ->
  sites self = [] ->
  generate_all_data self g = inl (ValueError "No objects to concatenate").
Proof.
  intros H6 Hs; unfold generate_all_data.
  destruct (_generate_weather_data_spec self (date_range self) g H6)
    as (w & t & s & g1 & Ew).
  run_with Ew.
  destruct (_generate_spot_market_price_spec self (date_range self) g1)
    as (p & g2 & Ep & _).
  run_with Ep.
  rewrite Hs; reflexivity.
Qed.

End Totality.

(** ** Properties of the output table *)

Section Claims.

Context {numpy : NumPy} {python : Interpreter}.

Lemma nth_Forall {A : Type} (P : A -> Prop) xs i d :
  Forall P xs -> (i < length xs)%nat -> P (nth i xs d).
Proof.
  intros HF Hi; rewrite Forall_forall in HF; apply HF, nth_In; exact Hi.
Qed.

(** C1.  In the table that [generate_all_data] returns, the revenue of
    every row is the product of the energy and the price of that same
    row divided by 1000, NaN when one of them is NaN.  So where energy
    and price are both present the revenue is present and within 0.01 of
    energy * price / 1000 (here: equal to it), also on a row whose energy
    the outlier stage multiplied, and where the energy is missing the
    revenue is missing, not zero. *)
Theorem revenue_invariant self g df g' :
  generate_all_data self g = inr (df, g') ->
  forall r, In r df ->
    Revenue r
    = cell_div (cell_mul (EnergyProduced_kWh r) (SpotMarketPrice r)) 1000
    /\ (forall e p,
           EnergyProduced_kWh r = Some e -> SpotMarketPrice r = Some p ->
           exists v, Revenue r = Some v
                     /\ Qabs (v - e * p / 1000) < 1 # 100)
    /\ (EnergyProduced_kWh r = None -> Revenue r = None).
Proof.
  intros H r Hr.
  destruct (generate_all_data_inr _ _ _ _ H)
    as (w & t & s & p & _ & _ & _ & _ & _ & Hrows).
  destruct (Hrows r Hr) as (r0 & r1 & r2 & _ & _ & _ & ->).
  cbn [Revenue EnergyProduced_kWh SpotMarketPrice set_Revenue].
  split; [reflexivity|]; split.
  - intros e q -> ->; cbn [cell_mul cell_div option_map].
    eexists; split; [reflexivity|].
    setoid_replace (e * q / 1000 - e * q / 1000) with 0 by ring.
    reflexivity.
  - intros ->; reflexivity.
Qed.

(** C6.  The price model returns one price per day, each at least the
    floor 5, and in every row of the output table the spot market price
    is present and strictly positive. *)
Theorem price_positive :
  (forall self dates g,
      exists prices g',
        _generate_spot_market_price self dates g = inr (prices, g')
        /\ length prices = length dates
        /\ Forall (fun p => 5 <= p /\ 0 < p) prices)
  /\ (forall self g df g',
         generate_all_data self g = inr (df, g') ->
         forall r, In r df ->
           exists p, SpotMarketPrice r = Some p /\ 5 <= p /\ 0 < p).
Proof.
  split.
  - intros self dates g.
    destruct (_generate_spot_market_price_spec self dates g)
      as (prices & g' & E & L & F).
    exists prices, g'; repeat split; auto.
    eapply Forall_impl; [|exact F]; cbv beta; intros; lra.
  - intros self g df g' H r Hr.
    destruct (generate_all_data_inr _ _ _ _ H)
      as (w & t & s & p & _ & _ & (_ & _ & _ & Lp) & Fp & _ & Hrows).
    destruct (Hrows r Hr) as (r0 & r1 & r2 & Hclean & N01 & P12 & ->).
    destruct Hclean as (sid & info & prod & dt & i & _ & Hrow).
    destruct Hrow as (Hi & _ & _ & _ & _ & _ & _ & _ & _ & _ & _ & Hp & _).
    destruct N01 as ((_ & _ & _ & _ & Hp1 & _) & _).
    destruct P12 as ((_ & _ & _ & _ & Hp2 & _) & _).
    exists (nth i p 0); cbn [SpotMarketPrice set_Revenue].
    split; [congruence|].
    assert (5 <= nth i p 0) by (apply nth_Forall; [exact Fp | lia]).
    lra.
Qed.

(** C7.  For each of the three site types the downtime model returns one
    value per day, each between 0 and 24, and in every row of the output
    table the downtime is present and between 0 and 24. *)
Theorem downtime_bounds :
  (forall dates site_type g,
      recognized site_type ->
      exists hours g',
        _generate_downtime dates site_type g = inr (hours, g')
        /\ length hours = length dates
        /\ Forall (fun h => 0 <= h /\ h <= 24) hours)
  /\ (forall self g df g',
         generate_all_data self g = inr (df, g') ->
         forall r, In r df ->
           exists h, DowntimeHours r = Some h /\ 0 <= h /\ h <= 24).
Proof.
  split.
  - intros dates site_type g Hr.
    destruct (recognized_maintenance_prob _ Hr) as (prob & Hprob).
    exact (_generate_downtime_spec dates site_type prob g Hprob).
  - intros self g df g' H r Hr.
    destruct (generate_all_data_inr _ _ _ _ H)
      as (w & t & s & p & _ & _ & _ & _ & _ & Hrows).
    destruct (Hrows r Hr) as (r0 & r1 & r2 & Hclean & N01 & P12 & ->).
    destruct Hclean as (sid & info & prod & dt & i & _ & Hrow).
    destruct Hrow
      as (Hi & _ & _ & Hdt & _ & Ldt & _ & _ & _ & _ & _ & _ & _ & _ & Hd & _).
    destruct N01 as ((_ & _ & _ & _ & _ & _ & Hd1) & _).
    destruct P12 as ((_ & _ & _ & _ & _ & _ & Hd2) & _).
    destruct (Hdt g) as (ga & Ea).
    destruct (_generate_downtime_inr _ _ _ _ _ Ea) as (_ & F).
    exists (nth i dt 0); cbn [DowntimeHours set_Revenue].
    split; [congruence|].
    apply (nth_Forall (fun h => 0 <= h /\ h <= 24)); [exact F | lia].
Qed.

Lemma date_range_length start stop :
  length (Calendar.date_range start stop) = Z.to_nat (stop - start + 1).
Proof. unfold Calendar.date_range; rewrite length_map, length_seq; auto. Qed.

Lemma date_range_NoDup start stop : NoDup (Calendar.date_range start stop).
Proof.
  unfold Calendar.date_range.
  apply Finite.Injective_map_NoDup; [|apply seq_NoDup].
  intros a b Hab; lia.
Qed.

Lemma __init___inr start stop self :
  __init__ start stop = inr self ->
  date_range self = Calendar.date_range (start_date self) (end_date self)
  /\ sites self = default_sites
  /\ length (weather_conditions self) = 6%nat.
Proof.
  unfold __init__.
  destruct (Calendar.to_datetime start); [|discriminate].
  destruct (Calendar.to_datetime stop); [|discriminate].
  intros H; injection H as <-; cbn; auto.
Qed.

(** C3.  Whatever the date range and the catalog, a table returned by
    [generate_all_data] has one row per day and site: |D| * |C| rows.
    A table is returned whenever the catalog is not empty and its sites
    have recognized types (on an empty catalog [pd.concat] raises and
    there is no table, [generate_all_data_empty_catalog]).  The two degradation stages return a table
    row for row: they change cells of a row and delete none.  For a
    generator made by the constructor, |D| is end - start + 1 days when
    start <= end, and |C| is 6. *)
Theorem row_count :
  (forall self g df g',
      generate_all_data self g = inr (df, g') ->
      length df = (length (date_range self) * length (sites self))%nat)
  /\ (forall self g,
         length (weather_conditions self) = 6%nat ->
         sites self <> [] ->
         catalog_ok (sites self) ->
         exists df g',
           generate_all_data self g = inr (df, g')
           /\ length df
              = (length (date_range self) * length (sites self))%nat)
  /\ (forall df missing_rate g,
         exists df' g',
           _introduce_missing_values df missing_rate g = inr (df', g')
           /\ Forall2 nulled df df' /\ length df' = length df)
  /\ (forall df outlier_rate g,
         exists df' g',
           _introduce_outliers df outlier_rate g = inr (df', g')
           /\ Forall2 perturbed df df' /\ length df' = length df)
  /\ (forall start stop self g,
         __init__ start stop = inr self ->
         (start_date self <= end_date self)%Z ->
         exists df g',
           generate_all_data self g = inr (df, g')
           /\ length df
              = (Z.to_nat (end_date self - start_date self + 1) * 6)%nat).
Proof.
  assert (Hpart : forall self g df g',
             generate_all_data self g = inr (df, g') ->
             length df = (length (date_range self) * length (sites self))%nat).
  { intros self g df g' H.
    destruct (generate_all_data_inr _ _ _ _ H)
      as (w & t & s & p & _ & _ & _ & _ & L & _); exact L. }
  split; [exact Hpart|]; split; [|split; [|split]].
  - intros self g H6 Hne Hok.
    destruct (generate_all_data_returns self g H6 Hne Hok) as (df & g' & E).
    exists df, g'; split; [exact E | exact (Hpart _ _ _ _ E)].
  - intros df rate g.
    destruct (_introduce_missing_values_spec df rate g) as (df' & g' & E & F).
    exists df', g'; repeat split; auto.
    symmetry; exact (Forall2_same_length _ _ _ F).
  - intros df rate g.
    destruct (_introduce_outliers_spec df rate g) as (df' & g' & E & F).
    exists df', g'; repeat split; auto.
    symmetry; exact (Forall2_same_length _ _ _ F).
  - intros start stop self g Hinit Hle.
    destruct (__init___inr _ _ _ Hinit) as (Hd & Hs & H6).
    assert (Hne : sites self <> []) by (rewrite Hs; discriminate).
    assert (Hok : catalog_ok (sites self)).
    { rewrite Hs; unfold catalog_ok, default_sites.
      repeat apply Forall_cons; try apply Forall_nil;
        unfold recognized; cbn; auto. }
    destruct (generate_all_data_returns self g H6 Hne Hok) as (df & g' & E).
    exists df, g'; split; [exact E|].
    rewrite (Hpart _ _ _ _ E), Hd, Hs, date_range_length; reflexivity.
Qed.

Lemma same_day self i j :
  NoDup (date_range self) ->
  (i < length (date_range self))%nat -> (j < length (date_range self))%nat ->
  nth i (date_range self) 0%Z = nth j (date_range self) 0%Z -> i = j.
Proof. intros Hnd Hi Hj; apply (proj1 (NoDup_nth _ _) Hnd); assumption. Qed.

(** C4.  In the output table, two rows of one date carry the same weather
    condition and the same spot market price, and the same temperature
    and the same wind speed unless missing-value injection nulled the
    cell in one of them: every site frame is built from the one weather
    series and the one price series of the date range.  The days of the
    date range are distinct, as they are in every range the constructor
    builds ([date_range_NoDup]). *)
Theorem cross_site_sharing self g df g' :
  generate_all_data self g = inr (df, g') ->
  NoDup (date_range self) ->
  forall r1 r2, In r1 df -> In r2 df -> Date r1 = Date r2 ->
    WeatherCondition r1 = WeatherCondition r2
    /\ SpotMarketPrice r1 = SpotMarketPrice r2
    /\ (Temperature_C r1 = Temperature_C r2
        \/ Temperature_C r1 = None \/ Temperature_C r2 = None)
    /\ (WindSpeed_mps r1 = WindSpeed_mps r2
        \/ WindSpeed_mps r1 = None \/ WindSpeed_mps r2 = None).
Proof.
  intros H Hnd r1 r2 Hr1 Hr2 Hdate.
  destruct (generate_all_data_inr _ _ _ _ H)
    as (w & t & s & p & _ & _ & _ & _ & _ & Hrows).
  destruct (Hrows r1 Hr1) as (a0 & a1 & a2 & Ha & Na & Pa & ->).
  destruct (Hrows r2 Hr2) as (b0 & b1 & b2 & Hb & Nb & Pb & ->).
  destruct Ha as (sa & ia & pa & da & i & _ & Ha).
  destruct Hb as (sb & ib & pb & db & j & _ & Hb).
  destruct Ha as (Hi & _ & _ & _ & _ & _ & Hda & _ & _ & _ & _ & Hpa & _
                  & Hwa & _ & Hta & Hsa).
  destruct Hb as (Hj & _ & _ & _ & _ & _ & Hdb & _ & _ & _ & _ & Hpb & _
                  & Hwb & _ & Htb & Hsb).
  destruct Na as ((Na1 & _ & _ & _ & Na5 & Na6 & _) & _ & _ & Nat & Nas).
  destruct Nb as ((Nb1 & _ & _ & _ & Nb5 & Nb6 & _) & _ & _ & Nbt & Nbs).
  destruct Pa as ((Pa1 & _ & _ & _ & Pa5 & Pa6 & _) & _ & Pat & Pas & _).
  destruct Pb as ((Pb1 & _ & _ & _ & Pb5 & Pb6 & _) & _ & Pbt & Pbs & _).
  cbn [Date WeatherCondition SpotMarketPrice Temperature_C WindSpeed_mps
         set_Revenue] in *.
  assert (i = j) as <-.
  { apply (same_day self); auto; congruence. }
  repeat split; try congruence.
  - destruct Nat as [Nat|Nat], Nbt as [Nbt|Nbt];
      [left | right; right | right; left | right; left]; congruence.
  - destruct Nas as [Nas|Nas], Nbs as [Nbs|Nbs];
      [left | right; right | right; left | right; left]; congruence.
Qed.

(** C10.  The downtime model reseeds with the constant 456 and reads only
    the dates and the site type, so its result does not depend on the
    random state it is called in nor on the site; in the output table two
    rows of one date and one site type carry the same downtime hours. *)
Theorem downtime_shared_by_type :
  (forall dates site_type g g0,
      _generate_downtime dates site_type g
      = _generate_downtime dates site_type g0)
  /\ (forall self g df g',
         generate_all_data self g = inr (df, g') ->
         NoDup (date_range self) ->
         forall r1 r2, In r1 df -> In r2 df ->
           Date r1 = Date r2 -> SiteType r1 = SiteType r2 ->
           DowntimeHours r1 = DowntimeHours r2).
Proof.
  split; [intros; reflexivity|].
  intros self g df g' H Hnd r1 r2 Hr1 Hr2 Hdate Htype.
  destruct (generate_all_data_inr _ _ _ _ H)
    as (w & t & s & p & _ & _ & _ & _ & _ & Hrows).
  destruct (Hrows r1 Hr1) as (a0 & a1 & a2 & Ha & Na & Pa & ->).
  destruct (Hrows r2 Hr2) as (b0 & b1 & b2 & Hb & Nb & Pb & ->).
  destruct Ha as (sa & ia & pa & da & i & _ & Ha).
  destruct Hb as (sb & ib & pb & db & j & _ & Hb).
  destruct Ha as (Hi & _ & _ & Hha & _ & _ & Hda & _ & _ & Hya & _ & _ & _
                  & _ & Hxa & _).
  destruct Hb as (Hj & _ & _ & Hhb & _ & _ & Hdb & _ & _ & Hyb & _ & _ & _
                  & _ & Hxb & _).
  destruct Na as ((Na1 & _ & _ & Na4 & _ & _ & Na7) & _).
  destruct Nb as ((Nb1 & _ & _ & Nb4 & _ & _ & Nb7) & _).
  destruct Pa as ((Pa1 & _ & _ & Pa4 & _ & _ & Pa7) & _).
  destruct Pb as ((Pb1 & _ & _ & Pb4 & _ & _ & Pb7) & _).
  cbn [Date SiteType DowntimeHours set_Revenue] in *.
  assert (i = j) as <-.
  { apply (same_day self); auto; congruence. }
  assert (Hsame : type ia = type ib) by congruence.
  destruct (Hha g) as (ga & Ea). destruct (Hhb g) as (gb & Eb).
  rewrite Hsame, Eb in Ea. injection Ea as -> _.
  congruence.
Qed.

(** C5.  The capacity factor of the wind model is the three-region power
    curve: 0 below the cut-in speed 3.5, the cube of speed / 12 from 3.5
    up to the rated speed 12, 1 from 12 up to the cut-out speed 25, and 0
    from 25 on.  On a day whose wind speed is below 3.5 the wind model
    produces zero energy, and so the row of that day in the frame of a
    wind site has zero energy. *)
Theorem wind_power_curve :
  (forall wind_speed i,
      (i < length wind_speed)%nat ->
      let w := nth i wind_speed 0 in
      let c := nth i (capacity_factor wind_speed) 0 in
      (w < 3.5 -> c = 0)
      /\ (3.5 <= w -> w < 12 -> c = (w / 12) ^ 3)
      /\ (12 <= w -> w < 25 -> c = 1)
      /\ (25 <= w -> c = 0))
  /\ (forall dates weather wind_speed capacity g,
         length weather = length dates ->
         length wind_speed = length dates ->
         exists production g',
           _generate_wind_production dates weather wind_speed capacity g
           = inr (production, g')
           /\ length production = length dates
           /\ forall i, (i < length dates)%nat ->
                nth i wind_speed 0 < 3.5 -> nth i production 0 == 0)
  /\ (forall self site_id w t s p g df g',
         length w = length (date_range self) ->
         length t = length (date_range self) ->
         length s = length (date_range self) ->
         length p = length (date_range self) ->
         generate_site_data self site_id (Some w) (Some t) (Some s) (Some p) g
         = inr (df, g') ->
         forall r speed,
           In r df -> SiteType r = "wind"%string ->
           WindSpeed_mps r = Some speed -> speed < 3.5 ->
           exists e, EnergyProduced_kWh r = Some e /\ e == 0).
Proof.
  assert (Hcf : forall wind_speed i,
             (i < length wind_speed)%nat ->
             nth i (capacity_factor wind_speed) 0
             = (if Qltb (nth i wind_speed 0) 3.5 then 0
                else if Qltb (nth i wind_speed 0) 12
                     then (nth i wind_speed 0 / 12) ^ 3
                     else if Qltb (nth i wind_speed 0) 25 then 1 else 0)).
  { intros ws i Hi; unfold capacity_factor.
    rewrite (map_nth_in _ _ i 0 0) by exact Hi. reflexivity. }
  assert (Hwind : forall dates weather wind_speed capacity g,
             length weather = length dates ->
             length wind_speed = length dates ->
             exists production g',
               _generate_wind_production dates weather wind_speed capacity g
               = inr (production, g')
               /\ length production = length dates
               /\ forall i, (i < length dates)%nat ->
                    nth i wind_speed 0 < 3.5 -> nth i production 0 == 0).
  { intros dates weather ws capacity g Hw Hs.
    destruct (_generate_wind_production_spec dates weather ws capacity g)
      as (prod & g' & E & L).
    destruct (L Hw Hs) as (Hl & Hz).
    exists prod, g'; repeat split; auto.
    intros i Hi Hlow. apply Hz; [exact Hi|].
    rewrite Hcf by (rewrite Hs; exact Hi).
    apply Qltb_lt in Hlow; rewrite Hlow; reflexivity. }
  split; [|split; [exact Hwind|]].
  - intros ws i Hi w c; subst w c. rewrite (Hcf ws i Hi).
    destruct (Qltb (nth i ws 0) 3.5) eqn:E1;
      [apply Qltb_lt in E1 | apply Qltb_ge in E1];
      (destruct (Qltb (nth i ws 0) 12) eqn:E2;
       [apply Qltb_lt in E2 | apply Qltb_ge in E2]);
      (destruct (Qltb (nth i ws 0) 25) eqn:E3;
       [apply Qltb_lt in E3 | apply Qltb_ge in E3]);
      repeat split; intros; try reflexivity; exfalso; lra.
  - intros self site_id w t s p g df g' Lw Lt Ls Lp H r speed Hr Hty Hws Hlow.
    destruct (generate_site_data_inr _ _ _ _ _ _ _ _ _ Lw Lt Ls Lp H)
      as (_ & Hrows).
    destruct (Hrows r Hr) as (info & prod & dt & i & Hrow).
    destruct Hrow as (Hi & _ & Hprod & _ & _ & _ & _ & _ & _ & Hty' & He & _
                      & _ & _ & _ & _ & Hs').
    rewrite Hws in Hs'; injection Hs' as ->.
    rewrite Hty in Hty'.
    destruct (Hprod g) as (ga & Ea).
    unfold _generate_energy_production in Ea.
    unfold bind at 1, np_random_seed at 1 in Ea; cbv beta iota zeta in Ea.
    rewrite <- Hty' in Ea; cbn [String.eqb Ascii.eqb Bool.eqb] in Ea.
    match type of Ea with
    | _generate_wind_production ?d ?we ?ws ?c ?g0 = _ =>
        destruct (Hwind d we ws c g0 Lw Ls) as (prod' & gb & Eb & _ & Hz)
    end.
    rewrite Eb in Ea; injection Ea as -> _.
    exists (nth i prod 0 * (1 - nth i dt 0 / 24)); split; [exact He|].
    rewrite (Hz i Hi Hlow); ring.
Qed.


(** C8, as the program has it.  The constructor does not check the order
    of its two dates: on two valid dates with the start after the end it
    returns a generator whose date range is empty, and
    [generate_all_data] on that generator returns the empty table
    without raising. *)
Theorem inverted_range_not_rejected start stop s e :
  Calendar.to_datetime start = Some s ->
  Calendar.to_datetime stop = Some e ->
  (e < s)%Z ->
  exists self,
    __init__ start stop = inr self
    /\ date_range self = []
    /\ forall g, exists g', generate_all_data self g = inr ([], g').
Proof.
  intros Hs He Hlt; unfold __init__; rewrite Hs, He.
  assert (Hd : Calendar.date_range s e = []).
  { unfold Calendar.date_range.
    replace (Z.to_nat (e - s + 1)) with 0%nat by lia. reflexivity. }
  rewrite Hd. eexists; split; [reflexivity|]; split; [reflexivity|].
  intros g; eexists; vm_compute; reflexivity.
Qed.

End Claims.

(** ** The properties on a run

    The generator of 2023-01-01 with the reference catalog, run on the
    executable instance of the libraries. *)

Definition one_day_run : exn + DataFrame * Z :=
  generate_all_data (numpy := Reference.numpy)
    (python := Reference.python 0 0) Reference.one_day 0%Z.

Example one_day_run_sites :
  match one_day_run with
  | inr (df, _) => map SiteID df
  | inl _ => []
  end
  = ["BATT001"; "SOLAR001"; "SOLAR002"; "SOLAR003"; "WIND001"; "WIND002"]%string.
Proof. vm_compute; reflexivity. Qed.

Lemma revenue_invariant_witness :
  exists df g',
    one_day_run = inr (df, g')
    /\ forall r, In r df ->
         Revenue r
         = cell_div (cell_mul (EnergyProduced_kWh r) (SpotMarketPrice r)) 1000
         /\ (forall e p,
                EnergyProduced_kWh r = Some e -> SpotMarketPrice r = Some p ->
                exists v, Revenue r = Some v
                          /\ Qabs (v - e * p / 1000) < 1 # 100)
         /\ (EnergyProduced_kWh r = None -> Revenue r = None).
Proof.
  destruct one_day_run as [x|[df g']] eqn:E.
  - exfalso; vm_compute in E; discriminate E.
  - exists df, g'; split; [reflexivity|].
    exact (@revenue_invariant Reference.numpy (Reference.python 0 0)
             Reference.one_day 0%Z df g' E).
Defined.

Lemma row_count_witness :
  exists df g', one_day_run = inr (df, g') /\ length df = 6%nat.
Proof.
  destruct one_day_run as [x|[df g']] eqn:E.
  - exfalso; vm_compute in E; discriminate E.
  - exists df, g'; split; [reflexivity|].
    exact (proj1 (@row_count Reference.numpy (Reference.python 0 0))
             Reference.one_day 0%Z df g' E).
Defined.

Lemma cross_site_sharing_witness :
  exists df g',
    one_day_run = inr (df, g')
    /\ forall r1 r2, In r1 df -> In r2 df -> Date r1 = Date r2 ->
         WeatherCondition r1 = WeatherCondition r2
         /\ SpotMarketPrice r1 = SpotMarketPrice r2
         /\ (Temperature_C r1 = Temperature_C r2
             \/ Temperature_C r1 = None \/ Temperature_C r2 = None)
         /\ (WindSpeed_mps r1 = WindSpeed_mps r2
             \/ WindSpeed_mps r1 = None \/ WindSpeed_mps r2 = None).
Proof.
  destruct one_day_run as [x|[df g']] eqn:E.
  - exfalso; vm_compute in E; discriminate E.
  - exists df, g'; split; [reflexivity|].
    apply (@cross_site_sharing Reference.numpy (Reference.python 0 0)
             Reference.one_day 0%Z df g' E).
    repeat constructor; simpl; tauto.
Defined.

Lemma wind_power_curve_witness :
  nth 0 (capacity_factor [2]) 0 = 0
  /\ nth 0 (capacity_factor [6]) 0 = (6 / 12) ^ 3
  /\ nth 0 (capacity_factor [20]) 0 = 1
  /\ nth 0 (capacity_factor [25]) 0 = 0
  /\ exists production g',
       _generate_wind_production (numpy := Reference.numpy)
         [19358%Z] ["Cloudy"%string] [2] 100 0%Z = inr (production, g')
       /\ nth 0 production 0 == 0.
Proof.
  pose proof (@wind_power_curve Reference.numpy (Reference.python 0 0))
    as (Hcf & Hwind & _).
  split; [|split; [|split; [|split]]].
  - destruct (Hcf [2] 0%nat ltac:(simpl; lia)) as (H & _).
    apply H; reflexivity.
  - destruct (Hcf [6] 0%nat ltac:(simpl; lia)) as (_ & H & _).
    apply H; [discriminate | reflexivity].
  - destruct (Hcf [20] 0%nat ltac:(simpl; lia)) as (_ & _ & H & _).
    apply H; [discriminate | reflexivity].
  - destruct (Hcf [25] 0%nat ltac:(simpl; lia)) as (_ & _ & _ & H).
    apply H; discriminate.
  - destruct (Hwind [19358%Z] ["Cloudy"%string] [2] 100 0%Z eq_refl eq_refl)
      as (production & g' & E & _ & Hz).
    exists production, g'; split; [exact E|].
    apply (Hz 0%nat); [simpl; lia | reflexivity].
Defined.

Lemma price_positive_witness :
  exists df g',
    one_day_run = inr (df, g')
    /\ forall r, In r df ->
         exists p, SpotMarketPrice r = Some p /\ 5 <= p /\ 0 < p.
Proof.
  destruct one_day_run as [x|[df g']] eqn:E.
  - exfalso; vm_compute in E; discriminate E.
  - exists df, g'; split; [reflexivity|].
    exact (proj2 (@price_positive Reference.numpy (Reference.python 0 0))
             Reference.one_day 0%Z df g' E).
Defined.

Lemma downtime_bounds_witness :
  (exists hours g',
      _generate_downtime (numpy := Reference.numpy) [19358%Z] "wind" 0%Z
      = inr (hours, g')
      /\ length hours = 1%nat
      /\ Forall (fun h => 0 <= h /\ h <= 24) hours)
  /\ exists df g',
       one_day_run = inr (df, g')
       /\ forall r, In r df ->
            exists h, DowntimeHours r = Some h /\ 0 <= h /\ h <= 24.
Proof.
  split.
  - apply (proj1 (@downtime_bounds Reference.numpy (Reference.python 0 0))).
    right; left; reflexivity.
  - destruct one_day_run as [x|[df g']] eqn:E.
    + exfalso; vm_compute in E; discriminate E.
    + exists df, g'; split; [reflexivity|].
      exact (proj2 (@downtime_bounds Reference.numpy (Reference.python 0 0))
               Reference.one_day 0%Z df g' E).
Defined.



Lemma downtime_shared_by_type_witness :
  exists df g',
    one_day_run = inr (df, g')
    /\ forall r1 r2, In r1 df -> In r2 df ->
         Date r1 = Date r2 -> SiteType r1 = SiteType r2 ->
         DowntimeHours r1 = DowntimeHours r2.
Proof.
  destruct one_day_run as [x|[df g']] eqn:E.
  - exfalso; vm_compute in E; discriminate E.
  - exists df, g'; split; [reflexivity|].
    apply (proj2 (@downtime_shared_by_type Reference.numpy (Reference.python 0 0))
             Reference.one_day 0%Z df g' E).
    repeat constructor; simpl; tauto.
Defined.

Lemma inverted_range_not_rejected_witness :
  exists self,
    __init__ "2023-01-07" "2023-01-01" = inr self
    /\ date_range self = []
    /\ forall g, exists g',
         generate_all_data (numpy := Reference.numpy)
           (python := Reference.python 0 0) self g = inr ([], g').
Proof.
  apply (inverted_range_not_rejected (numpy := Reference.numpy)
           (python := Reference.python 0 0)
           "2023-01-07" "2023-01-01" 19364%Z 19358%Z);
    [reflexivity | reflexivity | reflexivity].
Defined.

(** C8, as the claim states it, fails: the constructor accepts the
    inverted range 2023-01-07 to 2023-01-01 and generation returns a table
    (with no rows) in place of failing. *)
Lemma inverted_range_counterexample :
  __init__ "2023-01-07" "2023-01-01" = inr Reference.inverted
  /\ date_range Reference.inverted = []
  /\ exists g',
       generate_all_data (numpy := Reference.numpy)
         (python := Reference.python 0 0) Reference.inverted 0%Z
       = inr ([], g').
Proof.
  split; [reflexivity|]; split; [reflexivity|].
  eexists; vm_compute; reflexivity.
Qed.

(** ** Reproducibility *)

(** Inside one process every stage reseeds the generator before it draws,
    so the table does not depend on the random state generation starts
    in: a second run in the same interpreter returns the same table. *)
Lemma generate_all_data_state {numpy : NumPy} {python : Interpreter}
  (self : RenewableEnergyDataGenerator) (g g0 : RandomState) :
  generate_all_data self g = generate_all_data self g0.
Proof. reflexivity. Qed.

(** C2.  The seed of the production model of a site is
    [hash(site_id) % 2**32], and [hash] on a string depends on the hash
    secret of the process.  Two runs of the generator of 2023-01-01 with
    the same catalog, in two processes that differ only in that secret,
    return tables that differ: the first rows are of the same date and
    site, both have their energy, and the two energies are different
    numbers. *)
Theorem hash_secret_changes_output :
  exists df1 g1 df2 g2 r1 r2 e1 e2,
    generate_all_data (numpy := Reference.numpy)
      (python := Reference.python 0 0) Reference.one_day 0%Z = inr (df1, g1)
    /\ generate_all_data (numpy := Reference.numpy)
         (python := Reference.python 1 0) Reference.one_day 0%Z = inr (df2, g2)
    /\ nth_error df1 0 = Some r1 /\ nth_error df2 0 = Some r2
    /\ Date r1 = Date r2 /\ SiteID r1 = SiteID r2
    /\ EnergyProduced_kWh r1 = Some e1 /\ EnergyProduced_kWh r2 = Some e2
    /\ ~ e1 == e2.
Proof.
  destruct (generate_all_data (numpy := Reference.numpy)
              (python := Reference.python 0 0) Reference.one_day 0%Z)
    as [x|[df1 g1]] eqn:E1; [vm_compute in E1; discriminate E1|].
  destruct (generate_all_data (numpy := Reference.numpy)
              (python := Reference.python 1 0) Reference.one_day 0%Z)
    as [x|[df2 g2]] eqn:E2; [vm_compute in E2; discriminate E2|].
  vm_compute in E1; injection E1 as <- <-.
  vm_compute in E2; injection E2 as <- <-.
  do 8 eexists.
  repeat (split; [reflexivity|]).
  vm_compute; discriminate.
Qed.

(** ** Further properties of the models *)

Section ModelRanges.

Context {numpy : NumPy} {python : Interpreter}.

Ltac run_with E := unfold bind at 1; rewrite E; cbv beta iota.

Lemma np_random_choice_p_inr {A : Type} (a : list A) (p : list Q) g x g' :
  np_random_choice_p a p g = inr (x, g') -> In x a.
Proof.
  unfold np_random_choice_p.
  destruct (length a =? 0)%nat; [discriminate|].
  destruct (negb _); [discriminate|].
  destruct (existsb _ p); [discriminate|].
  destruct (Qltb atol _); [discriminate|].
  unfold bind, lift. destruct (rk_double g) as [u g1].
  destruct (nth_error a _) as [y|] eqn:En; [|discriminate].
  unfold ret; intros H; injection H as <- _.
  eapply nth_error_In; eauto.
Qed.

Lemma _generate_weather_data_values self dates g w t s g' :
  _generate_weather_data self dates g = inr (w, t, s, g') ->
  Forall (fun c => In c (weather_conditions self)) w
  /\ Forall (fun x => 0 <= x) s.
Proof.
  unfold _generate_weather_data.
  unfold bind at 1, np_random_seed at 1; cbv beta iota.
  destruct (np_random_normal_spec 0 5 (length dates) (rk_seed 123))
    as (dv & g1 & E1 & L1).
  run_with E1.
  destruct (np_random_gamma_spec 2 2 (length dates) g1 ltac:(lra))
    as (wv & g2 & E2 & L2 & _).
  run_with E2.
  intros H; apply bind_inr in H; destruct H as (wc & g3 & Hm & H).
  apply (mapM_inr _ (fun _ c => In c (weather_conditions self))) in Hm.
  2:{ intros probs c ga gb _ Hc.
      eapply np_random_choice_p_inr; eauto. }
  unfold ret in H; injection H as <- <- <- <-.
  split.
  - eapply Forall2_Forall_r; [exact Hm|]; auto.
  - apply Forall_map, Forall_forall; intros x _. apply Q.le_max_r.
Qed.

Lemma _generate_energy_production_nonneg
  site_id site_info dates weather temperature wind_speed g production g' :
  _generate_energy_production site_id site_info dates weather temperature
    wind_speed g = inr (production, g') ->
  Forall (fun e => 0 <= e) production.
Proof.
  unfold _generate_energy_production.
  unfold bind at 1, np_random_seed at 1; cbv beta iota zeta.
  destruct (type site_info =? "solar")%string.
  { unfold _generate_solar_production; intros H.
    apply bind_inr in H; destruct H as (dv & g1 & _ & H).
    unfold ret in H; injection H as <- _.
    apply Forall_map, Forall_forall; intros x _. apply Q.le_max_r. }
  destruct (type site_info =? "wind")%string.
  { unfold _generate_wind_production; intros H.
    apply bind_inr in H; destruct H as (dv & g1 & _ & H).
    unfold ret in H; injection H as <- _.
    apply Forall_map, Forall_forall; intros x _. apply Q.le_max_r. }
  destruct (type site_info =? "battery")%string; [|discriminate].
  unfold _generate_battery_production; intros H.
  apply bind_inr in H; destruct H as (dv & g1 & _ & H).
  unfold ret in H; injection H as <- _.
  apply Forall_map, Forall_forall; intros x _. apply Q.le_max_r.
Qed.

(** The price, the energy, the revenue and the downtime of a row of a
    returned table. *)
Lemma generated_row_values self g df g' :
  generate_all_data self g = inr (df, g') ->
  forall r, In r df ->
    exists p h,
      SpotMarketPrice r = Some p /\ 5 <= p
      /\ DowntimeHours r = Some h
      /\ (forall e, EnergyProduced_kWh r = Some e -> 0 <= e)
      /\ Revenue r
         = cell_div (cell_mul (EnergyProduced_kWh r) (Some p)) 1000.
Proof.
  intros H r Hr.
  destruct (generate_all_data_inr _ _ _ _ H)
    as (w & t & s & p & _ & _ & (_ & _ & _ & Lp) & Fp & _ & Hrows).
  destruct (Hrows r Hr) as (r0 & r1 & r2 & Hclean & N01 & P12 & ->).
  destruct Hclean as (sid & info & prod & dt & i & _ & Hrow).
  destruct Hrow as (Hi & _ & Hprod & Hdt & Lprod & Ldt & _ & _ & _ & _ & He
                    & Hp & _ & _ & Hh & _).
  destruct (Hprod g) as (ga & Ea). destruct (Hdt g) as (gb & Eb).
  pose proof (_generate_energy_production_nonneg _ _ _ _ _ _ _ _ _ Ea) as Fprod.
  destruct (_generate_downtime_inr _ _ _ _ _ Eb) as (_ & Fdt).
  assert (Hprod_i : 0 <= nth i prod 0) by (apply nth_Forall; [exact Fprod|lia]).
  assert (Hdt_i : 0 <= nth i dt 0 /\ nth i dt 0 <= 24)
    by (apply (nth_Forall (fun h => 0 <= h /\ h <= 24)); [exact Fdt|lia]).
  assert (Hp_i : 5 <= nth i p 0) by (apply nth_Forall; [exact Fp|lia]).
  assert (He0 : 0 <= nth i prod 0 * (1 - nth i dt 0 / 24)).
  { apply Qmult_le_0_compat; [exact Hprod_i|].
    assert (nth i dt 0 / 24 <= 1) by (apply Qle_shift_div_r; lra). lra. }
  destruct N01 as ((_ & _ & _ & _ & Hp1 & _ & Hh1) & _ & He1 & _).
  destruct P12 as ((_ & _ & _ & _ & Hp2 & _ & Hh2) & _ & _ & _ & He2).
  exists (nth i p 0), (nth i dt 0).
  cbn [EnergyProduced_kWh Revenue SpotMarketPrice DowntimeHours set_Revenue].
  split; [congruence|]; split; [exact Hp_i|]; split; [congruence|].
  split; [|rewrite Hp2, Hp1, Hp; reflexivity].
  intros e Hre.
  assert (Hr1 : forall e1, EnergyProduced_kWh r1 = Some e1 -> 0 <= e1).
  { intros e1 Hr1; destruct He1 as [He1|He1]; [|congruence].
    rewrite He1, He in Hr1; injection Hr1 as <-; exact He0. }
  destruct He2 as [He2|(k & Hk & He2)].
  - apply Hr1; congruence.
  - rewrite He2 in Hre. destruct (EnergyProduced_kWh r1) as [e1|];
      [|discriminate]. cbn in Hre; injection Hre as <-.
    specialize (Hr1 e1 eq_refl).
    assert (0 < k).
    { cbn in Hk; destruct Hk as [<-|[<-|[<-|[<-|[]]]]]; reflexivity. }
    apply Qmult_le_0_compat; lra.
Qed.

(** X1.  In a table that [generate_all_data] returns, an energy that is
    present is not negative and a revenue that is present is not
    negative: the production models floor at 0, the availability
    1 - downtime / 24 lies in [0, 1], the outlier multipliers are
    positive and the price is at least 5. *)
Theorem energy_and_revenue_nonnegative self g df g' :
  generate_all_data self g = inr (df, g') ->
  forall r, In r df ->
    (forall e, EnergyProduced_kWh r = Some e -> 0 <= e)
    /\ (forall v, Revenue r = Some v -> 0 <= v).
Proof.
  intros H r Hr.
  destruct (generated_row_values _ _ _ _ H r Hr)
    as (p & h & Hp & Hp5 & _ & Hen & Hrev).
  split; [exact Hen|].
  intros v Hv. rewrite Hrev in Hv.
  destruct (EnergyProduced_kWh r) as [e|]; [|discriminate].
  cbn in Hv; injection Hv as <-. specialize (Hen e eq_refl).
  apply Qle_shift_div_l; [reflexivity|].
  setoid_replace (0 * 1000) with 0 by ring.
  apply Qmult_le_0_compat; lra.
Qed.

(** X2.  In a table that [generate_all_data] returns, the weather
    condition of every row is one of the labels of the generator (the
    six of the constructor), and a wind speed that is present is not
    negative. *)
Theorem weather_cells_in_range self g df g' :
  generate_all_data self g = inr (df, g') ->
  forall r, In r df ->
    In (WeatherCondition r) (weather_conditions self)
    /\ (forall speed, WindSpeed_mps r = Some speed -> 0 <= speed).
Proof.
  intros H r Hr.
  destruct (generate_all_data_inr _ _ _ _ H)
    as (w & t & s & p & Hw & _ & (Lw & _ & Ls & _) & _ & _ & Hrows).
  destruct (Hw g) as (ga & Ea).
  destruct (_generate_weather_data_values _ _ _ _ _ _ _ Ea) as (Fw & Fs).
  destruct (Hrows r Hr) as (r0 & r1 & r2 & Hclean & N01 & P12 & ->).
  destruct Hclean as (sid & info & prod & dt & i & _ & Hrow).
  destruct Hrow as (Hi & _ & _ & _ & _ & _ & _ & _ & _ & _ & _ & _ & _ & Hwc
                    & _ & _ & Hws).
  destruct N01 as ((_ & _ & _ & _ & _ & Hw1 & _) & _ & _ & _ & Hs1).
  destruct P12 as ((_ & _ & _ & _ & _ & Hw2 & _) & _ & _ & Hs2 & _).
  cbn [WeatherCondition WindSpeed_mps set_Revenue]; split.
  - rewrite Hw2, Hw1, Hwc.
    apply (nth_Forall (fun c => In c (weather_conditions self)));
      [exact Fw | lia].
  - intros speed Hsp. rewrite Hs2 in Hsp.
    destruct Hs1 as [Hs1|Hs1]; [|congruence].
    rewrite Hs1, Hws in Hsp; injection Hsp as <-.
    apply nth_Forall; [exact Fs | lia].
Qed.

(** X3.  The weather model does not raise on a generator with six
    labels: the six weights of a day are normalised to a probability
    vector that [np.random.choice] accepts.  It returns one label, one
    temperature and one wind speed per day, every label among the six and
    every wind speed floored at 0. *)
Theorem weather_model_returns self dates g :
  length (weather_conditions self) = 6%nat ->
  exists w t s g',
    _generate_weather_data self dates g = inr (w, t, s, g')
    /\ length w = length dates /\ length t = length dates
    /\ length s = length dates
    /\ Forall (fun c => In c (weather_conditions self)) w
    /\ Forall (fun x => 0 <= x) s.
Proof.
  intros H6.
  destruct (_generate_weather_data_spec self dates g H6)
    as (w & t & s & g' & E).
  destruct (_generate_weather_data_inr _ _ _ _ _ _ _ E) as (Lw & Lt & Ls).
  destruct (_generate_weather_data_values _ _ _ _ _ _ _ E) as (Fw & Fs).
  exists w, t, s, g'; repeat split; auto.
Qed.

(** X4.  The capacity factor of the wind model lies in [0, 1] at every
    wind speed, and for a capacity that is not negative every value the
    wind model returns lies between 0 and capacity * 24 * 1.3 * 1.15 (full
    output in a storm on the most favourable day). *)
Theorem wind_production_bounded :
  (forall wind_speed,
      Forall (fun c => 0 <= c /\ c <= 1) (capacity_factor wind_speed))
  /\ (forall dates weather wind_speed capacity g production g',
         0 <= capacity ->
         _generate_wind_production dates weather wind_speed capacity g
         = inr (production, g') ->
         Forall (fun e => 0 <= e /\ e <= capacity * 24 * 1.3 * 1.15)
           production).
Proof.
  assert (Hcf : forall wind_speed,
             Forall (fun c => 0 <= c /\ c <= 1) (capacity_factor wind_speed)).
  { intros ws; unfold capacity_factor; apply Forall_map, Forall_forall.
    intros x _.
    destruct (Qltb x 3.5) eqn:E1; [lra|]. apply Qltb_ge in E1.
    destruct (Qltb x 12) eqn:E2.
    - apply Qltb_lt in E2.
      assert (H0 : 0 <= x / 12) by (apply Qle_shift_div_l; lra).
      assert (H1 : x / 12 <= 1) by (apply Qle_shift_div_r; lra).
      change ((x / 12) ^ 3) with (x / 12 * (x / 12 * (x / 12))).
      set (y := x / 12) in *. split; nra.
    - destruct (Qltb x 25); lra. }
  split; [exact Hcf|].
  intros dates weather ws capacity g production g' Hcap.
  unfold _generate_wind_production; intros H.
  destruct (np_random_uniform_spec 0.85 1.15 (length dates) g ltac:(lra))
    as (dv & g1 & E & _ & Fdv).
  revert H; run_with E; unfold ret; intros H; injection H as <- _.
  apply Forall_map, Forall_forall; intros x Hx.
  apply in_map2 in Hx; destruct Hx as (a & v & Ha & Hv & ->).
  apply in_map2 in Ha; destruct Ha as (b & f & Hb & Hf & ->).
  apply in_map_iff in Hb; destruct Hb as (c & <- & Hc).
  apply in_map_iff in Hf; destruct Hf as (label & <- & _).
  specialize (Hcf ws); rewrite Forall_forall in Hcf, Fdv.
  specialize (Hcf c Hc); specialize (Fdv v Hv); cbv beta in Hcf, Fdv.
  set (f := if (label =? "Sunny")%string then 0.8 else _).
  assert (Hf : 0.7 <= f /\ f <= 1.3).
  { subst f. repeat (match goal with
                     | |- context [if ?b then _ else _] => destruct b
                     end; [lra|]); lra. }
  assert (H1 : 0 <= capacity * 24 * c /\ capacity * 24 * c <= capacity * 24)
    by (split; nra).
  assert (H2 : 0 <= capacity * 24 * c * f
               /\ capacity * 24 * c * f <= capacity * 24 * 1.3)
    by (split; nra).
  split; [apply Q.le_max_r|].
  apply Q.max_lub; nra.
Qed.

End ModelRanges.

(** ** The shape of the output table *)

(** The key of a row: its date and its site. *)
Definition row_key (r : Row) : Z * string := (Date r, SiteID r).

(** The order of [sort_values(['Date', 'SiteID'])] as a relation. *)
Definition row_le (r1 r2 : Row) : Prop := row_leb r1 r2 = true.

Lemma row_leb_total r1 r2 : row_leb r1 r2 = false -> row_leb r2 r1 = true.
Proof.
  unfold row_leb; intros H.
  apply orb_false_iff in H; destruct H as [Hlt H].
  apply Z.ltb_ge in Hlt.
  destruct (Z.eqb_spec (Date r1) (Date r2)) as [Heq|Hne].
  - cbn in H. rewrite Heq, Z.eqb_refl, Z.ltb_irrefl; cbn.
    destruct (String.leb_total (SiteID r1) (SiteID r2)); congruence.
  - replace (Date r2 <? Date r1)%Z with true; [reflexivity|].
    symmetry; apply Z.ltb_lt; lia.
Qed.

Lemma insert_row_HdRel a r df :
  HdRel row_le a df -> row_le a r -> HdRel row_le a (insert_row r df).
Proof.
  intros Hd Har; destruct df as [|r' df]; cbn; [constructor; exact Har|].
  destruct (row_leb r r'); constructor; [exact Har|].
  inversion Hd; assumption.
Qed.

Lemma insert_row_sorted r df :
  Sorted row_le df -> Sorted row_le (insert_row r df).
Proof.
  induction 1 as [|r' df Hs IH Hd]; cbn.
  - repeat constructor.
  - destruct (row_leb r r') eqn:E.
    + constructor; [constructor; assumption|]. constructor; exact E.
    + constructor; [exact IH|].
      apply insert_row_HdRel; [exact Hd|]. apply row_leb_total; exact E.
Qed.

Lemma sort_values_sorted df : Sorted row_le (sort_values df).
Proof.
  induction df as [|r df IH]; cbn; [constructor|].
  apply insert_row_sorted; exact IH.
Qed.

Lemma Sorted_weaken {A : Type} (R R' : A -> A -> Prop) l :
  (forall a b, R a b -> R' a b) -> Sorted R l -> Sorted R' l.
Proof.
  intros HR; induction 1 as [|a l Hs IH Hd]; constructor; auto.
  destruct Hd; constructor; auto.
Qed.

Lemma map_nth_seq {A B : Type} (f : A -> B) (l : list A) (d : A) :
  map (fun i => f (nth i l d)) (seq 0 (length l)) = map f l.
Proof.
  induction l as [|x l IH]; cbn; [reflexivity|].
  rewrite <- seq_shift, map_map; cbn. rewrite IH; reflexivity.
Qed.

Lemma Forall2_map_eq {A B C : Type} (R : A -> B -> Prop) (f : A -> C)
  (h : B -> C) xs ys :
  Forall2 R xs ys -> (forall x y, R x y -> h y = f x) ->
  map h ys = map f xs.
Proof.
  intros H HR; induction H; cbn; [reflexivity|].
  f_equal; auto.
Qed.

Lemma in_date_range start stop d :
  In d (Calendar.date_range start stop) <-> (start <= d <= stop)%Z.
Proof.
  unfold Calendar.date_range; rewrite in_map_iff; split.
  - intros (k & <- & Hk); apply in_seq in Hk; lia.
  - intros Hd; exists (Z.to_nat (d - start)); split; [lia|].
    apply in_seq; lia.
Qed.

Lemma NoDup_pairs {A B : Type} (xs : list A) (ys : list B) :
  NoDup xs -> NoDup ys ->
  NoDup (flat_map (fun y => map (fun x => (x, y)) xs) ys).
Proof.
  intros Hx Hy; induction Hy as [|y ys Hin Hy IH]; cbn; [constructor|].
  apply NoDup_app; [| exact IH |].
  - apply Finite.Injective_map_NoDup; [|exact Hx].
    intros a b Hab; congruence.
  - intros [a b] H1 H2.
    apply in_map_iff in H1; destruct H1 as (x & Hx1 & _).
    apply in_flat_map in H2; destruct H2 as (y' & Hy' & H2).
    apply in_map_iff in H2; destruct H2 as (x' & Hx2 & _).
    congruence.
Qed.

Section Shape.

Context {numpy : NumPy} {python : Interpreter}.

Ltac run_with E := unfold bind at 1; rewrite E; cbv beta iota.

Lemma generate_site_data_keys self site_id w t s p g df g' :
  generate_site_data self site_id (Some w) (Some t) (Some s) (Some p) g
  = inr (df, g') ->
  map row_key df = map (fun d => (d, site_id)) (date_range self).
Proof.
  unfold generate_site_data.
  destruct (dict_get site_id (sites self)) as [info|]; [|discriminate].
  unfold bind at 1, ret at 1; cbv beta iota.
  unfold bind at 1, ret at 1; cbv beta iota.
  intros H. apply bind_inr in H; destruct H as (prod & g1 & _ & H).
  apply bind_inr in H; destruct H as (dt & g2 & _ & H).
  unfold pd_DataFrame in H. destruct (forallb _ _); [|discriminate].
  unfold ret in H; injection H as <- _.
  rewrite map_map; unfold row_key; cbn [Date SiteID].
  apply (map_nth_seq (fun d => (d, site_id))).
Qed.

(** The table is the sorted, degraded concatenation of the site frames;
    the keys of its rows are those of the frames, in sorted order. *)
Lemma generate_all_data_keys self g df g' :
  generate_all_data self g = inr (df, g') ->
  Sorted row_le df
  /\ Permutation (map row_key df)
       (flat_map (fun site_id => map (fun d => (d, site_id)) (date_range self))
          (map fst (sites self))).
Proof.
  unfold generate_all_data; intros H.
  apply bind_inr in H; destruct H as ([[w t] s] & g1 & _ & H).
  apply bind_inr in H; destruct H as (p & g2 & _ & H).
  apply bind_inr in H; destruct H as (blocks & g3 & Eb & H).
  apply (mapM_inr _
           (fun site_id block =>
              map row_key block
              = map (fun d => (d, site_id)) (date_range self))) in Eb.
  2:{ intros sid block ga gb _ Hsite.
      eapply generate_site_data_keys; eauto. }
  apply bind_inr in H; destruct H as (combined & g4 & Ec & H).
  assert (combined = concat blocks) as ->.
  { unfold pd_concat in Ec; destruct blocks; [discriminate|].
    unfold ret in Ec; congruence. }
  destruct (_introduce_missing_values_spec (concat blocks) 0.02 g4)
    as (df1 & g5 & E1 & N1).
  revert H; run_with E1; intros H.
  destruct (_introduce_outliers_spec df1 0.01 g5) as (df2 & g6 & E2 & N2).
  revert H; run_with E2; intros H.
  unfold ret in H; injection H as <- <-.
  split; [apply sort_values_sorted|].
  rewrite <- (Permutation_map row_key (sort_values_perm _)).
  rewrite map_map; unfold row_key at 1; cbn [Date SiteID set_Revenue].
  change (map (fun r => (Date r, SiteID r)) df2) with (map row_key df2).
  rewrite (Forall2_map_eq perturbed row_key row_key _ _ N2).
  2:{ intros x y ((Hd & Hi & _) & _); unfold row_key; congruence. }
  rewrite (Forall2_map_eq nulled row_key row_key _ _ N1).
  2:{ intros x y ((Hd & Hi & _) & _); unfold row_key; congruence. }
  rewrite concat_map, flat_map_concat_map.
  rewrite (Forall2_map_eq _ (fun site_id =>
                               map (fun d => (d, site_id)) (date_range self))
             (map row_key) _ _ Eb); auto.
Qed.

(** X5.  The table that [generate_all_data] returns is sorted by date and,
    within a date, by site id: each row is at most the next one in that
    order, and the dates never decrease down the table. *)
Theorem output_sorted self g df g' :
  generate_all_data self g = inr (df, g') ->
  Sorted (fun r1 r2 =>
            (Date r1 < Date r2)%Z
            \/ (Date r1 = Date r2
                /\ String.leb (SiteID r1) (SiteID r2) = true)) df
  /\ StronglySorted (fun r1 r2 => (Date r1 <= Date r2)%Z) df.
Proof.
  intros H. destruct (generate_all_data_keys _ _ _ _ H) as (Hs & _).
  assert (Hle : forall a b, row_le a b ->
                  (Date a < Date b)%Z
                  \/ (Date a = Date b
                      /\ String.leb (SiteID a) (SiteID b) = true)).
  { unfold row_le, row_leb; intros a b Hab.
    apply orb_true_iff in Hab; destruct Hab as [Hab|Hab].
    - left; apply Z.ltb_lt; exact Hab.
    - apply andb_true_iff in Hab; destruct Hab as [Hd Hi].
      right; split; [apply Z.eqb_eq; exact Hd | exact Hi]. }
  split.
  - eapply Sorted_weaken; [exact Hle | exact Hs].
  - apply Sorted_StronglySorted.
    + intros a b c; lia.
    + eapply Sorted_weaken; [|exact Hs].
      intros a b Hab; destruct (Hle a b Hab); lia.
Qed.

(** X6.  The table holds one row for each day of the date range and each
    site id of the catalog: the (date, site id) pairs of its rows are the
    pairs of the product, rearranged.  So every day and site has a row,
    and when the days are distinct and the site ids are distinct no two
    rows share date and site. *)
Theorem one_row_per_day_and_site self g df g' :
  generate_all_data self g = inr (df, g') ->
  Permutation (map row_key df)
    (flat_map (fun site_id => map (fun d => (d, site_id)) (date_range self))
       (map fst (sites self)))
  /\ (forall d site_id,
         In d (date_range self) -> In site_id (map fst (sites self)) ->
         exists r, In r df /\ Date r = d /\ SiteID r = site_id)
  /\ (NoDup (date_range self) -> NoDup (map fst (sites self)) ->
      NoDup (map row_key df)).
Proof.
  intros H. destruct (generate_all_data_keys _ _ _ _ H) as (_ & Hp).
  split; [exact Hp|]; split.
  - intros d sid Hd Hsid.
    assert (Hin : In (d, sid) (map row_key df)).
    { eapply Permutation_in; [symmetry; exact Hp|].
      apply in_flat_map; exists sid; split; [exact Hsid|].
      apply (in_map (fun d0 => (d0, sid))); exact Hd. }
    apply in_map_iff in Hin; destruct Hin as (r & Hk & Hr).
    exists r; unfold row_key in Hk; injection Hk as Hd' Hs'; auto.
  - intros Hnd Hnk.
    eapply Permutation_NoDup; [symmetry; exact Hp|].
    apply NoDup_pairs; assumption.
Qed.

Lemma generated_row_site self g df g' :
  generate_all_data self g = inr (df, g') ->
  forall r, In r df ->
    exists site_info,
      dict_get (SiteID r) (sites self) = Some site_info
      /\ SiteName r = name site_info
      /\ SiteType r = type site_info
      /\ recognized (type site_info).
Proof.
  intros H r Hr.
  destruct (generate_all_data_inr _ _ _ _ H)
    as (w & t & s & p & _ & _ & _ & _ & _ & Hrows).
  destruct (Hrows r Hr) as (r0 & r1 & r2 & Hclean & N01 & P12 & ->).
  destruct Hclean as (sid & info & prod & dt & i & _ & Hrow).
  destruct Hrow as (Hi & Hget & Hprod & _ & _ & _ & Hd & Hs & Hn & Hy & _).
  destruct N01 as ((Hd1 & Hs1 & Hn1 & Hy1 & _) & _).
  destruct P12 as ((Hd2 & Hs2 & Hn2 & Hy2 & _) & _).
  cbn [Date SiteID SiteName SiteType set_Revenue].
  exists info; repeat split; try congruence.
  destruct (recognized_dec (type info)) as [Hrec|Hrec]; [exact Hrec|].
  destruct (Hprod g) as (ga & Ea).
  rewrite (_generate_energy_production_unknown _ _ _ _ _ _ _ Hrec) in Ea.
  discriminate.
Qed.

(** X7.  Every row of the table belongs to a site of the catalog and a
    day of the range: its site id is a key of the catalog, its site name
    and site type are those of that entry, and its date is a day of the
    date range -- between the start and the end date when the range is
    the one the constructor builds. *)
Theorem rows_match_catalog self g df g' :
  generate_all_data self g = inr (df, g') ->
  forall r, In r df ->
    (exists site_info,
        dict_get (SiteID r) (sites self) = Some site_info
        /\ SiteName r = name site_info
        /\ SiteType r = type site_info
        /\ recognized (SiteType r))
    /\ In (Date r) (date_range self)
    /\ (date_range self
        = Calendar.date_range (start_date self) (end_date self) ->
        (start_date self <= Date r <= end_date self)%Z).
Proof.
  intros H r Hr.
  destruct (generated_row_site _ _ _ _ H r Hr) as (info & Hget & Hn & Hy & Hrec).
  destruct (generate_all_data_keys _ _ _ _ H) as (_ & Hp).
  assert (Hin : In (Date r) (date_range self)).
  { assert (Hk : In (row_key r) (map row_key df)) by (apply in_map; exact Hr).
    apply (Permutation_in _ Hp) in Hk.
    apply in_flat_map in Hk; destruct Hk as (sid & _ & Hk).
    apply in_map_iff in Hk; destruct Hk as (d & E & Hd).
    unfold row_key in E; injection E as <- _; exact Hd. }
  split; [|split; [exact Hin|]].
  - exists info; repeat split; try assumption. rewrite Hy; exact Hrec.
  - intros Hrange; rewrite Hrange in Hin. apply in_date_range; exact Hin.
Qed.

End Shape.

(** ** Site frames on their own, and failing catalogs *)

Lemma dict_get_None {V : Type} key (d : list (string * V)) :
  ~ In key (map fst d) -> dict_get key d = None.
Proof.
  induction d as [|[k v] d IH]; cbn; [reflexivity|]; intros Hn.
  destruct (String.eqb_spec k key) as [->|Hne]; [tauto|].
  apply IH; tauto.
Qed.

Lemma dict_get_app {V : Type} key (d1 d2 : list (string * V)) :
  dict_get key (d1 ++ d2)
  = match dict_get key d1 with
    | Some v => Some v
    | None => dict_get key d2
    end.
Proof.
  induction d1 as [|[k v] d1 IH]; cbn; [reflexivity|].
  destruct (k =? key)%string; [reflexivity | exact IH].
Qed.

Section Failures.

Context {numpy : NumPy} {python : Interpreter}.

Ltac run_with E := unfold bind at 1; rewrite E; cbv beta iota.

(** X8.  [generate_site_data] called without weather and prices builds
    them itself and returns the very frame it returns when it is handed
    the series of the weather model and of the price model, as
    [generate_all_data] does.  The three weather arrays are taken
    together: when one of them is missing the two others are ignored and
    all three are generated. *)
Theorem site_data_defaults self site_id g g0 w t s p g1 g2 :
  _generate_weather_data self (date_range self) g = inr (w, t, s, g1) ->
  _generate_spot_market_price self (date_range self) g1 = inr (p, g2) ->
  generate_site_data self site_id None None None None g
  = generate_site_data self site_id (Some w) (Some t) (Some s) (Some p) g0
  /\ (forall w' t' s' prices,
         generate_site_data self site_id None (Some t') (Some s') prices g
         = generate_site_data self site_id None None None prices g
         /\ generate_site_data self site_id (Some w') None (Some s') prices g
            = generate_site_data self site_id None None None prices g
         /\ generate_site_data self site_id (Some w') (Some t') None prices g
            = generate_site_data self site_id None None None prices g).
Proof.
  intros Hw Hp; split; [|intros; repeat split; reflexivity].
  unfold generate_site_data.
  destruct (dict_get site_id (sites self)) as [info|]; [|reflexivity].
  run_with Hw. run_with Hp.
  unfold bind at 3, ret at 1; cbv beta iota.
  unfold bind at 3, ret at 1; cbv beta iota.
  unfold bind at 1. unfold bind at 2.
  rewrite (_generate_energy_production_state site_id info (date_range self)
             w t s g2 g0).
  reflexivity.
Qed.

(** X9.  [generate_site_data] raises [KeyError] on a site id that is not
    in the catalog, whatever the series it is handed, and on a site id of
    the catalog it never raises [KeyError]. *)
Theorem unknown_site_id_raises self site_id :
  (~ In site_id (map fst (sites self)) ->
   forall weather temperature wind_speed prices g,
     generate_site_data self site_id weather temperature wind_speed prices g
     = inl (KeyError site_id))
  /\ (In site_id (map fst (sites self)) ->
      forall w t s p g key,
        generate_site_data self site_id (Some w) (Some t) (Some s) (Some p) g
        <> inl (KeyError key)).
Proof.
  split.
  - intros Hn weather temperature wind_speed prices g.
    unfold generate_site_data; rewrite (dict_get_None _ _ Hn); reflexivity.
  - intros Hin w t s p g key.
    unfold generate_site_data.
    destruct (dict_get_in _ _ Hin) as (info & Hget & _); rewrite Hget.
    unfold bind at 1, ret at 1; cbv beta iota.
    unfold bind at 1, ret at 1; cbv beta iota.
    destruct (recognized_dec (type info)) as [Hr|Hr].
    + destruct (_generate_energy_production_spec site_id info
                  (date_range self) w t s g Hr) as (prod & g1 & E1 & _).
      run_with E1.
      destruct (recognized_maintenance_prob _ Hr) as (prob & Hprob).
      destruct (_generate_downtime_spec (date_range self) (type info) prob g1
                  Hprob) as (dt & g2 & E2 & _).
      run_with E2.
      unfold pd_DataFrame; destruct (forallb _ _); discriminate.
    + unfold bind at 1.
      rewrite (_generate_energy_production_unknown _ _ _ _ _ _ _ Hr).
      discriminate.
Qed.

Lemma generate_site_data_returns self site_id site_info w t s p g :
  length w = length (date_range self) ->
  length t = length (date_range self) ->
  length s = length (date_range self) ->
  length p = length (date_range self) ->
  dict_get site_id (sites self) = Some site_info ->
  recognized (type site_info) ->
  exists df g',
    generate_site_data self site_id (Some w) (Some t) (Some s) (Some p) g
    = inr (df, g').
Proof.
  intros Hw Ht Hs Hp Hget Hr; unfold generate_site_data; rewrite Hget.
  unfold bind at 1, ret at 1; cbv beta iota.
  unfold bind at 1, ret at 1; cbv beta iota.
  destruct (_generate_energy_production_spec site_id site_info
              (date_range self) w t s g Hr) as (prod & g1 & E1 & L1).
  specialize (L1 Hw Ht Hs). run_with E1.
  destruct (recognized_maintenance_prob _ Hr) as (prob & Hprob).
  destruct (_generate_downtime_spec (date_range self) (type site_info) prob g1
              Hprob) as (dt & g2 & E2 & L2 & _).
  run_with E2.
  unfold pd_DataFrame.
  assert (He : length (map2 Qmult prod (map (fun h => 1 - h / 24) dt))
               = length (date_range self))
    by (apply map2_length_same; rewrite ?length_map; auto).
  assert (Hrev : length (map2 (fun e p => e * p / 1000)
                           (map2 Qmult prod (map (fun h => 1 - h / 24) dt)) p)
                 = length (date_range self))
    by (apply map2_length_same; auto).
  cbn [forallb]. rewrite He, Hrev, Hp, Hw, L2, Ht, Hs, Nat.eqb_refl.
  cbn [andb]. eexists _, g2; reflexivity.
Qed.

Lemma generate_site_data_unknown_type self site_id site_info w t s p g :
  dict_get site_id (sites self) = Some site_info ->
  ~ recognized (type site_info) ->
  generate_site_data self site_id (Some w) (Some t) (Some s) (Some p) g
  = inl (ValueError ("Unknown site type: " ++ type site_info)).
Proof.
  intros Hget Hr; unfold generate_site_data; rewrite Hget.
  unfold bind at 1, ret at 1; cbv beta iota.
  unfold bind at 1, ret at 1; cbv beta iota.
  unfold bind at 1.
  rewrite (_generate_energy_production_unknown _ _ _ _ _ _ _ Hr).
  reflexivity.
Qed.

Lemma mapM_raises {A B : Type} (f : A -> M B) (pre post : list A) x e :
  (forall a g, In a pre -> exists b g', f a g = inr (b, g')) ->
  (forall g, f x g = inl e) ->
  forall g, mapM f (pre ++ x :: post) g = inl e.
Proof.
  intros Hpre Hx; induction pre as [|a pre IH]; intros g; cbn.
  - unfold bind; rewrite Hx; reflexivity.
  - destruct (Hpre a g (or_introl eq_refl)) as (b & g1 & E).
    run_with E. unfold bind at 1.
    rewrite IH; [reflexivity|]. intros; apply Hpre; right; assumption.
Qed.

(** X10.  One site of an unrecognized type makes the whole generation
    fail: when the sites before it in the catalog have recognized types,
    [generate_all_data] raises the [ValueError] of that site and returns
    no table, whatever follows it in the catalog. *)
Theorem unknown_site_type_aborts_generation
  self g before site_id site_info after :
  length (weather_conditions self) = 6%nat ->
  sites self = before ++ (site_id, site_info) :: after ->
  catalog_ok before ->
  ~ In site_id (map fst before) ->
  ~ recognized (type site_info) ->
  generate_all_data self g
  = inl (ValueError ("Unknown site type: " ++ type site_info)).
Proof.
  intros H6 Hsites Hok Hfresh Hbad; unfold generate_all_data.
  destruct (_generate_weather_data_spec self (date_range self) g H6)
    as (w & t & s & g1 & Ew).
  destruct (_generate_weather_data_inr _ _ _ _ _ _ _ Ew) as (Lw & Lt & Ls).
  run_with Ew.
  destruct (_generate_spot_market_price_spec self (date_range self) g1)
    as (p & g2 & Ep & Lp & _).
  run_with Ep.
  unfold bind at 1. rewrite Hsites at 1. rewrite map_app; cbn [map fst].
  rewrite mapM_raises with (e := ValueError ("Unknown site type: "
                                            ++ type site_info));
    [reflexivity| |].
  - intros sid ga Hin.
    destruct (dict_get_in _ _ Hin) as (info & Hget & Hentry).
    apply (generate_site_data_returns self sid info); auto.
    + rewrite Hsites, dict_get_app, Hget; reflexivity.
    + unfold catalog_ok in Hok; rewrite Forall_forall in Hok.
      exact (Hok _ Hentry).
  - intros ga.
    apply generate_site_data_unknown_type; [|exact Hbad].
    rewrite Hsites, dict_get_app, (dict_get_None _ _ Hfresh); cbn.
    rewrite String.eqb_refl; reflexivity.
Qed.

(** X20.  With a catalog without sites there is no frame to concatenate:
    [generate_all_data] builds the weather and the prices, then
    [pd.concat] raises [ValueError] and no table, not even an empty one,
    is returned. *)
Theorem empty_catalog_raises self g :
  length (weather_conditions self) = 6%nat ->
  sites self = [] ->
  generate_all_data self g = inl (ValueError "No objects to concatenate").
Proof.
  intros H6 Hs; unfold generate_all_data.
  destruct (_generate_weather_data_spec self (date_range self) g H6)
    as (w & t & s & g1 & Ew).
  run_with Ew.
  destruct (_generate_spot_market_price_spec self (date_range self) g1)
    as (p & g2 & Ep & _).
  run_with Ep.
  rewrite Hs; reflexivity.
Qed.

End Failures.

(** ** Dates as text: [strftime]

    The summary of a table and the folder of an upload print dates with
    [strftime].  A date is printed from its civil year, month and day;
    the year takes four digits, as it does for every pandas timestamp. *)

Module Civil.

Local Open Scope Z_scope.

(** The civil date (year, month, day) of a day number. *)
Definition civil_from_days (z : Z) : Z * Z * Z :=
  let z' := z + 719468 in
  let era := z' / 146097 in
  let doe := z' - era * 146097 in
  let yoe := (doe - doe / 1460 + doe / 36524 - doe / 146096) / 365 in
  let doy := doe - (365 * yoe + yoe / 4 - yoe / 100) in
  let mp := (5 * doy + 2) / 153 in
  let d := doy - (153 * mp + 2) / 5 + 1 in
  let m := if mp <? 10 then mp + 3 else mp - 9 in
  (yoe + era * 400 + (if m <=? 2 then 1 else 0), m, d).

Definition digit_char (k : Z) : ascii := ascii_of_nat (Z.to_nat (48 + k)).

Definition pad2 (n : Z) : string :=
  String (digit_char (n / 10)) (String (digit_char (n mod 10)) EmptyString).

Definition pad4 (n : Z) : string :=
  String (digit_char (n / 1000))
    (String (digit_char (n / 100 mod 10))
       (String (digit_char (n / 10 mod 10))
          (String (digit_char (n mod 10)) EmptyString))).

(** [strftime('%Y')], [strftime('%m')], [strftime('%d')]. *)
Definition strftime_Y (z : Z) : string :=
  let '(y, _, _) := civil_from_days z in pad4 y.

Definition strftime_m (z : Z) : string :=
  let '(_, m, _) := civil_from_days z in pad2 m.

Definition strftime_d (z : Z) : string :=
  let '(_, _, d) := civil_from_days z in pad2 d.

(** [strftime('%Y-%m-%d')]. *)
Definition strftime_Ymd (z : Z) : string :=
  (strftime_Y z ++ "-" ++ strftime_m z ++ "-" ++ strftime_d z)%string.

End Civil.

Example strftime_2023_01_01 : Civil.strftime_Ymd 19358 = "2023-01-01"%string.
Proof. reflexivity. Qed.

Example strftime_leap_day :
  option_map Civil.strftime_Ymd (Calendar.to_datetime "2024-02-29")
  = Some "2024-02-29"%string.
Proof. reflexivity. Qed.

Section CivilFacts.

Local Open Scope Z_scope.

Ltac zdiv := Z.to_euclidean_division_equations; lia.

Lemma year_of_civil z : Calendar.year_of z = fst (fst (Civil.civil_from_days z)).
Proof. reflexivity. Qed.

Lemma days_from_civil_from_days z :
  let '(y, m, d) := Civil.civil_from_days z in
  Calendar.days_from_civil y m d = z.
Proof.
  unfold Civil.civil_from_days, Calendar.days_from_civil.
  set (z' := z + 719468). set (era := z' / 146097).
  set (doe := z' - era * 146097).
  assert (Hdoe : 0 <= doe < 146097) by (subst doe era; zdiv).
  set (yoe := (doe - doe / 1460 + doe / 36524 - doe / 146096) / 365).
  set (doy := doe - (365 * yoe + yoe / 4 - yoe / 100)).
  assert (Hr : 0 <= yoe <= 399 /\ 0 <= doy <= 365) by (subst doy yoe; zdiv).
  set (mp := (5 * doy + 2) / 153).
  assert (Hmp : 0 <= mp <= 11) by (subst mp; zdiv).
  destruct (Z.ltb_spec mp 10).
  - replace (mp + 3 <=? 2) with false by (symmetry; apply Z.leb_gt; lia).
    replace (2 <? mp + 3) with true by (symmetry; apply Z.ltb_lt; lia).
    replace ((yoe + era * 400 + 0) / 400) with era by zdiv.
    subst doy doe z'. zdiv.
  - replace (mp - 9 <=? 2) with true by (symmetry; apply Z.leb_le; lia).
    replace (2 <? mp - 9) with false by (symmetry; apply Z.ltb_ge; lia).
    replace ((yoe + era * 400 + 1 - 1) / 400) with era by zdiv.
    subst doy doe z'. zdiv.
Qed.

Lemma civil_from_days_valid z :
  let '(y, m, d) := Civil.civil_from_days z in
  1 <= m <= 12 /\ 1 <= d <= Calendar.days_in_month y m.
Proof.
  unfold Civil.civil_from_days.
  set (z' := z + 719468). set (era := z' / 146097).
  set (doe := z' - era * 146097).
  assert (Hdoe : 0 <= doe < 146097) by (subst doe era; zdiv).
  set (yoe := (doe - doe / 1460 + doe / 36524 - doe / 146096) / 365).
  set (doy := doe - (365 * yoe + yoe / 4 - yoe / 100)).
  assert (Hr : 0 <= yoe <= 399 /\ 0 <= doy <= 365) by (subst doy yoe; zdiv).
  assert (Hleap : doy = 365 ->
                  (yoe + 1) mod 4 = 0
                  /\ ((yoe + 1) mod 100 <> 0 \/ yoe = 399)).
  { subst doy yoe. zdiv. }
  set (mp := (5 * doy + 2) / 153).
  assert (Hmp : 0 <= mp <= 11) by (subst mp; zdiv).
  set (d := doy - (153 * mp + 2) / 5 + 1).
  assert (Hd : 1 <= d <= 31) by (subst d mp; zdiv).
  clearbody doy. clear Hdoe.
  unfold Calendar.days_in_month, Calendar.is_leap.
  assert (Hc : mp = 0 \/ mp = 1 \/ mp = 2 \/ mp = 3 \/ mp = 4 \/ mp = 5
               \/ mp = 6 \/ mp = 7 \/ mp = 8 \/ mp = 9 \/ mp = 10 \/ mp = 11)
    by lia.
  destruct Hc as [E|[E|[E|[E|[E|[E|[E|[E|[E|[E|[E|E]]]]]]]]]]];
    rewrite E in *; cbn -[Z.div Z.modulo];
    (split; [lia|]); try (subst d mp; zdiv).
  split; [lia|].
  assert (H29 : d <= 29) by (subst d mp; zdiv).
  destruct (Z.eq_dec d 29) as [E29|]; [|destruct (_ || _); lia].
  assert (H365 : doy = 365) by (subst d mp; zdiv).
  destruct (Hleap H365) as (H4 & H100).
  replace ((yoe + era * 400 + 1) mod 4 =? 0) with true
    by (symmetry; apply Z.eqb_eq; zdiv).
  destruct H100 as [H100|H399].
  - replace ((yoe + era * 400 + 1) mod 100 =? 0) with false
      by (symmetry; apply Z.eqb_neq; zdiv).
    cbn; lia.
  - replace ((yoe + era * 400 + 1) mod 400 =? 0) with true
      by (symmetry; apply Z.eqb_eq; zdiv).
    rewrite orb_true_r; lia.
Qed.

Lemma civil_from_days_year z :
  -106751 <= z <= 106751 ->
  1677 <= fst (fst (Civil.civil_from_days z)) <= 2262.
Proof.
  intros Hz; unfold Civil.civil_from_days; cbn [fst].
  set (z' := z + 719468). set (era := z' / 146097).
  set (doe := z' - era * 146097).
  assert (Hera : (era = 4 /\ 28329 <= doe < 146097)
                 \/ (era = 5 /\ 0 <= doe <= 95734))
    by (subst doe era z'; zdiv).
  clearbody doe. clearbody era.
  set (yoe := (doe - doe / 1460 + doe / 36524 - doe / 146096) / 365).
  set (doy := doe - (365 * yoe + yoe / 4 - yoe / 100)).
  assert (Hy : (era = 4 -> 77 <= yoe <= 399)
               /\ (era = 5 -> 0 <= yoe <= 262 /\ (yoe = 262 -> doy <= 41))).
  { subst doy yoe.
    destruct Hera as [[E Hd]|[E Hd]]; rewrite E; split; intros;
      try discriminate; zdiv. }
  set (mp := (5 * doy + 2) / 153).
  assert (Hmp : doy <= 41 -> mp <= 1) by (subst mp; zdiv).
  assert (Hr : 0 <= doy)
    by (subst doy yoe; destruct Hera as [[E Hd]|[E Hd]]; zdiv).
  assert (Hmp0 : 0 <= mp) by (subst mp; zdiv).
  clearbody mp doy yoe.
  destruct Hera as [[E Hd]|[E Hd]]; destruct Hy as [H4 H5].
  - specialize (H4 E). destruct (_ <=? 2); lia.
  - destruct (H5 E) as [Hb H262].
    destruct (Z.eq_dec yoe 262) as [Eq|].
    + assert (mp <= 1) by auto.
      replace (mp <? 10) with true by (symmetry; apply Z.ltb_lt; lia).
      replace (mp + 3 <=? 2) with false by (symmetry; apply Z.leb_gt; lia).
      lia.
    + destruct (_ <=? 2); lia.
Qed.

End CivilFacts.

Section DateText.

Local Open Scope Z_scope.

Ltac zdiv := Z.to_euclidean_division_equations; lia.

Lemma digit_digit_char k :
  0 <= k <= 9 -> Calendar.digit (Civil.digit_char k) = Some k.
Proof.
  intros Hk.
  assert (Hc : k = 0 \/ k = 1 \/ k = 2 \/ k = 3 \/ k = 4 \/ k = 5 \/ k = 6
               \/ k = 7 \/ k = 8 \/ k = 9) by lia.
  destruct Hc as [E|[E|[E|[E|[E|[E|[E|[E|[E|E]]]]]]]]]; rewrite E;
    reflexivity.
Qed.

Lemma number_pad2 n :
  0 <= n <= 99 ->
  Calendar.number 0 [Civil.digit_char (n / 10); Civil.digit_char (n mod 10)]
  = Some n.
Proof.
  intros Hn; cbn [Calendar.number].
  rewrite digit_digit_char by zdiv. rewrite digit_digit_char by zdiv.
  f_equal; zdiv.
Qed.

Lemma number_pad4 n :
  0 <= n <= 9999 ->
  Calendar.number 0
    [Civil.digit_char (n / 1000); Civil.digit_char (n / 100 mod 10);
     Civil.digit_char (n / 10 mod 10); Civil.digit_char (n mod 10)]
  = Some n.
Proof.
  intros Hn; cbn [Calendar.number].
  rewrite digit_digit_char by zdiv. rewrite digit_digit_char by zdiv.
  rewrite digit_digit_char by zdiv. rewrite digit_digit_char by zdiv.
  f_equal; zdiv.
Qed.

(** A date printed with [strftime('%Y-%m-%d')] is read back by
    [pd.to_datetime] as the same date. *)
Lemma to_datetime_strftime z :
  -106751 <= z <= 106751 ->
  Calendar.to_datetime (Civil.strftime_Ymd z) = Some z.
Proof.
  intros Hz.
  pose proof (days_from_civil_from_days z) as Hround.
  pose proof (civil_from_days_valid z) as Hvalid.
  pose proof (civil_from_days_year z Hz) as Hyear.
  unfold Civil.strftime_Ymd, Civil.strftime_Y, Civil.strftime_m,
    Civil.strftime_d.
  destruct (Civil.civil_from_days z) as [[y m] d]; cbn [fst] in Hyear.
  destruct Hvalid as (Hm & Hd).
  assert (Hd31 : d <= 31).
  { unfold Calendar.days_in_month in Hd.
    destruct (m =? 2); [destruct (Calendar.is_leap y); lia|].
    destruct (_ || _); lia. }
  unfold Civil.pad4, Civil.pad2, Calendar.to_datetime.
  cbn [append list_ascii_of_string].
  rewrite number_pad4 by lia. rewrite !number_pad2 by lia.
  replace (1 <=? m) with true by (symmetry; apply Z.leb_le; lia).
  replace (m <=? 12) with true by (symmetry; apply Z.leb_le; lia).
  replace (1 <=? d) with true by (symmetry; apply Z.leb_le; lia).
  replace (d <=? Calendar.days_in_month y m) with true
    by (symmetry; apply Z.leb_le; lia).
  cbn [andb]. rewrite Hround.
  replace (-106751 <=? z) with true by (symmetry; apply Z.leb_le; lia).
  replace (z <=? 106751) with true by (symmetry; apply Z.leb_le; lia).
  reflexivity.
Qed.

Lemma to_datetime_bounds s z :
  Calendar.to_datetime s = Some z -> -106751 <= z <= 106751.
Proof.
  unfold Calendar.to_datetime.
  repeat match goal with
         | |- context [if ?b then _ else _] =>
             destruct b eqn:?; try discriminate
         | |- context [match ?x with _ => _ end] =>
             destruct x; try discriminate
         end.
  cbv zeta in *. intros H; injection H as <-.
  match goal with
  | E : (_ <=? _) && (_ <=? _) = true |- _ =>
      apply andb_true_iff in E; destruct E as [E1 E2];
      apply Z.leb_le in E1; apply Z.leb_le in E2; lia
  end.
Qed.

End DateText.

(** ** The summary of a table: [generate_summary_stats] *)

(** The dictionary that [generate_summary_stats] returns, its nested
    dictionaries flattened into one record.  [site_types] and the two
    [missing_] fields are dictionaries from a name to a number, listed
    here by first appearance and in column order (pandas lists
    [value_counts] by falling count; the order of the keys of a
    dictionary carries no meaning). *)
Record Summary : Type := {
  total_records : nat;
  date_range_start : string;
  date_range_end : string;
  total_sites : nat;
  site_types : list (string * nat);
  sites_list : list string;
  total_kwh : Q;
  avg_daily_kwh : option Q;
  max_daily_kwh : option Q;
  total_revenue : Q;
  avg_daily_revenue : option Q;
  max_daily_revenue : option Q;
  missing_values : list (string * nat);
  missing_percentage : list (string * Q)
}.

(** [Series.min()] and [Series.max()] of a column of dates: [None] is NaT,
    the minimum of no date. *)
Definition dates_min (xs : list Z) : option Z :=
  match xs with
  | [] => None
  | x :: xs' => Some (fold_left Z.min xs' x)
  end.

Definition dates_max (xs : list Z) : option Z :=
  match xs with
  | [] => None
  | x :: xs' => Some (fold_left Z.max xs' x)
  end.

(** The values of a float column that are not NaN. *)
Definition dropna (col : list (option Q)) : list Q :=
  flat_map (fun c => match c with Some x => [x] | None => [] end) col.

(** [Series.sum()], [Series.mean()], [Series.max()]: NaN is skipped; the
    sum of no value is 0, the mean and the maximum of no value are NaN. *)
Definition series_sum (col : list (option Q)) : Q :=
  fold_left Qplus (dropna col) 0.

Definition series_mean (col : list (option Q)) : option Q :=
  match dropna col with
  | [] => None
  | xs => Some (fold_left Qplus xs 0 / inject_Z (Z.of_nat (length xs)))
  end.

Definition series_max (col : list (option Q)) : option Q :=
  match dropna col with
  | [] => None
  | x :: xs => Some (fold_left Qmax xs x)
  end.

(** [Series.isnull().sum()]. *)
Definition isnull_sum (col : list (option Q)) : nat :=
  length (filter (fun c => match c with None => true | Some _ => false end)
            col).

(** [Series.unique()]: the values in order of first appearance. *)
Fixpoint unique_from (seen : list string) (xs : list string) : list string :=
  match xs with
  | [] => []
  | x :: xs' =>
      if existsb (String.eqb x) seen then unique_from seen xs'
      else x :: unique_from (x :: seen) xs'
  end.

Definition unique (xs : list string) : list string := unique_from [] xs.

(** [Series.value_counts().to_dict()]. *)
Definition value_counts (xs : list string) : list (string * nat) :=
  map (fun v => (v, count_occ string_dec xs v)) (unique xs).

(** [RenewableEnergyDataGenerator.generate_summary_stats].  The one
    statement that can raise is [strftime] on the minimum or the maximum
    date, which is NaT on a table without rows. *)
Definition generate_summary_stats
  (self : RenewableEnergyDataGenerator) (df : DataFrame) : exn + Summary :=
  match dates_min (map Date df), dates_max (map Date df) with
  | Some first, Some last =>
      let isnull :=
        [("Date", O); ("SiteID", O); ("SiteName", O); ("SiteType", O);
         ("EnergyProduced_kWh", isnull_sum (map EnergyProduced_kWh df));
         ("SpotMarketPrice", isnull_sum (map SpotMarketPrice df));
         ("Revenue", isnull_sum (map Revenue df));
         ("WeatherCondition", O);
         ("DowntimeHours", isnull_sum (map DowntimeHours df));
         ("Temperature_C", isnull_sum (map Temperature_C df));
         ("WindSpeed_mps", isnull_sum (map WindSpeed_mps df))]%string in
      inr {| total_records := length df;
             date_range_start := Civil.strftime_Ymd first;
             date_range_end := Civil.strftime_Ymd last;
             total_sites := length (unique (map SiteID df));
             site_types := value_counts (map SiteType df);
             sites_list := unique (map SiteID df);
             total_kwh := series_sum (map EnergyProduced_kWh df);
             avg_daily_kwh := series_mean (map EnergyProduced_kWh df);
             max_daily_kwh := series_max (map EnergyProduced_kWh df);
             total_revenue := series_sum (map Revenue df);
             avg_daily_revenue := series_mean (map Revenue df);
             max_daily_revenue := series_max (map Revenue df);
             missing_values := isnull;
             missing_percentage :=
               map (fun entry =>
                      (fst entry,
                       inject_Z (Z.of_nat (snd entry))
                       / inject_Z (Z.of_nat (length df)) * 100))
                 isnull |}
  | _, _ => inl (ValueError "NaTType does not support strftime")
  end.

(** ** The folder of an upload: [DataLakeUploader.create_folder_structure] *)

Definition create_folder_structure (date : Z) (data_type : string) : string :=
  let year := Civil.strftime_Y date in
  let month := Civil.strftime_m date in
  let day := Civil.strftime_d date in
  (data_type ++ "/" ++ year ++ "/" ++ month ++ "/" ++ day)%string.

Example summary_one_day :
  match one_day_run with
  | inr (df, _) =>
      match generate_summary_stats Reference.one_day df with
      | inr st =>
          Some (total_records st, date_range_start st, date_range_end st,
                total_sites st, site_types st, sites_list st)
      | inl _ => None
      end
  | inl _ => None
  end
  = Some (6%nat, "2023-01-01", "2023-01-01", 6%nat,
          [("battery", 1%nat); ("solar", 3%nat); ("wind", 2%nat)],
          ["BATT001"; "SOLAR001"; "SOLAR002"; "SOLAR003"; "WIND001";
           "WIND002"])%string.
Proof. vm_compute; reflexivity. Qed.

Example folder_2023_01_01 :
  create_folder_structure 19358 "renewable_energy"
  = "renewable_energy/2023/01/01"%string.
Proof. reflexivity. Qed.

(** ** Properties of the summary *)

Lemma fold_min_spec xs x :
  let m := fold_left Z.min xs x in
  (m <= x)%Z /\ Forall (fun y => (m <= y)%Z) xs /\ In m (x :: xs).
Proof.
  revert x; induction xs as [|y xs IH]; intros x; cbn.
  - repeat split; [lia | constructor | left; reflexivity].
  - destruct (IH (Z.min x y)) as (Hle & Hall & Hin).
    repeat split; [lia | constructor; [lia | exact Hall] |].
    destruct Hin as [Hin|Hin]; [|right; right; exact Hin].
    rewrite <- Hin. destruct (Z.min_spec x y) as [[_ ->]|[_ ->]]; auto.
Qed.

Lemma fold_max_spec xs x :
  let m := fold_left Z.max xs x in
  (x <= m)%Z /\ Forall (fun y => (y <= m)%Z) xs /\ In m (x :: xs).
Proof.
  revert x; induction xs as [|y xs IH]; intros x; cbn.
  - repeat split; [lia | constructor | left; reflexivity].
  - destruct (IH (Z.max x y)) as (Hle & Hall & Hin).
    repeat split; [lia | constructor; [lia | exact Hall] |].
    destruct Hin as [Hin|Hin]; [|right; right; exact Hin].
    rewrite <- Hin. destruct (Z.max_spec x y) as [[_ ->]|[_ ->]]; auto.
Qed.

Lemma dates_min_bounds xs lo hi :
  In lo xs -> In hi xs ->
  Forall (fun y => (lo <= y <= hi)%Z) xs ->
  dates_min xs = Some lo /\ dates_max xs = Some hi.
Proof.
  intros Hlo Hhi Hall; destruct xs as [|x xs]; [contradiction|].
  cbn [dates_min dates_max].
  destruct (fold_min_spec xs x) as (Hm1 & Hm2 & Hm3).
  destruct (fold_max_spec xs x) as (HM1 & HM2 & HM3).
  rewrite Forall_forall in Hall.
  assert (Hmin : forall y, In y (x :: xs) -> (fold_left Z.min xs x <= y)%Z).
  { intros y [<-|Hy]; [exact Hm1|].
    rewrite Forall_forall in Hm2; auto. }
  assert (Hmax : forall y, In y (x :: xs) -> (y <= fold_left Z.max xs x)%Z).
  { intros y [<-|Hy]; [exact HM1|].
    rewrite Forall_forall in HM2; auto. }
  pose proof (Hall _ Hm3). pose proof (Hall _ HM3).
  pose proof (Hmin _ Hlo). pose proof (Hmax _ Hhi).
  split; f_equal; lia.
Qed.

Lemma existsb_eqb_In x seen :
  existsb (String.eqb x) seen = true <-> In x seen.
Proof.
  rewrite existsb_exists; split.
  - intros (y & Hy & E); apply String.eqb_eq in E; subst; exact Hy.
  - intros H; exists x; split; [exact H | apply String.eqb_refl].
Qed.

Lemma unique_from_In seen xs y :
  In y (unique_from seen xs) <-> In y xs /\ ~ In y seen.
Proof.
  revert seen; induction xs as [|x xs IH]; intros seen; cbn; [tauto|].
  destruct (existsb (String.eqb x) seen) eqn:E.
  - apply existsb_eqb_In in E. rewrite IH. split.
    + tauto.
    + intros [[->|H] Hn]; tauto.
  - assert (Hx : ~ In x seen).
    { intros H; apply existsb_eqb_In in H; congruence. }
    cbn; rewrite IH; cbn. split.
    + intros [<-|[H1 H2]]; tauto.
    + intros [[->|H] Hn]; [tauto|].
      destruct (string_dec x y) as [->|Hne]; tauto.
Qed.

Lemma unique_from_NoDup seen xs : NoDup (unique_from seen xs).
Proof.
  revert seen; induction xs as [|x xs IH]; intros seen; cbn; [constructor|].
  destruct (existsb (String.eqb x) seen); [apply IH|].
  constructor; [|apply IH].
  rewrite unique_from_In; cbn; tauto.
Qed.

Lemma fold_plus_nonneg xs a :
  0 <= a -> Forall (fun x => 0 <= x) xs -> 0 <= fold_left Qplus xs a.
Proof.
  intros Ha Hx; revert a Ha; induction Hx as [|x xs Hx0 _ IH]; intros a Ha;
    cbn; [exact Ha|].
  apply IH; lra.
Qed.

Lemma fold_Qmax_spec xs x :
  x <= fold_left Qmax xs x /\ Forall (fun y => y <= fold_left Qmax xs x) xs.
Proof.
  revert x; induction xs as [|y xs IH]; intros x; cbn.
  - split; [lra | constructor].
  - destruct (IH (Qmax x y)) as (H1 & H2).
    pose proof (Q.le_max_l x y). pose proof (Q.le_max_r x y).
    repeat split; [lra | constructor; [lra | exact H2]].
Qed.

Lemma dropna_In col x : In x (dropna col) <-> In (Some x) col.
Proof.
  unfold dropna; rewrite in_flat_map; split.
  - intros ([y|] & Hc & Hx); cbn in Hx; [|contradiction].
    destruct Hx as [<-|[]]; exact Hc.
  - intros H; exists (Some x); split; [exact H | left; reflexivity].
Qed.

Lemma isnull_sum_same (f h : Row -> option Q) df :
  (forall r, In r df -> (f r = None <-> h r = None)) ->
  isnull_sum (map f df) = isnull_sum (map h df).
Proof.
  unfold isnull_sum; induction df as [|r df IH]; intros H; [reflexivity|].
  cbn [map filter].
  assert (Hr := H r (or_introl eq_refl)).
  assert (IH' := IH (fun r' Hr' => H r' (or_intror Hr'))).
  destruct (f r) as [x|], (h r) as [y|]; cbn [length]; try congruence.
  - destruct Hr as [_ Hr]; discriminate (Hr eq_refl).
  - destruct Hr as [Hr _]; discriminate (Hr eq_refl).
Qed.

Lemma isnull_sum_zero (f : Row -> option Q) df :
  (forall r, In r df -> f r <> None) -> isnull_sum (map f df) = 0%nat.
Proof.
  unfold isnull_sum; induction df as [|r df IH]; intros H; [reflexivity|].
  cbn [map filter].
  assert (Hr := H r (or_introl eq_refl)).
  destruct (f r); [|congruence].
  apply IH; intros; apply H; right; assumption.
Qed.

Section Summaries.

Context {numpy : NumPy} {python : Interpreter}.

Lemma generated_dates self g df g' :
  generate_all_data self g = inr (df, g') ->
  (forall d, In d (map Date df) -> In d (date_range self))
  /\ (forall site_id, In site_id (map SiteID df) ->
        In site_id (map fst (sites self)))
  /\ (sites self <> [] -> forall d, In d (date_range self) ->
        In d (map Date df))
  /\ (date_range self <> [] -> forall site_id,
        In site_id (map fst (sites self)) -> In site_id (map SiteID df)).
Proof.
  intros H. destruct (generate_all_data_keys _ _ _ _ H) as (_ & Hp).
  assert (Hkey : forall r, In r df ->
                   In (Date r) (date_range self)
                   /\ In (SiteID r) (map fst (sites self))).
  { intros r Hr.
    assert (Hin : In (row_key r) (map row_key df)) by (apply in_map; exact Hr).
    apply (Permutation_in _ Hp) in Hin.
    apply in_flat_map in Hin; destruct Hin as (sid & Hsid & Hin).
    apply in_map_iff in Hin; destruct Hin as (d & E & Hd).
    unfold row_key in E; injection E as <- <-; auto. }
  assert (Hrow : forall d sid,
             In d (date_range self) -> In sid (map fst (sites self)) ->
             exists r, In r df /\ Date r = d /\ SiteID r = sid).
  { intros d sid Hd Hsid.
    assert (Hin : In (d, sid) (map row_key df)).
    { eapply Permutation_in; [symmetry; exact Hp|].
      apply in_flat_map; exists sid; split; [exact Hsid|].
      apply (in_map (fun d0 => (d0, sid))); exact Hd. }
    apply in_map_iff in Hin; destruct Hin as (r & Hk & Hr).
    exists r; unfold row_key in Hk; injection Hk as Hd' Hs'; auto. }
  repeat split.
  - intros d Hd; apply in_map_iff in Hd; destruct Hd as (r & <- & Hr).
    apply Hkey; exact Hr.
  - intros sid Hs; apply in_map_iff in Hs; destruct Hs as (r & <- & Hr).
    apply Hkey; exact Hr.
  - intros Hne d Hd. destruct (sites self) as [|[sid info] rest] eqn:E;
      [congruence|].
    destruct (Hrow d sid Hd (or_introl eq_refl)) as (r & Hr & <- & _).
    apply in_map; exact Hr.
  - intros Hne sid Hsid. destruct (date_range self) as [|d rest] eqn:E;
      [congruence|].
    destruct (Hrow d sid (or_introl eq_refl) Hsid) as (r & Hr & _ & <-).
    apply in_map; exact Hr.
Qed.

(** X11.  The date bounds of the summary of a generated table are the
    start and the end date of the generator, printed as YYYY-MM-DD, and
    its record count is the number of rows; a generator constructed from
    the two printed bounds is the generator the table came from. *)
Theorem summary_dates_rebuild_generator start stop self g df g' :
  __init__ start stop = inr self ->
  (start_date self <= end_date self)%Z ->
  generate_all_data self g = inr (df, g') ->
  exists st,
    generate_summary_stats self df = inr st
    /\ total_records st = length df
    /\ date_range_start st = Civil.strftime_Ymd (start_date self)
    /\ date_range_end st = Civil.strftime_Ymd (end_date self)
    /\ __init__ (date_range_start st) (date_range_end st) = inr self.
Proof.
  intros Hinit Hle H.
  destruct (__init___inr _ _ _ Hinit) as (Hrange & Hsites & _).
  destruct (generated_dates _ _ _ _ H) as (Hd1 & _ & Hd2 & _).
  assert (Hne : sites self <> []) by (rewrite Hsites; discriminate).
  destruct (dates_min_bounds (map Date df) (start_date self) (end_date self))
    as (Hmin & Hmax).
  { apply (Hd2 Hne); rewrite Hrange; apply in_date_range; lia. }
  { apply (Hd2 Hne); rewrite Hrange; apply in_date_range; lia. }
  { apply Forall_forall; intros d Hd. apply Hd1 in Hd.
    rewrite Hrange in Hd; apply in_date_range in Hd; exact Hd. }
  unfold generate_summary_stats; rewrite Hmin, Hmax.
  eexists; split; [reflexivity|].
  cbn [total_records date_range_start date_range_end].
  repeat split.
  unfold __init__ in *.
  destruct (Calendar.to_datetime start) as [s|] eqn:Es; [|discriminate].
  destruct (Calendar.to_datetime stop) as [e|] eqn:Ee; [|discriminate].
  injection Hinit as <-; cbn [start_date end_date].
  rewrite (to_datetime_strftime s) by (eapply to_datetime_bounds; eauto).
  rewrite (to_datetime_strftime e) by (eapply to_datetime_bounds; eauto).
  reflexivity.
Qed.

(** X12.  On a table without rows the minimum date is NaT and the summary
    raises; on any table with a row it returns.  So for a generator with
    an inverted date range generation returns (an empty table) and the
    summary of that table raises [ValueError]. *)
Theorem summary_fails_on_inverted_range :
  (forall self df,
      df <> [] -> exists st, generate_summary_stats self df = inr st)
  /\ (forall start stop self g,
         __init__ start stop = inr self ->
         (end_date self < start_date self)%Z ->
         exists df g',
           generate_all_data self g = inr (df, g')
           /\ generate_summary_stats self df
              = inl (ValueError "NaTType does not support strftime")).
Proof.
  split.
  - intros self df Hne; unfold generate_summary_stats.
    destruct df as [|r df]; [congruence|]. cbn [map dates_min dates_max].
    eexists; reflexivity.
  - intros start stop self g Hinit Hlt.
    unfold __init__ in Hinit.
    destruct (Calendar.to_datetime start) as [s|]; [|discriminate].
    destruct (Calendar.to_datetime stop) as [e|]; [|discriminate].
    injection Hinit as <-; cbn [start_date end_date] in Hlt.
    assert (Hd : Calendar.date_range s e = []).
    { unfold Calendar.date_range.
      replace (Z.to_nat (e - s + 1)) with 0%nat by lia. reflexivity. }
    rewrite Hd. exists []; eexists; split; [vm_compute; reflexivity|].
    reflexivity.
Qed.

(** X13.  In the summary of a generated table the revenue column has as
    many missing values as the energy column, and the price and the
    downtime columns have none: revenue is missing exactly where energy
    is. *)
Theorem summary_missing_counts self g df g' st :
  generate_all_data self g = inr (df, g') ->
  generate_summary_stats self df = inr st ->
  dict_get "Revenue" (missing_values st)
  = dict_get "EnergyProduced_kWh" (missing_values st)
  /\ dict_get "SpotMarketPrice" (missing_values st) = Some 0%nat
  /\ dict_get "DowntimeHours" (missing_values st) = Some 0%nat
  /\ (forall column count,
         dict_get column (missing_values st) = Some count ->
         (count <= total_records st)%nat).
Proof.
  intros H Hst. unfold generate_summary_stats in Hst.
  destruct (dates_min (map Date df)); [|discriminate].
  destruct (dates_max (map Date df)); [|discriminate].
  injection Hst as <-; cbn [missing_values total_records].
  assert (Hlen : forall col, (isnull_sum col <= length col)%nat).
  { intros col; unfold isnull_sum; apply filter_length_le. }
  cbn [dict_get String.eqb Ascii.eqb Bool.eqb].
  repeat split.
  - f_equal. apply isnull_sum_same; intros r Hr.
    destruct (generated_row_values _ _ _ _ H r Hr)
      as (p & h & _ & _ & _ & _ & Hrev).
    rewrite Hrev; destruct (EnergyProduced_kWh r); cbn; split;
      congruence.
  - f_equal; apply isnull_sum_zero; intros r Hr.
    destruct (generated_row_values _ _ _ _ H r Hr) as (p & h & Hp & _).
    congruence.
  - f_equal; apply isnull_sum_zero; intros r Hr.
    destruct (generated_row_values _ _ _ _ H r Hr) as (p & h & _ & _ & Hh & _).
    congruence.
  - intros column count.
    repeat match goal with
           | |- context [if ?b then _ else _] => destruct b
           end; intros E; try discriminate; injection E as <-;
      try lia;
      match goal with
      | |- (isnull_sum (map ?f df) <= _)%nat =>
          specialize (Hlen (map f df)); rewrite length_map in Hlen;
          exact Hlen
      end.
Qed.

(** X14.  In the summary of a generated table the total energy and the
    total revenue are not negative, and the maximum daily energy is at
    least the energy of every row that has one. *)
Theorem summary_totals self g df g' st :
  generate_all_data self g = inr (df, g') ->
  generate_summary_stats self df = inr st ->
  0 <= total_kwh st /\ 0 <= total_revenue st
  /\ forall r e,
       In r df -> EnergyProduced_kWh r = Some e ->
       exists top, max_daily_kwh st = Some top /\ e <= top.
Proof.
  intros H Hst. unfold generate_summary_stats in Hst.
  destruct (dates_min (map Date df)); [|discriminate].
  destruct (dates_max (map Date df)); [|discriminate].
  injection Hst as <-; cbn [total_kwh total_revenue max_daily_kwh].
  repeat split.
  - unfold series_sum; apply fold_plus_nonneg; [lra|].
    apply Forall_forall; intros x Hx.
    apply dropna_In, in_map_iff in Hx; destruct Hx as (r & Hx & Hr).
    destruct (generated_row_values _ _ _ _ H r Hr)
      as (p & h & _ & _ & _ & Hen & _); auto.
  - unfold series_sum; apply fold_plus_nonneg; [lra|].
    apply Forall_forall; intros x Hx.
    apply dropna_In, in_map_iff in Hx; destruct Hx as (r & Hx & Hr).
    destruct (generated_row_values _ _ _ _ H r Hr)
      as (p & h & _ & Hp5 & _ & Hen & Hrev).
    rewrite Hrev in Hx. destruct (EnergyProduced_kWh r) as [e|];
      [|discriminate]. cbn in Hx; injection Hx as <-.
    specialize (Hen e eq_refl).
    apply Qle_shift_div_l; [reflexivity|].
    setoid_replace (0 * 1000) with 0 by ring.
    apply Qmult_le_0_compat; lra.
  - intros r e Hr He.
    assert (Hin : In e (dropna (map EnergyProduced_kWh df))).
    { apply dropna_In; rewrite <- He; apply in_map; exact Hr. }
    unfold series_max.
    destruct (dropna (map EnergyProduced_kWh df)) as [|x xs];
      [contradiction|].
    destruct (fold_Qmax_spec xs x) as (H1 & H2).
    eexists; split; [reflexivity|].
    destruct Hin as [<-|Hin]; [exact H1|].
    rewrite Forall_forall in H2; auto.
Qed.

(** X15.  The site list of the summary of a generated table holds each
    site id of the catalog once (when the date range is not empty), and
    the site count is its length: the number of sites of the catalog
    when the site ids of the catalog are distinct. *)
Theorem summary_sites self g df g' st :
  generate_all_data self g = inr (df, g') ->
  generate_summary_stats self df = inr st ->
  date_range self <> [] ->
  NoDup (sites_list st)
  /\ (forall site_id,
         In site_id (sites_list st) <-> In site_id (map fst (sites self)))
  /\ total_sites st = length (sites_list st)
  /\ (NoDup (map fst (sites self)) ->
      total_sites st = length (sites self)).
Proof.
  intros H Hst Hne. unfold generate_summary_stats in Hst.
  destruct (dates_min (map Date df)); [|discriminate].
  destruct (dates_max (map Date df)); [|discriminate].
  injection Hst as <-; cbn [sites_list total_sites].
  destruct (generated_dates _ _ _ _ H) as (_ & Hs1 & _ & Hs2).
  assert (Hiff : forall sid,
             In sid (unique (map SiteID df)) <-> In sid (map fst (sites self))).
  { intros sid; unfold unique; rewrite unique_from_In; cbn.
    split; [intros [Hin _]; auto | intros Hin; split; auto]. }
  split; [apply unique_from_NoDup|]; split; [exact Hiff|];
    split; [reflexivity|].
  intros Hnd. rewrite <- (length_map fst (sites self)).
  apply Permutation_length, NoDup_Permutation;
    [apply unique_from_NoDup | exact Hnd | exact Hiff].
Qed.

End Summaries.

(** ** Properties of the upload folder *)

Section Folder.

Local Open Scope Z_scope.

Ltac zdiv := Z.to_euclidean_division_equations; lia.

Lemma append_inj_l (t a b : string) : (t ++ a = t ++ b)%string -> a = b.
Proof.
  induction t as [|c t IH]; cbn; intros H; [exact H|].
  injection H as H; auto.
Qed.

Lemma digit_char_inj a b :
  0 <= a <= 9 -> 0 <= b <= 9 ->
  Civil.digit_char a = Civil.digit_char b -> a = b.
Proof.
  intros Ha Hb H. apply (f_equal Calendar.digit) in H.
  rewrite !digit_digit_char in H by assumption. congruence.
Qed.

(** X16.  The folder of an upload determines the day: for one data type,
    two dates (in the range of a pandas timestamp) with the same folder
    are the same day, so the uploads of different days never share a
    folder. *)
Theorem folder_determines_day data_type z1 z2 :
  -106751 <= z1 <= 106751 ->
  -106751 <= z2 <= 106751 ->
  create_folder_structure z1 data_type = create_folder_structure z2 data_type ->
  z1 = z2.
Proof.
  intros H1 H2 H.
  pose proof (days_from_civil_from_days z1) as R1.
  pose proof (days_from_civil_from_days z2) as R2.
  pose proof (civil_from_days_valid z1) as V1.
  pose proof (civil_from_days_valid z2) as V2.
  pose proof (civil_from_days_year z1 H1) as Y1.
  pose proof (civil_from_days_year z2 H2) as Y2.
  unfold create_folder_structure, Civil.strftime_Y, Civil.strftime_m,
    Civil.strftime_d in H.
  destruct (Civil.civil_from_days z1) as [[y1 m1] d1].
  destruct (Civil.civil_from_days z2) as [[y2 m2] d2].
  cbn [fst] in Y1, Y2. destruct V1 as (Hm1 & Hd1). destruct V2 as (Hm2 & Hd2).
  assert (Hb : forall y m d, d <= Calendar.days_in_month y m -> d <= 31).
  { intros y m d Hd; unfold Calendar.days_in_month in Hd.
    destruct (m =? 2); [destruct (Calendar.is_leap y); lia|].
    destruct (_ || _); lia. }
  assert (d1 <= 31) by (apply (Hb y1 m1); lia).
  assert (d2 <= 31) by (apply (Hb y2 m2); lia).
  cbv zeta in H. apply append_inj_l in H.
  unfold Civil.pad4, Civil.pad2 in H; cbn [append] in H.
  injection H as A3 A2 A1 A0 B1 B0 C1 C0.
  apply digit_char_inj in A3; [|zdiv|zdiv].
  apply digit_char_inj in A2; [|zdiv|zdiv].
  apply digit_char_inj in A1; [|zdiv|zdiv].
  apply digit_char_inj in A0; [|zdiv|zdiv].
  apply digit_char_inj in B1; [|zdiv|zdiv].
  apply digit_char_inj in B0; [|zdiv|zdiv].
  apply digit_char_inj in C1; [|zdiv|zdiv].
  apply digit_char_inj in C0; [|zdiv|zdiv].
  assert (y1 = y2) by zdiv.
  assert (m1 = m2) by zdiv.
  assert (d1 = d2) by zdiv.
  congruence.
Qed.

End Folder.

(** ** The further properties on a run *)

Lemma one_day_table : exists df g', one_day_run = inr (df, g').
Proof.
  destruct one_day_run as [x|[df g']] eqn:E.
  - exfalso; vm_compute in E; discriminate E.
  - exists df, g'; reflexivity.
Qed.

Lemma one_day_summary :
  exists df g' st,
    one_day_run = inr (df, g')
    /\ generate_summary_stats Reference.one_day df = inr st.
Proof.
  destruct one_day_table as (df & g' & E).
  destruct (@generate_all_data_inr Reference.numpy (Reference.python 0 0)
              Reference.one_day 0%Z df g' E)
    as (w & t & s & p & _ & _ & _ & _ & L & _).
  exists df, g'. destruct df as [|r df]; [discriminate L|].
  eexists; split; [exact E | reflexivity].
Qed.

Lemma energy_and_revenue_nonnegative_witness :
  exists df g',
    one_day_run = inr (df, g')
    /\ forall r, In r df ->
         (forall e, EnergyProduced_kWh r = Some e -> 0 <= e)
         /\ (forall v, Revenue r = Some v -> 0 <= v).
Proof.
  destruct one_day_table as (df & g' & E).
  exists df, g'; split; [exact E|].
  exact (energy_and_revenue_nonnegative (numpy := Reference.numpy)
           (python := Reference.python 0 0) Reference.one_day 0%Z df g' E).
Defined.

Lemma weather_cells_in_range_witness :
  exists df g',
    one_day_run = inr (df, g')
    /\ forall r, In r df ->
         In (WeatherCondition r)
           ["Sunny"; "Partly Cloudy"; "Cloudy"; "Rainy"; "Stormy"; "Foggy"]%string
         /\ (forall speed, WindSpeed_mps r = Some speed -> 0 <= speed).
Proof.
  destruct one_day_table as (df & g' & E).
  exists df, g'; split; [exact E|].
  exact (weather_cells_in_range (numpy := Reference.numpy)
           (python := Reference.python 0 0) Reference.one_day 0%Z df g' E).
Defined.

Lemma weather_model_returns_witness :
  exists w t s g',
    _generate_weather_data (numpy := Reference.numpy) Reference.one_day
      [19358%Z] 0%Z = inr (w, t, s, g')
    /\ length w = 1%nat /\ length t = 1%nat /\ length s = 1%nat
    /\ Forall (fun c => In c (weather_conditions Reference.one_day)) w
    /\ Forall (fun x => 0 <= x) s.
Proof.
  apply (weather_model_returns (numpy := Reference.numpy) Reference.one_day
           [19358%Z] 0%Z).
  reflexivity.
Defined.

Lemma wind_production_bounded_witness :
  exists production g',
    _generate_wind_production (numpy := Reference.numpy)
      [19358%Z] ["Cloudy"%string] [9] 100 0%Z = inr (production, g')
    /\ Forall (fun e => 0 <= e /\ e <= 100 * 24 * 1.3 * 1.15) production.
Proof.
  destruct (_generate_wind_production_spec (numpy := Reference.numpy)
              [19358%Z] ["Cloudy"%string] [9] 100 0%Z)
    as (production & g' & E & _).
  exists production, g'; split; [exact E|].
  apply (proj2 (wind_production_bounded (numpy := Reference.numpy))
           [19358%Z] ["Cloudy"%string] [9] 100 0%Z production g');
    [discriminate | exact E].
Defined.

Lemma output_sorted_witness :
  exists df g',
    one_day_run = inr (df, g')
    /\ Sorted (fun r1 r2 =>
                 (Date r1 < Date r2)%Z
                 \/ (Date r1 = Date r2
                     /\ String.leb (SiteID r1) (SiteID r2) = true)) df
    /\ StronglySorted (fun r1 r2 => (Date r1 <= Date r2)%Z) df.
Proof.
  destruct one_day_table as (df & g' & E).
  exists df, g'; split; [exact E|].
  exact (output_sorted (numpy := Reference.numpy)
           (python := Reference.python 0 0) Reference.one_day 0%Z df g' E).
Defined.

Lemma one_row_per_day_and_site_witness :
  exists df g',
    one_day_run = inr (df, g')
    /\ NoDup (map row_key df)
    /\ exists r, In r df /\ Date r = 19358%Z /\ SiteID r = "WIND002"%string.
Proof.
  destruct one_day_table as (df & g' & E).
  destruct (one_row_per_day_and_site (numpy := Reference.numpy)
              (python := Reference.python 0 0) Reference.one_day 0%Z df g' E)
    as (_ & Hrow & Hnodup).
  exists df, g'; split; [exact E|]; split.
  - apply Hnodup; repeat constructor; cbn; intuition discriminate.
  - apply Hrow; cbn; auto 10.
Defined.

Lemma rows_match_catalog_witness :
  exists df g',
    one_day_run = inr (df, g')
    /\ forall r, In r df ->
         (exists site_info,
             dict_get (SiteID r) default_sites = Some site_info
             /\ SiteName r = name site_info
             /\ SiteType r = type site_info
             /\ recognized (SiteType r))
         /\ Date r = 19358%Z.
Proof.
  destruct one_day_table as (df & g' & E).
  exists df, g'; split; [exact E|]. intros r Hr.
  destruct (rows_match_catalog (numpy := Reference.numpy)
              (python := Reference.python 0 0) Reference.one_day 0%Z df g' E
              r Hr) as (Hsite & _ & Hdate).
  split; [exact Hsite|].
  specialize (Hdate eq_refl); cbn in Hdate; lia.
Defined.

Lemma site_data_defaults_witness :
  exists w t s p g1 g2,
    _generate_weather_data (numpy := Reference.numpy) Reference.one_day
      [19358%Z] 0%Z = inr (w, t, s, g1)
    /\ _generate_spot_market_price (numpy := Reference.numpy)
         Reference.one_day [19358%Z] g1 = inr (p, g2)
    /\ generate_site_data (numpy := Reference.numpy)
         (python := Reference.python 0 0) Reference.one_day "WIND001"
         None None None None 0%Z
       = generate_site_data (numpy := Reference.numpy)
           (python := Reference.python 0 0) Reference.one_day "WIND001"
           (Some w) (Some t) (Some s) (Some p) 0%Z.
Proof.
  destruct (_generate_weather_data_spec (numpy := Reference.numpy)
              Reference.one_day [19358%Z] 0%Z eq_refl)
    as (w & t & s & g1 & Ew).
  destruct (_generate_spot_market_price_spec (numpy := Reference.numpy)
              Reference.one_day [19358%Z] g1) as (p & g2 & Ep & _).
  exists w, t, s, p, g1, g2; split; [exact Ew|]; split; [exact Ep|].
  exact (proj1 (site_data_defaults (numpy := Reference.numpy)
                  (python := Reference.python 0 0) Reference.one_day
                  "WIND001" 0%Z 0%Z w t s p g1 g2 Ew Ep)).
Defined.

Lemma unknown_site_id_raises_witness :
  generate_site_data (numpy := Reference.numpy)
    (python := Reference.python 0 0) Reference.one_day "HYDRO001"
    None None None None 0%Z
  = inl (KeyError "HYDRO001")
  /\ generate_site_data (numpy := Reference.numpy)
       (python := Reference.python 0 0) Reference.one_day "WIND001"
       (Some ["Sunny"%string]) (Some [10]) (Some [8]) (Some [50]) 0%Z
     <> inl (KeyError "WIND001").
Proof.
  split.
  - apply (proj1 (unknown_site_id_raises (numpy := Reference.numpy)
                    (python := Reference.python 0 0) Reference.one_day
                    "HYDRO001")).
    cbn; intuition discriminate.
  - apply (proj2 (unknown_site_id_raises (numpy := Reference.numpy)
                    (python := Reference.python 0 0) Reference.one_day
                    "WIND001")).
    cbn; auto 10.
Defined.

(** A generator whose catalog has a tidal site between a solar and a
    wind site, and one whose catalog is empty. *)
Definition tidal_generator : RenewableEnergyDataGenerator :=
  {| start_date := 19358;
     end_date := 19358;
     date_range := [19358%Z];
     sites :=
       [("SOLAR001", {| name := "Desert Sun Solar Farm"; type := "solar";
                        capacity_mw := Some 50; capacity_mwh := None |});
        ("TIDAL001", {| name := "Estuary Tidal Barrage"; type := "tidal";
                        capacity_mw := Some 20; capacity_mwh := None |});
        ("WIND001", {| name := "Prairie Wind Farm"; type := "wind";
                       capacity_mw := Some 100; capacity_mwh := None |})]%string;
     weather_conditions :=
       ["Sunny"; "Partly Cloudy"; "Cloudy"; "Rainy"; "Stormy"; "Foggy"]%string
  |}.

Definition empty_catalog_generator : RenewableEnergyDataGenerator :=
  {| start_date := 19358;
     end_date := 19358;
     date_range := [19358%Z];
     sites := [];
     weather_conditions :=
       ["Sunny"; "Partly Cloudy"; "Cloudy"; "Rainy"; "Stormy"; "Foggy"]%string
  |}.

Lemma unknown_site_type_aborts_generation_witness :
  generate_all_data (numpy := Reference.numpy)
    (python := Reference.python 0 0) tidal_generator 0%Z
  = inl (ValueError "Unknown site type: tidal").
Proof.
  apply (unknown_site_type_aborts_generation (numpy := Reference.numpy)
           (python := Reference.python 0 0) tidal_generator 0%Z
           [("SOLAR001"%string,
              {| name := "Desert Sun Solar Farm"; type := "solar";
                 capacity_mw := Some 50; capacity_mwh := None |})]
           "TIDAL001"%string
           {| name := "Estuary Tidal Barrage"; type := "tidal";
              capacity_mw := Some 20; capacity_mwh := None |}
           [("WIND001"%string,
              {| name := "Prairie Wind Farm"; type := "wind";
                 capacity_mw := Some 100; capacity_mwh := None |})]).
  - reflexivity.
  - reflexivity.
  - apply Forall_cons; [left; reflexivity | apply Forall_nil].
  - cbn; intuition discriminate.
  - unfold recognized; cbn; intuition discriminate.
Defined.

Lemma empty_catalog_raises_witness :
  generate_all_data (numpy := Reference.numpy)
    (python := Reference.python 0 0) empty_catalog_generator 0%Z
  = inl (ValueError "No objects to concatenate").
Proof.
  apply (empty_catalog_raises (numpy := Reference.numpy)
           (python := Reference.python 0 0) empty_catalog_generator 0%Z);
    reflexivity.
Defined.

Lemma summary_dates_rebuild_generator_witness :
  exists df g' st,
    one_day_run = inr (df, g')
    /\ generate_summary_stats Reference.one_day df = inr st
    /\ total_records st = length df
    /\ date_range_start st = "2023-01-01"%string
    /\ date_range_end st = "2023-01-01"%string
    /\ __init__ (date_range_start st) (date_range_end st)
       = inr Reference.one_day.
Proof.
  destruct one_day_table as (df & g' & E).
  destruct (summary_dates_rebuild_generator (numpy := Reference.numpy)
              (python := Reference.python 0 0)
              "2023-01-01" "2023-01-01" Reference.one_day 0%Z df g'
              eq_refl ltac:(cbn; lia) E)
    as (st & Hst & Hn & Hs & He & Hinit).
  exists df, g', st; repeat split; assumption.
Defined.

Lemma summary_fails_on_inverted_range_witness :
  exists df g',
    generate_all_data (numpy := Reference.numpy)
      (python := Reference.python 0 0) Reference.inverted 0%Z = inr (df, g')
    /\ generate_summary_stats Reference.inverted df
       = inl (ValueError "NaTType does not support strftime").
Proof.
  apply (proj2 (summary_fails_on_inverted_range (numpy := Reference.numpy)
                  (python := Reference.python 0 0))
           "2023-01-07"%string "2023-01-01"%string Reference.inverted 0%Z);
    [reflexivity | cbn; lia].
Defined.

Lemma summary_missing_counts_witness :
  exists df g' st,
    one_day_run = inr (df, g')
    /\ generate_summary_stats Reference.one_day df = inr st
    /\ dict_get "Revenue" (missing_values st)
       = dict_get "EnergyProduced_kWh" (missing_values st)
    /\ dict_get "SpotMarketPrice" (missing_values st) = Some 0%nat
    /\ dict_get "DowntimeHours" (missing_values st) = Some 0%nat.
Proof.
  destruct one_day_summary as (df & g' & st & E & Es).
  destruct (summary_missing_counts (numpy := Reference.numpy)
              (python := Reference.python 0 0) Reference.one_day 0%Z df g' st
              E Es) as (H1 & H2 & H3 & _).
  exists df, g', st; repeat split; assumption.
Defined.

Lemma summary_totals_witness :
  exists df g' st,
    one_day_run = inr (df, g')
    /\ generate_summary_stats Reference.one_day df = inr st
    /\ 0 <= total_kwh st /\ 0 <= total_revenue st.
Proof.
  destruct one_day_summary as (df & g' & st & E & Es).
  destruct (summary_totals (numpy := Reference.numpy)
              (python := Reference.python 0 0) Reference.one_day 0%Z df g' st
              E Es) as (H1 & H2 & _).
  exists df, g', st; repeat split; assumption.
Defined.

Lemma summary_sites_witness :
  exists df g' st,
    one_day_run = inr (df, g')
    /\ generate_summary_stats Reference.one_day df = inr st
    /\ NoDup (sites_list st)
    /\ total_sites st = 6%nat.
Proof.
  destruct one_day_summary as (df & g' & st & E & Es).
  destruct (summary_sites (numpy := Reference.numpy)
              (python := Reference.python 0 0) Reference.one_day 0%Z df g' st
              E Es ltac:(discriminate)) as (H1 & _ & _ & H4).
  exists df, g', st; repeat split; try assumption.
  apply H4. repeat constructor; cbn; intuition discriminate.
Defined.

Lemma folder_determines_day_witness :
  create_folder_structure 19358 "renewable_energy"
  = "renewable_energy/2023/01/01"%string
  /\ (19357 + 1)%Z = 19358%Z.
Proof.
  split; [reflexivity|].
  apply (folder_determines_day "renewable_energy" (19357 + 1) 19358);
    [lia | lia | reflexivity].
Defined.

(** ** Site frames before degradation, and rows per site type *)

Lemma filter_length_ext {A : Type} (f h : A -> bool) l :
  (forall x, In x l -> f x = h x) ->
  length (filter f l) = length (filter h l).
Proof.
  induction l as [|x l IH]; intros H; [reflexivity|]; cbn.
  rewrite (H x (or_introl eq_refl)).
  assert (IH' : length (filter f l) = length (filter h l))
    by (apply IH; intros; apply H; right; assumption).
  destruct (h x); cbn; rewrite IH'; reflexivity.
Qed.

Lemma filter_const_length {A : Type} (b : bool) (l : list A) :
  length (filter (fun _ => b) l) = if b then length l else 0%nat.
Proof.
  induction l as [|x l IH]; cbn; [destruct b; reflexivity|].
  destruct b; cbn; rewrite ?IH; reflexivity.
Qed.

Lemma filter_length_map {A B : Type} (k : A -> B) (f : B -> bool) l :
  length (filter f (map k l)) = length (filter (fun x => f (k x)) l).
Proof.
  induction l as [|x l IH]; [reflexivity|]; cbn.
  destruct (f (k x)); cbn; rewrite IH; reflexivity.
Qed.

Lemma filter_length_perm {A : Type} (f : A -> bool) l l' :
  Permutation l l' -> length (filter f l) = length (filter f l').
Proof.
  induction 1 as [|x l l' _ IH|x y l|l l' l'' _ IH1 _ IH2]; cbn.
  - reflexivity.
  - destruct (f x); cbn; rewrite IH; reflexivity.
  - destruct (f x), (f y); reflexivity.
  - congruence.
Qed.

Lemma filter_length_pairs {A B : Type} (f : B -> bool) (xs : list A)
  (ys : list B) :
  length (filter (fun k => f (snd k))
            (flat_map (fun y => map (fun x => (x, y)) xs) ys))
  = (length xs * length (filter f ys))%nat.
Proof.
  induction ys as [|y ys IH]; cbn; [lia|].
  rewrite filter_app, length_app, IH.
  rewrite filter_length_map; cbn [snd].
  rewrite (filter_const_length (f y) xs).
  destruct (f y); cbn [length]; lia.
Qed.

Lemma count_occ_filter xs ty :
  count_occ string_dec xs ty
  = length (filter (fun x => (x =? ty)%string) xs).
Proof.
  induction xs as [|x xs IH]; [reflexivity|]; cbn.
  destruct (string_dec x ty) as [->|Hne].
  - rewrite String.eqb_refl; cbn; rewrite IH; reflexivity.
  - apply String.eqb_neq in Hne; rewrite Hne; exact IH.
Qed.

Lemma dict_get_NoDup {V : Type} (d : list (string * V)) key v :
  NoDup (map fst d) -> In (key, v) d -> dict_get key d = Some v.
Proof.
  induction d as [|[k x] d IH]; cbn; [tauto|]; intros Hnd Hin.
  inversion Hnd as [|? ? Hfresh Hnd']; subst.
  destruct Hin as [E|Hin].
  - injection E as -> ->. rewrite String.eqb_refl; reflexivity.
  - destruct (String.eqb_spec k key) as [->|Hne]; [|apply IH; assumption].
    exfalso; apply Hfresh. apply (in_map fst) in Hin; exact Hin.
Qed.

Section Frames.

Context {numpy : NumPy} {python : Interpreter}.

(** X17.  The frame that [generate_site_data] returns for a site has one
    row per day and no missing value: energy, price, revenue, downtime,
    temperature and wind speed are present in every row, the energy is
    not negative, the downtime lies in [0, 24] and the revenue is the
    energy times the price divided by 1000. *)
Theorem site_frame_complete self site_id w t s p g df g' :
  length w = length (date_range self) ->
  length t = length (date_range self) ->
  length s = length (date_range self) ->
  length p = length (date_range self) ->
  generate_site_data self site_id (Some w) (Some t) (Some s) (Some p) g
  = inr (df, g') ->
  length df = length (date_range self)
  /\ forall r, In r df ->
       SiteID r = site_id
       /\ exists e price h temperature speed,
            EnergyProduced_kWh r = Some e
            /\ SpotMarketPrice r = Some price
            /\ Revenue r = Some (e * price / 1000)
            /\ DowntimeHours r = Some h
            /\ Temperature_C r = Some temperature
            /\ WindSpeed_mps r = Some speed
            /\ 0 <= e /\ 0 <= h /\ h <= 24.
Proof.
  intros Lw Lt Ls Lp H.
  destruct (generate_site_data_inr _ _ _ _ _ _ _ _ _ Lw Lt Ls Lp H)
    as (Hl & Hrows).
  split; [exact Hl|]; intros r Hr.
  destruct (Hrows r Hr) as (info & prod & dt & i & Hrow).
  destruct Hrow as (Hi & _ & Hprod & Hdt & Lprod & Ldt & _ & Hs & _ & _ & He
                    & Hp & Hrev & _ & Hh & Ht & Hw).
  split; [exact Hs|].
  destruct (Hprod g) as (ga & Ea). destruct (Hdt g) as (gb & Eb).
  pose proof (_generate_energy_production_nonneg _ _ _ _ _ _ _ _ _ Ea) as Fprod.
  destruct (_generate_downtime_inr _ _ _ _ _ Eb) as (_ & Fdt).
  assert (Hprod_i : 0 <= nth i prod 0) by (apply nth_Forall; [exact Fprod|lia]).
  assert (Hdt_i : 0 <= nth i dt 0 /\ nth i dt 0 <= 24)
    by (apply (nth_Forall (fun h => 0 <= h /\ h <= 24)); [exact Fdt|lia]).
  exists (nth i prod 0 * (1 - nth i dt 0 / 24)), (nth i p 0), (nth i dt 0),
    (nth i t 0), (nth i s 0).
  repeat split; try assumption; try tauto.
  apply Qmult_le_0_compat; [exact Hprod_i|].
  assert (nth i dt 0 / 24 <= 1) by (apply Qle_shift_div_r; lra). lra.
Qed.

(** X18.  The [site_types] of the summary count rows, not sites: for a
    generated table (the site ids of the catalog being distinct) the
    count of a site type is the number of days of the date range times
    the number of sites of that type in the catalog. *)
Theorem summary_site_types_count_rows self g df g' st :
  generate_all_data self g = inr (df, g') ->
  generate_summary_stats self df = inr st ->
  NoDup (map fst (sites self)) ->
  forall site_type count,
    In (site_type, count) (site_types st) ->
    count
    = (length (date_range self)
       * length (filter (fun entry => (type (snd entry) =? site_type)%string)
                   (sites self)))%nat.
Proof.
  intros H Hst Hnd ty count Hin. unfold generate_summary_stats in Hst.
  destruct (dates_min (map Date df)); [|discriminate].
  destruct (dates_max (map Date df)); [|discriminate].
  injection Hst as <-; cbn [site_types] in Hin.
  unfold value_counts in Hin. apply in_map_iff in Hin.
  destruct Hin as (v & E & _); injection E as -> <-.
  destruct (generate_all_data_keys _ _ _ _ H) as (_ & Hp).
  set (type_of := fun site_id =>
                    match dict_get site_id (sites self) with
                    | Some info => type info
                    | None => ""%string
                    end).
  rewrite count_occ_filter, filter_length_map.
  rewrite (filter_length_ext _
             (fun r => (type_of (snd (row_key r)) =? ty)%string)).
  2:{ intros r Hr.
      destruct (generated_row_site _ _ _ _ H r Hr) as (info & Hget & _ & Hy & _).
      unfold type_of, row_key; cbn [snd]. rewrite Hget, Hy; reflexivity. }
  rewrite <- (filter_length_map row_key
                (fun k => (type_of (snd k) =? ty)%string)).
  rewrite (filter_length_perm _ _ _ Hp).
  rewrite (filter_length_pairs (fun site_id => (type_of site_id =? ty)%string)).
  f_equal.
  rewrite filter_length_map.
  apply filter_length_ext; intros [sid info] Hentry; cbn [fst snd].
  unfold type_of. rewrite (dict_get_NoDup _ _ _ Hnd Hentry); reflexivity.
Qed.

End Frames.

Lemma site_frame_complete_witness :
  exists df g',
    generate_site_data (numpy := Reference.numpy)
      (python := Reference.python 0 0) Reference.one_day "WIND001"
      (Some ["Sunny"%string]) (Some [10]) (Some [8]) (Some [50]) 0%Z
    = inr (df, g')
    /\ length df = 1%nat
    /\ forall r, In r df ->
         SiteID r = "WIND001"%string
         /\ exists e price h temperature speed,
              EnergyProduced_kWh r = Some e
              /\ SpotMarketPrice r = Some price
              /\ Revenue r = Some (e * price / 1000)
              /\ DowntimeHours r = Some h
              /\ Temperature_C r = Some temperature
              /\ WindSpeed_mps r = Some speed
              /\ 0 <= e /\ 0 <= h /\ h <= 24.
Proof.
  destruct (generate_site_data (numpy := Reference.numpy)
              (python := Reference.python 0 0) Reference.one_day "WIND001"
              (Some ["Sunny"%string]) (Some [10]) (Some [8]) (Some [50]) 0%Z)
    as [x|[df g']] eqn:E.
  - exfalso; vm_compute in E; discriminate E.
  - exists df, g'; split; [reflexivity|].
    exact (site_frame_complete (numpy := Reference.numpy)
             (python := Reference.python 0 0) Reference.one_day "WIND001"
             ["Sunny"%string] [10] [8] [50] 0%Z df g'
             eq_refl eq_refl eq_refl eq_refl E).
Defined.

Lemma summary_site_types_count_rows_witness :
  exists df g' st,
    one_day_run = inr (df, g')
    /\ generate_summary_stats Reference.one_day df = inr st
    /\ forall count, In ("solar"%string, count) (site_types st) ->
         count = 3%nat.
Proof.
  destruct one_day_summary as (df & g' & st & E & Es).
  exists df, g', st; split; [exact E|]; split; [exact Es|].
  intros count Hin.
  apply (summary_site_types_count_rows (numpy := Reference.numpy)
           (python := Reference.python 0 0) Reference.one_day 0%Z df g' st
           E Es) in Hin; [exact Hin|].
  repeat constructor; cbn; intuition discriminate.
Defined.

(** ** Ceilings of the solar and the battery model *)

Section Ceilings.

Context {numpy : NumPy}.

Ltac run_with E := unfold bind at 1; rewrite E; cbv beta iota.

(** X19.  With a sine that stays within [-1, 1] and a capacity that is
    not negative, every value of the solar model lies between 0 and
    capacity * 12 * 0.95 * 1.2 (twelve sun hours, a sunny day, the
    largest daily variation) and every value of the battery model
    between 0 and capacity * 4 * 0.7 * 1.2 * 1.2. *)
Theorem solar_and_battery_production_bounded capacity :
  (forall x, -1 <= np_sin x /\ np_sin x <= 1) ->
  0 <= capacity ->
  (forall dates weather temperature g production g',
      _generate_solar_production dates weather temperature capacity g
      = inr (production, g') ->
      Forall (fun e => 0 <= e /\ e <= capacity * 12 * 0.95 * 1.2) production)
  /\ (forall dates weather g production g',
         _generate_battery_production dates weather capacity g
         = inr (production, g') ->
         Forall (fun e => 0 <= e /\ e <= capacity * 4 * 0.7 * 1.2 * 1.2)
           production).
Proof.
  intros Hsin Hcap; split.
  - intros dates weather temperature g production g'.
    unfold _generate_solar_production; intros H.
    destruct (np_random_uniform_spec 0.8 1.2 (length dates) g ltac:(lra))
      as (dv & g1 & E & _ & Fdv).
    revert H; run_with E; unfold ret; intros H; injection H as <- _.
    apply Forall_map, Forall_forall; intros x Hx.
    apply in_map2 in Hx; destruct Hx as (a & v & Ha & Hv & ->).
    apply in_map2 in Ha; destruct Ha as (b & tf & Hb & Htf & ->).
    apply in_map2 in Hb; destruct Hb as (c & wf & Hc & Hwf & ->).
    apply in_map2 in Hc; destruct Hc as (ch & sf & Hch & Hsf & ->).
    apply in_map_iff in Hch; destruct Hch as (h & <- & Hh).
    apply in_map_iff in Hh; destruct Hh as (sf' & <- & Hsf').
    apply in_map_iff in Hsf; destruct Hsf as (d & <- & _).
    apply in_map_iff in Hsf'; destruct Hsf' as (d' & <- & _).
    apply in_map_iff in Hwf; destruct Hwf as (label & <- & _).
    apply in_map_iff in Htf; destruct Htf as (temp & <- & _).
    rewrite Forall_forall in Fdv; specialize (Fdv v Hv); cbv beta in Fdv.
    pose proof (Hsin (2 * np_pi * (dayofyear d - 80) / 365.25)) as Hs1.
    pose proof (Hsin (2 * np_pi * (dayofyear d' - 80) / 365.25)) as Hs2.
    set (s1 := np_sin (2 * np_pi * (dayofyear d - 80) / 365.25)) in *.
    set (s2 := np_sin (2 * np_pi * (dayofyear d' - 80) / 365.25)) in *.
    set (wf := if (label =? "Sunny")%string then 0.95 else _).
    assert (Hwf : 0 <= wf /\ wf <= 0.95).
    { subst wf. repeat (match goal with
                        | |- context [if ?b then _ else _] => destruct b
                        end; [lra|]); lra. }
    set (tf := Qmax 0.5 (1 - 0.01 * Qmax 0 (temp - 25))).
    assert (Htf : 0 <= tf /\ tf <= 1).
    { subst tf; split.
      - pose proof (Q.le_max_l 0.5 (1 - 0.01 * Qmax 0 (temp - 25))); lra.
      - pose proof (Q.le_max_l 0 (temp - 25)).
        apply Q.max_lub; lra. }
    split; [apply Q.le_max_r|].
    assert (H1 : 0 <= capacity * (8 + 4 * (0.7 + 0.3 * s2))
                 /\ capacity * (8 + 4 * (0.7 + 0.3 * s2)) <= capacity * 12)
      by (split; nra).
    set (p1 := capacity * (8 + 4 * (0.7 + 0.3 * s2))) in *.
    assert (H2 : 0 <= p1 * (0.7 + 0.3 * s1)
                 /\ p1 * (0.7 + 0.3 * s1) <= capacity * 12)
      by (split; nra).
    set (p2 := p1 * (0.7 + 0.3 * s1)) in *.
    assert (H3 : 0 <= p2 * wf /\ p2 * wf <= capacity * 12 * 0.95)
      by (split; nra).
    set (p3 := p2 * wf) in *.
    assert (H4 : 0 <= p3 * tf /\ p3 * tf <= capacity * 12 * 0.95)
      by (split; nra).
    set (p4 := p3 * tf) in *.
    apply Q.max_lub; nra.
  - intros dates weather g production g'.
    unfold _generate_battery_production; intros H.
    destruct (np_random_uniform_spec 0.3 1.0 (length dates) g ltac:(lra))
      as (ov & g1 & E & _ & Fov).
    revert H; run_with E; unfold ret; intros H; injection H as <- _.
    apply Forall_map, Forall_forall; intros x Hx.
    apply in_map2 in Hx; destruct Hx as (a & v & Ha & Hv & ->).
    apply in_map2 in Ha; destruct Ha as (b & wf & Hb & Hwf & ->).
    apply in_map2 in Hb; destruct Hb as (c & kf & Hc & Hkf & ->).
    apply in_map_iff in Hc; destruct Hc as (sf & <- & Hsf).
    apply in_map_iff in Hsf; destruct Hsf as (d & <- & _).
    apply in_map_iff in Hkf; destruct Hkf as (d' & <- & _).
    apply in_map_iff in Hwf; destruct Hwf as (label & <- & _).
    rewrite Forall_forall in Fov; specialize (Fov v Hv); cbv beta in Fov.
    pose proof (Hsin (2 * np_pi * dayofyear d / 365.25)) as Hs1.
    assert (Habs : 0 <= Qabs (np_sin (2 * np_pi * dayofyear d / 365.25))
                   /\ Qabs (np_sin (2 * np_pi * dayofyear d / 365.25)) <= 1).
    { split; [apply Qabs_nonneg|]. apply Qabs_Qle_condition; lra. }
    set (s1 := Qabs (np_sin (2 * np_pi * dayofyear d / 365.25))) in *.
    set (kf := 0.8 + 0.4 * as_float (Calendar.dayofweek d' <? 5)%Z).
    assert (Hkf : 0 <= kf /\ kf <= 1.2).
    { subst kf; destruct (Calendar.dayofweek d' <? 5)%Z; cbn; split; lra. }
    set (wf := if (label =? "Sunny")%string then 0.3 else _).
    assert (Hwf : 0 <= wf /\ wf <= 1.2).
    { subst wf. repeat (match goal with
                        | |- context [if ?b then _ else _] => destruct b
                        end; [lra|]); lra. }
    split; [apply Q.le_max_r|].
    assert (H1 : 0 <= capacity * 4 * (0.4 + 0.3 * s1)
                 /\ capacity * 4 * (0.4 + 0.3 * s1) <= capacity * 4 * 0.7)
      by (split; nra).
    set (p1 := capacity * 4 * (0.4 + 0.3 * s1)) in *.
    assert (H2 : 0 <= p1 * kf /\ p1 * kf <= capacity * 4 * 0.7 * 1.2)
      by (split; nra).
    set (p2 := p1 * kf) in *.
    assert (H3 : 0 <= p2 * wf /\ p2 * wf <= capacity * 4 * 0.7 * 1.2 * 1.2)
      by (split; nra).
    set (p3 := p2 * wf) in *.
    apply Q.max_lub; nra.
Qed.

End Ceilings.

Lemma Qsquare_nonneg (a : Q) : 0 <= a * a.
Proof. nra. Qed.

Lemma bhaskara_bounds (t : Q) :
  0 <= t -> t <= Reference.pi_approx ->
  0 <= 16 * t * (Reference.pi_approx - t)
       / (5 * Reference.pi_approx * Reference.pi_approx
          - 4 * t * (Reference.pi_approx - t))
  /\ 16 * t * (Reference.pi_approx - t)
     / (5 * Reference.pi_approx * Reference.pi_approx
        - 4 * t * (Reference.pi_approx - t)) <= 1.
Proof.
  intros H0 H1.
  set (pi := Reference.pi_approx) in *.
  assert (Hpi : pi == 355 # 113) by reflexivity. clearbody pi.
  assert (Hu : 0 <= t * (pi - t)) by (apply Qmult_le_0_compat; lra).
  pose proof (Qsquare_nonneg (pi - 2 * t)) as Hsq.
  assert (Hq : 4 * (t * (pi - t)) <= pi * pi) by lra.
  assert (Hpp : pi * pi == (355 # 113) * (355 # 113))
    by (rewrite Hpi; reflexivity).
  assert (Hden : 0 < 5 * pi * pi - 4 * t * (pi - t)) by lra.
  split.
  - apply Qle_shift_div_l; [exact Hden|]. lra.
  - apply Qle_shift_div_r; [exact Hden|]. lra.
Qed.

(** The sine of the executable instance stays within [-1, 1]. *)
Lemma sin_approx_bounds x :
  -1 <= Reference.sin_approx x /\ Reference.sin_approx x <= 1.
Proof.
  unfold Reference.sin_approx.
  set (pi := Reference.pi_approx).
  set (turn := 2 * pi).
  set (y := x - inject_Z (Qfloor (x / turn)) * turn).
  assert (Hpi : pi == 355 # 113) by reflexivity.
  assert (Hy : 0 <= y /\ y < turn).
  { pose proof (Qfloor_le (x / turn)) as Hl.
    pose proof (Qlt_floor (x / turn)) as Hu.
    rewrite inject_Z_plus in Hu.
    assert (Hx : x == x / turn * turn) by (subst turn; field; lra).
    set (q := x / turn) in *. set (f := inject_Z (Qfloor q)) in *.
    change (inject_Z 1) with 1 in Hu.
    assert (Ht : 0 < turn) by (subst turn; lra).
    subst y. split; nra. }
  cbv zeta. rewrite Qred_correct.
  destruct (Qle_bool y pi) eqn:E.
  - apply Qle_bool_iff in E.
    destruct (bhaskara_bounds y (proj1 Hy) E) as (A & B).
    fold pi in A, B. lra.
  - assert (Hgt : pi < y).
    { apply Qnot_le_lt; intros Hc; apply Qle_bool_iff in Hc; congruence. }
    destruct (bhaskara_bounds (y - pi)) as (A & B).
    + lra.
    + subst turn; fold pi; lra.
    + fold pi in A, B. lra.
Qed.

Lemma solar_and_battery_production_bounded_witness :
  (exists production g',
      _generate_solar_production (numpy := Reference.numpy)
        [19358%Z] ["Sunny"%string] [30] 50 0%Z = inr (production, g')
      /\ Forall (fun e => 0 <= e /\ e <= 50 * 12 * 0.95 * 1.2) production)
  /\ exists production g',
       _generate_battery_production (numpy := Reference.numpy)
         [19358%Z] ["Stormy"%string] 200 0%Z = inr (production, g')
       /\ Forall (fun e => 0 <= e /\ e <= 200 * 4 * 0.7 * 1.2 * 1.2)
            production.
Proof.
  pose proof (solar_and_battery_production_bounded (numpy := Reference.numpy))
    as Hbound.
  split.
  - destruct (_generate_solar_production_spec (numpy := Reference.numpy)
                [19358%Z] ["Sunny"%string] [30] 50 0%Z)
      as (production & g' & E & _).
    exists production, g'; split; [exact E|].
    apply (proj1 (Hbound 50 sin_approx_bounds ltac:(discriminate))
             [19358%Z] ["Sunny"%string] [30] 0%Z production g' E).
  - destruct (_generate_battery_production_spec (numpy := Reference.numpy)
                [19358%Z] ["Stormy"%string] 200 0%Z)
      as (production & g' & E & _).
    exists production, g'; split; [exact E|].
    apply (proj2 (Hbound 200 sin_approx_bounds ltac:(discriminate))
             [19358%Z] ["Stormy"%string] 0%Z production g' E).
Defined.
